(** * VIIPER C examples: virtual keyboard and virtual Xbox 360 pad

    A shallow embedding of [examples/c/virtual_keyboard/main.c] and
    [examples/c/virtual_x360_pad/main.c].  The two programs are clients of
    the VIIPER library: they parse a [host:port] argument, pick or create a
    bus, add a device, and then exchange reports with it.

    The programs are interaction trees over the calls they make to libc and
    to the VIIPER library ([call], answered by a handler), so that what a
    program sends, prints and frees is read off the trace of a run. *)

From Stdlib Require Import ZArith List String Ascii Lia Bool Arith.
From Stdlib.Strings Require Import Byte.
From Stdlib Require Import DecimalString DecimalNat.
From Stdlib Require DecimalFacts.
From ITree Require Import ITree Eq.Shallow.
Import ListNotations.
Import ITreeNotations.
Local Open Scope string_scope.
Local Open Scope list_scope.
Local Open Scope itree_scope.

(* ===================================================================== *)
(** * C data: fixed-width integers, arrays, strings                       *)
(* ===================================================================== *)

Module C.

(** [uint8_t] is a [byte]; its value as a C [int] after promotion. *)
Definition uint8_t := byte.
Definition u8 (b : uint8_t) : Z := Z.of_N (Byte.to_N b).

(** Conversion to [uint8_t], [uint16_t] and [unsigned long long] wraps. *)
Definition to_uint8_t (z : Z) : Z := (z mod 256)%Z.
Definition to_uint16_t (z : Z) : Z := (z mod 65536)%Z.
Definition to_ull (z : Z) : Z := (z mod 2 ^ 64)%Z.

Definition INT_MIN : Z := (-2147483648)%Z.
Definition INT_MAX : Z := 2147483647%Z.

(** An array in memory: a cell is [None] until it is first written
    ([char host[256];] and a fresh [malloc] block start uninitialised). *)
Definition array (A : Type) := list (option A).

Definition uninit {A} (n : nat) : array A := repeat None n.

(** [a[i] = v]: [None] when [i] is outside the array. *)
Definition store {A} (a : array A) (i : nat) (v : A) : option (array A) :=
  if (i <? List.length a)%nat
  then Some (firstn i a ++ Some v :: skipn (S i) a)
  else None.

(** [memcpy(dst + off, src, n)]: [None] when it would read past [src] or
    write past [dst]. *)
Definition memcpy {A} (dst : array A) (off : nat) (src : list A) (n : nat)
  : option (array A) :=
  if (n <=? List.length src)%nat && (off + n <=? List.length dst)%nat
  then Some (firstn off dst ++ map Some (firstn n src) ++ skipn (off + n) dst)
  else None.

(** The first [n] cells of [a] as values, as a callee reading [n] bytes from
    the pointer sees them: [None] if one of them is outside [a] or was never
    written. *)
Fixpoint read {A} (a : array A) (n : nat) {struct n} : option (list A) :=
  match n with
  | O => Some []
  | S n' =>
    match a with
    | Some v :: a' => option_map (cons v) (read a' n')
    | _ => None
    end
  end.

Definition NUL : ascii := Ascii.zero.

(** The C string stored at the start of a [char] array: the characters
    before the first NUL; [None] when the array holds no NUL before its end
    or before an unwritten cell. *)
Fixpoint cstring (a : array ascii) : option string :=
  match a with
  | Some c :: a' =>
    if Ascii.eqb c NUL then Some EmptyString
    else option_map (String c) (cstring a')
  | _ => None
  end.

(** A C string holds no NUL before its end. *)
Definition is_cstring (s : string) : bool :=
  forallb (fun c => negb (Ascii.eqb c NUL)) (list_ascii_of_string s).

(** [strrchr(s, c)] for [c <> NUL]: the offset of the last [c] in [s]. *)
Fixpoint strrchr (s : string) (c : ascii) : option nat :=
  match s with
  | EmptyString => None
  | String a rest =>
    match strrchr rest c with
    | Some i => Some (S i)
    | None => if Ascii.eqb a c then Some O else None
    end
  end.

(** [s + n]: the string that starts [n] characters into [s]. *)
Fixpoint offset (s : string) (n : nat) : string :=
  match n, s with
  | O, _ => s
  | S n', String _ rest => offset rest n'
  | S _, EmptyString => EmptyString
  end.

(** [snprintf(buf, size, "%s", s)]: at most [size - 1] characters of [s],
    then a NUL. *)
Definition snprintf_s (buf : array ascii) (size : nat) (s : string)
  : option (array ascii) :=
  match size with
  | O => Some buf
  | S m =>
    let n := Nat.min (String.length s) m in
    match memcpy buf 0 (list_ascii_of_string s) n with
    | Some buf' => store buf' n NUL
    | None => None
    end
  end.

Definition isspace (a : ascii) : bool :=
  let n := nat_of_ascii a in (n =? 32)%nat || ((9 <=? n)%nat && (n <=? 13)%nat).

Definition isdigit (a : ascii) : bool :=
  let n := nat_of_ascii a in (48 <=? n)%nat && (n <=? 57)%nat.

Fixpoint skip_space (s : string) : string :=
  match s with
  | String a rest => if isspace a then skip_space rest else s
  | EmptyString => s
  end.

(** The value of the longest prefix of decimal digits, [acc] being the
    value of the digits already read. *)
Fixpoint digits (s : string) (acc : Z) : Z :=
  match s with
  | String a rest =>
    if isdigit a then digits rest (10 * acc + (Z.of_nat (nat_of_ascii a) - 48))%Z
    else acc
  | EmptyString => acc
  end.

(** The number [atoi] reads: optional white space, an optional sign, then
    decimal digits; [0] when no digit is there. *)
Definition atoi_value (s : string) : Z :=
  match skip_space s with
  | String a rest =>
    if Ascii.eqb a "-" then (- digits rest 0)%Z
    else if Ascii.eqb a "+" then digits rest 0%Z
    else digits (String a rest) 0%Z
  | EmptyString => 0%Z
  end.



(** [atoi(s)]: C defines the result only when the number fits an [int];
    [None] stands for the undefined case. *)
Definition atoi (s : string) : option Z :=
  let v := atoi_value s in
  if (INT_MIN <=? v)%Z && (v <=? INT_MAX)%Z then Some v else None.

End C.

(* ===================================================================== *)
(** * The VIIPER client API, as the two programs use it                   *)
(* ===================================================================== *)

Module Viiper.

(** Modelled from the spec: [viiper.h] is not among the sources.  The
    failures a call can report follow the error taxonomy of the
    specification (section 7); the programs only ever compare a result
    with [VIIPER_OK]. *)
Inductive transport_failure := TransportClosed | TransportMalformed.

Inductive rpc_failure :=
| RpcProtocol
| RpcRemote (message : string)
| RpcTimeout
| RpcTransport.

Inductive device_failure := DeviceClosed | DeviceTransport.

Inductive error :=
| ConnectionError
| TransportError (e : transport_failure)
| RpcError (e : rpc_failure)
| DeviceError (e : device_failure).

Inductive viiper_error_t :=
| VIIPER_OK
| VIIPER_ERROR (e : error).

Definition is_ok (rc : viiper_error_t) : bool :=
  match rc with VIIPER_OK => true | VIIPER_ERROR _ => false end.

(** Pointers to [viiper_client_t] and [viiper_device_t]: opaque to the
    programs. *)
Definition handle := nat.

(** [viiper_device_create_request_t]: each field is a pointer that may be
    [NULL]. *)
Record viiper_device_create_request_t := {
  Type_ : option string;
  IdVendor : option Z;
  IdProduct : option Z
}.

(** [viiper_device_info_t]: the two fields the programs read. *)
Record viiper_device_info_t := {
  DevId : option string;
  InfoType : option string
}.

(** Modelled from the spec: [viiper_xbox360.h] is not among the sources.
    The rumble output is a fixed structure of two fields, the left
    intensity then the right one; each is taken to be one byte, so that the
    structure fills the two bytes [on_rumble] waits for. *)
Record viiper_xbox360_output_t := {
  left : byte;
  right : byte
}.

(** The cast of [output] to a pointer to [viiper_xbox360_output_t]: the
    structure laid over the start of a byte buffer; [None] when the buffer is too short for it. *)
Definition as_xbox360_output (output : list byte)
  : option viiper_xbox360_output_t :=
  match output with
  | l :: r :: _ => Some {| left := l; right := r |}
  | _ => None
  end.

(** [viiper_xbox360_input_t], by the fields [main] assigns. *)
Record viiper_xbox360_input_t := {
  buttons : Z;
  lt : Z;
  rt : Z;
  lx : Z;
  ly : Z;
  rx : Z;
  ry : Z
}.

(** What [viiper_device_send] is handed: a byte buffer, or the address of
    a pad input structure (whose layout the header fixes). *)
Inductive report :=
| Bytes (data : list byte)
| X360Input (input : viiper_xbox360_input_t).

(** The output callbacks a program can register. *)
Inductive callback := Callback_on_leds | Callback_on_rumble.

(** Arguments of a [printf] conversion: [%u], [%llu], [%x] take a number,
    [%s] a string. *)
Inductive arg :=
| ArgU (n : Z)
| ArgS (s : string).

(** The calls the programs make to libc and to the library. *)
Inductive call :=
| printf (fmt : string) (args : list arg)
| fprintf_stderr (fmt : string) (args : list arg)
| malloc (size : nat)
| free
| usleep (us : Z)
| viiper_client_create (host : string) (port : Z)
| viiper_client_free (client : handle)
| viiper_get_error (client : handle)
| viiper_bus_list (client : handle)
| viiper_free_bus_list_response
| viiper_bus_create (client : handle)
| viiper_bus_remove (client : handle) (busId : Z)
| viiper_add_device_and_connect
    (client : handle) (busId : Z) (req : viiper_device_create_request_t)
| viiper_device_on_output (dev : handle) (buffer_size : option nat) (cb : callback)
| viiper_device_send (dev : handle) (data : report) (size : nat)
| viiper_device_close (dev : handle).

(** What each call gives back to the program: its return value and the
    output parameters it fills.  [malloc] answers whether the block was
    allocated; [viiper_bus_list] fills the array of bus identifiers, whose
    length is [buses_count]. *)
Definition resp (c : call) : Type :=
  match c with
  | printf _ _ | fprintf_stderr _ _ | free | usleep _ => unit
  | malloc _ => bool
  | viiper_client_create _ _ => (viiper_error_t * handle)%type
  | viiper_client_free _ => unit
  | viiper_get_error _ => string
  | viiper_bus_list _ => (viiper_error_t * list Z)%type
  | viiper_free_bus_list_response => unit
  | viiper_bus_create _ => (viiper_error_t * Z)%type
  | viiper_bus_remove _ _ => viiper_error_t
  | viiper_add_device_and_connect _ _ _ =>
      (viiper_error_t * viiper_device_info_t * handle)%type
  | viiper_device_on_output _ _ _ => unit
  | viiper_device_send _ _ _ => viiper_error_t
  | viiper_device_close _ => unit
  end.

End Viiper.
Import Viiper.

(* ===================================================================== *)
(** * Programs and their runs                                             *)
(* ===================================================================== *)

(** A program performs calls and may run into undefined behaviour (an
    access outside an array, a read of a cell never written, a number
    [atoi] cannot represent). *)
Variant E : Type -> Type :=
| Call (c : call) : E (resp c)
| Undefined : E Empty_set.

Definition do (c : call) : itree E (resp c) := ITree.trigger (Call c).

Definition undefined {R} : itree E R :=
  Vis Undefined (fun v : Empty_set => match v with end).

(** A C operation that is defined only on part of its inputs. *)
Definition defined {A} (o : option A) : itree E A :=
  match o with
  | Some a => Ret a
  | None => undefined
  end.

(** How a run ends: the program returned, it hit undefined behaviour, or
    it was still running when the fuel ran out. *)
Inductive outcome (R : Type) :=
| Returned (r : R)
| Undef
| Running.
Arguments Returned {R} r.
Arguments Undef {R}.
Arguments Running {R}.

Section Run.

(** The world outside the program: a state [W] and the answer to each
    call. *)
Context {W : Type} (h : forall c : call, W -> resp c * W).

Definition answer {T} (e : E T) (w : W) : option (call * T * W) :=
  match e in E T return option (call * T * W) with
  | Call c => let '(x, w') := h c w in Some (c, x, w')
  | Undefined => None
  end.

(** [run fuel t w]: the calls made in order, the final world and the
    outcome of at most [fuel] steps of [t] from world [w]. *)
Fixpoint run {R} (fuel : nat) (t : itree E R) (w : W)
  : list call * W * outcome R :=
  match fuel with
  | O => ([], w, Running)
  | S n =>
    match observe t with
    | RetF r => ([], w, Returned r)
    | TauF t' => run n t' w
    | VisF e k =>
      match answer e w with
      | Some (c, x, w') =>
        let '(tr, w'', o) := run n (k x) w' in (c :: tr, w'', o)
      | None => ([], w, Undef)
      end
    end
  end.

(** The first call of [t], if [t] starts with one. *)
Definition first_call {R} (t : itree E R) (w : W) : option call :=
  match run 1 t w with
  | (c :: _, _, _) => Some c
  | _ => None
  end.

(** [t], started in [w], makes the calls [tr], leaves the world [w'] and
    ends with [o]: some amount of fuel is enough to see the end. *)
Definition yields {R} (t : itree E R) (w : W)
  (tr : list call) (w' : W) (o : outcome R) : Prop :=
  o <> Running /\ exists n, run n t w = (tr, w', o).

End Run.

(** [for (size_t i = start; i < stop; ++i) body(i);] *)
Definition for_ (start stop : nat) (body : nat -> itree E unit) : itree E unit :=
  ITree.iter (fun i : nat =>
    if (i <? stop)%nat then body i;; Ret (inl (S i)) else Ret (inr tt)) start.

(** [sleep_ms], in its POSIX version. *)
Definition sleep_ms (ms : Z) : itree E unit := do (usleep (ms * 1000)%Z).

(* ===================================================================== *)
(** * What the two programs share                                         *)
(* ===================================================================== *)

(** [choose_or_create_bus] and the argument handling of [main] have the
    same text in both files, up to the name in the usage line.  Format
    strings are kept as the source spells them. *)
Module Example.

(** The loop of [choose_or_create_bus] over [Buses[1..]], [busId] starting
    at [Buses[0]]. *)
Definition lowest (first : Z) (rest : list Z) : Z :=
  fold_left (fun busId b => if (b <? busId)%Z then b else busId) rest first.

Definition choose_or_create_bus (client : handle) : itree E Z :=
  '(rc, list) <- do (viiper_bus_list client);;
  if negb (is_ok rc) then
    err <- do (viiper_get_error client);;
    do (fprintf_stderr "BusList error: %s\n" [ArgS err]);;
    Ret 0%Z
  else
    match list with
    | first :: rest =>
      let busId := lowest first rest in
      do (printf "Using existing bus %u\n" [ArgU busId]);;
      do viiper_free_bus_list_response;;
      Ret busId
    | [] =>
      do viiper_free_bus_list_response;;
      '(rc, BusID) <- do (viiper_bus_create client);;
      if is_ok rc then
        do (printf "Created bus %u\n" [ArgU BusID]);;
        Ret BusID
      else
        err <- do (viiper_get_error client);;
        do (fprintf_stderr "BusCreate failed: %s\n" [ArgS err]);;
        Ret 0%Z
    end.

(** The first statement of [main]: [inl status] when [main] returns at
    once, [inr (host, port)] when it goes on to connect.  [argc] is the
    length of [argv]. *)
Definition main_args (usage : string) (argv : list string)
  : itree E (Z + C.array ascii * Z) :=
  let argc := List.length argv in
  let host : C.array ascii := C.uninit 256 in
  let port := 3242%Z in
  if (argc <=? 1)%nat then
    host <- defined (C.snprintf_s host 256 "127.0.0.1");;
    Ret (inr (host, port))
  else if (argc =? 2)%nat then
    let addr := nth 1 argv "" in
    match C.strrchr addr ":" with
    | None =>
      do (fprintf_stderr usage []);;
      Ret (inl 1%Z)
    | Some colon =>
      let len := colon in
      let len := if (256 <=? len)%nat then 255 else len in
      host <- defined (C.memcpy host 0 (list_ascii_of_string addr) len);;
      host <- defined (C.store host len C.NUL);;
      n <- defined (C.atoi (C.offset addr (S colon)));;
      Ret (inr (host, C.to_uint16_t n))
    end
  else
    do (fprintf_stderr usage []);;
    Ret (inl 1%Z).

End Example.

(* ===================================================================== *)
(** * examples/c/virtual_keyboard/main.c                                  *)
(* ===================================================================== *)

(** The constants of [viiper_keyboard.h], which is not among the sources:
    key codes, LED masks and the size of an output report. *)
Class viiper_keyboard_h := {
  VIIPER_KEYBOARD_KEY_H : byte;
  VIIPER_KEYBOARD_KEY_E : byte;
  VIIPER_KEYBOARD_KEY_L : byte;
  VIIPER_KEYBOARD_KEY_O : byte;
  VIIPER_KEYBOARD_KEY1 : byte;
  VIIPER_KEYBOARD_KEY_ENTER : byte;
  VIIPER_KEYBOARD_LED_NUM_LOCK : Z;
  VIIPER_KEYBOARD_LED_CAPS_LOCK : Z;
  VIIPER_KEYBOARD_LED_SCROLL_LOCK : Z;
  VIIPER_KEYBOARD_LED_COMPOSE : Z;
  VIIPER_KEYBOARD_LED_KANA : Z;
  VIIPER_KEYBOARD_OUTPUT_SIZE : nat
}.

(** Modelled from the spec: [viiper_keyboard.h] is not among the sources;
    the specification gives the left-shift modifier as bit [0x02]. *)
Definition VIIPER_KEYBOARD_MOD_LEFT_SHIFT : byte := x02.

Module Keyboard.
Section Keyboard.
Context `{viiper_keyboard_h}.

(** [(b & mask) ? 1u : 0u] *)
Definition led (b : byte) (mask : Z) : Z :=
  if (Z.land (C.u8 b) mask =? 0)%Z then 0%Z else 1%Z.

Definition on_leds (buffer : list byte) (bytes_read : nat) : itree E unit :=
  let led_data := buffer in
  if (bytes_read =? 0)%nat then Ret tt
  else
    for_ 0 bytes_read (fun i =>
      b <- defined (nth_error led_data i);;
      do (printf "→ LEDs: Num=%u Caps=%u Scroll=%u Compose=%u Kana=%u\n"
            [ArgU (led b VIIPER_KEYBOARD_LED_NUM_LOCK);
             ArgU (led b VIIPER_KEYBOARD_LED_CAPS_LOCK);
             ArgU (led b VIIPER_KEYBOARD_LED_SCROLL_LOCK);
             ArgU (led b VIIPER_KEYBOARD_LED_COMPOSE);
             ArgU (led b VIIPER_KEYBOARD_LED_KANA)])).

(** [keys] is [None] for a [NULL] pointer, otherwise the bytes it points
    to. *)
Definition send_keys (dev : handle) (modifiers : byte)
  (keys : option (list byte)) (nkeys : byte) : itree E unit :=
  let n := N.to_nat (Byte.to_N nkeys) in
  if (match keys with None => true | Some _ => false end) && negb (n =? 0)%nat
  then Ret tt
  else
    let pkt_len := (2 + n)%nat in
    allocated <- do (malloc pkt_len);;
    if negb allocated then Ret tt
    else
      let buf : C.array byte := C.uninit pkt_len in
      buf <- defined (C.store buf 0 modifiers);;
      buf <- defined (C.store buf 1 nkeys);;
      buf <- match keys with
             | Some ks =>
               if negb (n =? 0)%nat then defined (C.memcpy buf 2 ks n)
               else Ret buf
             | None => Ret buf
             end;;
      data <- defined (C.read buf pkt_len);;
      do (viiper_device_send dev (Bytes data) pkt_len);;
      do free;;
      Ret tt.

Definition press_and_release (dev : handle) (modifiers key : byte)
  : itree E unit :=
  let keys := [key] in
  send_keys dev modifiers (Some keys) x01;;
  sleep_ms 100;;
  send_keys dev x00 None x00;;
  sleep_ms 100.

Definition type_string_hello (dev : handle) : itree E unit :=
  press_and_release dev VIIPER_KEYBOARD_MOD_LEFT_SHIFT VIIPER_KEYBOARD_KEY_H;;
  press_and_release dev x00 VIIPER_KEYBOARD_KEY_E;;
  press_and_release dev x00 VIIPER_KEYBOARD_KEY_L;;
  press_and_release dev x00 VIIPER_KEYBOARD_KEY_L;;
  press_and_release dev x00 VIIPER_KEYBOARD_KEY_O;;
  press_and_release dev VIIPER_KEYBOARD_MOD_LEFT_SHIFT VIIPER_KEYBOARD_KEY1.

(** The request [main] builds in [createReq]. *)
Definition createReq : viiper_device_create_request_t :=
  {| Type_ := Some "keyboard"; IdVendor := None; IdProduct := None |}.

(** [main] once the host and port are known (from
    [viiper_client_create] on). *)
Definition main_connected (host : C.array ascii) (port : Z) : itree E Z :=
  hostname <- defined (C.cstring host);;
  '(rc, client) <- do (viiper_client_create hostname port);;
  if negb (is_ok rc) then
    do (fprintf_stderr "client_create failed\n" []);;
    Ret 1%Z
  else
    busId <- Example.choose_or_create_bus client;;
    if (busId =? 0)%Z then
      do (viiper_client_free client);;
      Ret 1%Z
    else
      '(rc, addResp, dev) <-
        do (viiper_add_device_and_connect client busId createReq);;
      if negb (is_ok rc) then
        err <- do (viiper_get_error client);;
        do (fprintf_stderr "add_device_and_connect failed: %s\n" [ArgS err]);;
        do (viiper_client_free client);;
        Ret 1%Z
      else
        let devId := match DevId addResp with Some s => s | None => "(none)" end in
        do (printf "Created and connected device %s on bus %u (type: %s)\n"
              [ArgS devId; ArgU busId;
               ArgS (match InfoType addResp with Some s => s | None => "unknown" end)]);;
        do (viiper_device_on_output dev (Some VIIPER_KEYBOARD_OUTPUT_SIZE)
              Callback_on_leds);;
        do (printf "Every 5s: type 'Hello!' + Enter. Press Ctrl+C to stop.\n" []);;
        @ITree.forever E unit unit (
          type_string_hello dev;;
          sleep_ms 100;;
          press_and_release dev x00 VIIPER_KEYBOARD_KEY_ENTER;;
          do (printf "→ Typed: Hello!\n" []);;
          sleep_ms 5000);;
        do (viiper_device_close dev);;
        do (viiper_client_free client);;
        Ret 0%Z.

Definition main (argv : list string) : itree E Z :=
  r <- Example.main_args "Usage: virtual_keyboard [host:port]\n" argv;;
  match r with
  | inl status => Ret status
  | inr (host, port) => main_connected host port
  end.

End Keyboard.
End Keyboard.

(** The line [on_leds] prints for one byte of LED state. *)
Definition leds_line `{viiper_keyboard_h} (b : byte) : call :=
  printf "→ LEDs: Num=%u Caps=%u Scroll=%u Compose=%u Kana=%u\n"
    [ArgU (Keyboard.led b VIIPER_KEYBOARD_LED_NUM_LOCK);
     ArgU (Keyboard.led b VIIPER_KEYBOARD_LED_CAPS_LOCK);
     ArgU (Keyboard.led b VIIPER_KEYBOARD_LED_SCROLL_LOCK);
     ArgU (Keyboard.led b VIIPER_KEYBOARD_LED_COMPOSE);
     ArgU (Keyboard.led b VIIPER_KEYBOARD_LED_KANA)].

(* ===================================================================== *)
(** * examples/c/virtual_x360_pad/main.c                                  *)
(* ===================================================================== *)

(** The constants of [viiper_xbox360.h], which is not among the sources:
    button masks and the size of an input report. *)
Class viiper_xbox360_h := {
  VIIPER_XBOX360_BUTTON_A : Z;
  VIIPER_XBOX360_BUTTON_B : Z;
  VIIPER_XBOX360_BUTTON_X : Z;
  VIIPER_XBOX360_BUTTON_Y : Z;
  sizeof_viiper_xbox360_input_t : nat
}.

Module X360Pad.
Section X360Pad.
Context `{viiper_xbox360_h}.

Definition on_rumble (output : list byte) (output_size : nat) : itree E unit :=
  if (2 <=? output_size)%nat then
    out <- defined (as_xbox360_output output);;
    do (printf "← Rumble: Left=%u, Right=%u\n"
          [ArgU (C.u8 (left out)); ArgU (C.u8 (right out))])
  else Ret tt.

(** [(int16_t)(20000.0 * 0.7071)]: the product is the double
    14141.999999999998, which the conversion truncates. *)
Definition stick : Z := 14141%Z.

(** The input report of frame [frame] (the value after [++frame]). *)
Definition input_of_frame (frame : Z) : viiper_xbox360_input_t :=
  {| buttons :=
       match ((frame / 60) mod 4)%Z with
       | 0%Z => VIIPER_XBOX360_BUTTON_A
       | 1%Z => VIIPER_XBOX360_BUTTON_B
       | 2%Z => VIIPER_XBOX360_BUTTON_X
       | _ => VIIPER_XBOX360_BUTTON_Y
       end;
     lt := C.to_uint8_t (C.to_ull (frame * 2) mod 256);
     rt := C.to_uint8_t (C.to_ull (frame * 3) mod 256);
     lx := stick;
     ly := stick;
     rx := 0;
     ry := 0 |}.

(** The [for (;;)] loop of [main]: it ends when a send fails. *)
Definition main_loop (client dev : handle) : itree E unit :=
  ITree.iter (fun frame : Z =>
    let frame := C.to_ull (frame + 1) in
    let in_ := input_of_frame frame in
    rc <- do (viiper_device_send dev (X360Input in_) sizeof_viiper_xbox360_input_t);;
    if negb (is_ok rc) then
      err <- do (viiper_get_error client);;
      do (fprintf_stderr "send error: %s\n" [ArgS err]);;
      Ret (inr tt)
    else
      (if (frame mod 60 =? 0)%Z then
         do (printf "→ Sent input (frame %llu): buttons=0x%04x, LT=%u, RT=%u\n"
               [ArgU frame; ArgU (buttons in_); ArgU (lt in_); ArgU (rt in_)])
       else Ret tt);;
      sleep_ms 16;;
      Ret (inl frame)) 0%Z.

(** What [main] does after the loop. *)
Definition main_teardown (client dev : handle) (busId : Z) : itree E Z :=
  do (viiper_device_close dev);;
  rc <- do (viiper_bus_remove client busId);;
  (if negb (is_ok rc) then
     err <- do (viiper_get_error client);;
     do (fprintf_stderr "BusRemove failed (continuing): %s\n" [ArgS err])
   else Ret tt);;
  do (viiper_client_free client);;
  Ret 0%Z.

(** The request [main] builds in [createReq]. *)
Definition createReq : viiper_device_create_request_t :=
  {| Type_ := Some "xbox360"; IdVendor := None; IdProduct := None |}.

(** [main] once the host and port are known. *)
Definition main_connected (host : C.array ascii) (port : Z) : itree E Z :=
  hostname <- defined (C.cstring host);;
  '(rc, client) <- do (viiper_client_create hostname port);;
  if negb (is_ok rc) then
    do (fprintf_stderr "client_create failed\n" []);;
    Ret 1%Z
  else
    busId <- Example.choose_or_create_bus client;;
    if (busId =? 0)%Z then
      do (viiper_client_free client);;
      Ret 1%Z
    else
      '(rc, addResp, dev) <-
        do (viiper_add_device_and_connect client busId createReq);;
      if negb (is_ok rc) then
        err <- do (viiper_get_error client);;
        do (fprintf_stderr "add_device_and_connect failed: %s\n" [ArgS err]);;
        do (viiper_client_free client);;
        Ret 1%Z
      else
        let devId := match DevId addResp with Some s => s | None => "(none)" end in
        do (printf "Created and connected device %s on bus %u (type: %s)\n"
              [ArgS devId; ArgU busId;
               ArgS (match InfoType addResp with Some s => s | None => "unknown" end)]);;
        do (viiper_device_on_output dev None Callback_on_rumble);;
        do (printf "Connected to device stream\n" []);;
        main_loop client dev;;
        main_teardown client dev busId.

Definition main (argv : list string) : itree E Z :=
  r <- Example.main_args "Usage: virtual_x360_pad [host:port]\n" argv;;
  match r with
  | inl status => Ret status
  | inr (host, port) => main_connected host port
  end.

End X360Pad.
End X360Pad.

(* ===================================================================== *)
(** * The library and the hub behind it                                   *)
(* ===================================================================== *)

(** Modelled from the spec: the client library and the hub are not among
    the sources.  The operations below follow the specification's Bus
    Manager and Device Manager (sections 3, 4.3 and 4.4): a client with a
    registry of open devices and a last-error slot, in front of a hub that
    holds buses and the devices attached to them.  The connection may be up
    or down at each operation ([link], read at the current [clock]). *)
Module Hub.

Record device := {
  dev_handle : handle;
  dev_id : string;
  dev_bus : Z;
  dev_live : bool;
  dev_callback : option callback;
  dev_sent : list report
}.

Record state := {
  link : nat -> bool;
  clock : nat;
  buses : list Z;
  attached : list (Z * string);
  devices : list device;
  last_error : string
}.

Definition result (A : Type) := (error + A)%type.

Definition up (s : state) : bool := link s (clock s).

(** Every operation on the wire takes one tick. *)
Definition tick (s : state) : state :=
  {| link := link s; clock := S (clock s); buses := buses s;
     attached := attached s; devices := devices s;
     last_error := last_error s |}.

Definition message (e : error) : string :=
  match e with
  | ConnectionError => "connection failed"
  | TransportError _ => "transport failure"
  | RpcError (RpcRemote m) => m
  | RpcError _ => "rpc failure"
  | DeviceError DeviceClosed => "device closed"
  | DeviceError DeviceTransport => "device transport failure"
  end.

(** A failing operation overwrites the last-error slot. *)
Definition fail {A} (e : error) (s : state) : result A * state :=
  (inl e,
   {| link := link s; clock := clock s; buses := buses s;
      attached := attached s; devices := devices s;
      last_error := message e |}).

Definition with_buses (bs : list Z) (s : state) : state :=
  {| link := link s; clock := clock s; buses := bs;
     attached := attached s; devices := devices s;
     last_error := last_error s |}.

Definition with_attached (a : list (Z * string)) (s : state) : state :=
  {| link := link s; clock := clock s; buses := buses s;
     attached := a; devices := devices s;
     last_error := last_error s |}.

Definition with_devices (ds : list device) (s : state) : state :=
  {| link := link s; clock := clock s; buses := buses s;
     attached := attached s; devices := ds;
     last_error := last_error s |}.

Definition has_bus (id : Z) (s : state) : bool :=
  existsb (Z.eqb id) (buses s).

Definition bus_in_use (id : Z) (s : state) : bool :=
  existsb (fun a => Z.eqb id (fst a)) (attached s).

Definition get_error (s : state) : string := last_error s.

(** [list_buses]: all bus identifiers known to the hub. *)
Definition list_buses (s : state) : result (list Z) * state :=
  let s := tick s in
  if up s then (inr (buses s), s) else fail (RpcError RpcTransport) s.

(** [create_bus]: the hub assigns an identifier above those in use. *)
Definition create_bus (s : state) : result Z * state :=
  let s := tick s in
  if up s then
    let id := (1 + fold_right Z.max 0 (buses s))%Z in
    (inr id, with_buses (id :: buses s) s)
  else fail (RpcError RpcTransport) s.

(** [remove_bus]: fails with a remote error if the bus still has devices
    attached. *)
Definition remove_bus (id : Z) (s : state) : result unit * state :=
  let s := tick s in
  if negb (up s) then fail (RpcError RpcTransport) s
  else if negb (has_bus id s) then fail (RpcError (RpcRemote "unknown bus")) s
  else if bus_in_use id s then fail (RpcError (RpcRemote "bus not empty")) s
  else (inr tt, with_buses (filter (fun b => negb (Z.eqb id b)) (buses s)) s).

(** The identifier the hub gives to the next device of a bus. *)
Definition fresh_dev_id (s : state) : string :=
  String (ascii_of_nat (48 + List.length (attached s) mod 10)) "".

(** [create_device]: registers a device on the bus, hub side. *)
Definition create_device (bus : Z) (req : viiper_device_create_request_t)
  (s : state) : result viiper_device_info_t * state :=
  let s := tick s in
  if negb (up s) then fail (RpcError RpcTransport) s
  else if negb (has_bus bus s) then fail (RpcError (RpcRemote "unknown bus")) s
  else
    let id := fresh_dev_id s in
    (inr {| DevId := Some id; InfoType := Type_ req |},
     with_attached ((bus, id) :: attached s) s).

Definition fresh_handle (s : state) : handle :=
  S (fold_right Nat.max 0 (map dev_handle (devices s))).

(** [connect_device]: opens the streaming channels and hands out the
    handle of the now live device. *)
Definition connect_device (bus : Z) (info : viiper_device_info_t) (s : state)
  : result handle * state :=
  let s := tick s in
  if negb (up s) then fail (RpcError RpcTransport) s
  else
    let hd := fresh_handle s in
    (inr hd,
     with_devices
       ({| dev_handle := hd;
           dev_id := match DevId info with Some i => i | None => "" end;
           dev_bus := bus; dev_live := true; dev_callback := None;
           dev_sent := [] |} :: devices s) s).

(** [create_and_connect]: both steps, or an error and no handle.  When the
    second step fails the hub may still hold the device (the leak the
    specification accepts); the client keeps nothing. *)
Definition create_and_connect (bus : Z) (req : viiper_device_create_request_t)
  (s : state) : result (viiper_device_info_t * handle) * state :=
  match create_device bus req s with
  | (inl e, s1) => (inl e, s1)
  | (inr info, s1) =>
    match connect_device bus info s1 with
    | (inl e, s2) => (inl e, s2)
    | (inr hd, s2) => (inr (info, hd), s2)
    end
  end.

Definition find_device (hd : handle) (s : state) : option device :=
  find (fun d => Nat.eqb hd (dev_handle d)) (devices s).

Definition update_device (hd : handle) (f : device -> device) (s : state)
  : state :=
  with_devices
    (map (fun d => if Nat.eqb hd (dev_handle d) then f d else d) (devices s)) s.

(** [send]: fails with [DeviceClosed] if the device was closed, with
    [DeviceTransport] when the connection is down. *)
Definition send (hd : handle) (r : report) (s : state) : result unit * state :=
  match find_device hd s with
  | Some d =>
    if negb (dev_live d) then fail (DeviceError DeviceClosed) s
    else
      let s := tick s in
      if negb (up s) then fail (DeviceError DeviceTransport) s
      else
        (inr tt,
         update_device hd (fun d =>
           {| dev_handle := dev_handle d; dev_id := dev_id d;
              dev_bus := dev_bus d; dev_live := dev_live d;
              dev_callback := dev_callback d;
              dev_sent := dev_sent d ++ [r] |}) s)
  | None => fail (DeviceError DeviceClosed) s
  end.

(** [close]: idempotent; the device stops being live, loses its callback
    and leaves its bus. *)
Definition close (hd : handle) (s : state) : state :=
  match find_device hd s with
  | Some d =>
    if dev_live d then
      with_attached
        (filter (fun a => negb (Z.eqb (fst a) (dev_bus d)
                                && String.eqb (snd a) (dev_id d)))
                (attached s))
        (update_device hd (fun d =>
           {| dev_handle := dev_handle d; dev_id := dev_id d;
              dev_bus := dev_bus d; dev_live := false;
              dev_callback := None; dev_sent := dev_sent d |}) s)
    else s
  | None => s
  end.

(** [register_output]: at most one callback per device; registering again
    replaces it. *)
Definition register_output (hd : handle) (cb : callback) (s : state) : state :=
  update_device hd (fun d =>
    {| dev_handle := dev_handle d; dev_id := dev_id d;
       dev_bus := dev_bus d; dev_live := dev_live d;
       dev_callback := Some cb; dev_sent := dev_sent d |}) s.

(** Destroying the client first closes all open devices. *)
Definition destroy (s : state) : state :=
  fold_right close s (map dev_handle (devices s)).

Definition rc_of {A} (r : result A) : viiper_error_t :=
  match r with inl e => VIIPER_ERROR e | inr _ => VIIPER_OK end.

Definition value_of {A} (default : A) (r : result A) : A :=
  match r with inl _ => default | inr a => a end.

(** The answers of the library to the calls of a program; libc calls
    succeed and leave the hub alone.  One client per connection: its
    handle is [1]. *)
Definition handler (c : call) (s : state) : resp c * state :=
  match c return resp c * state with
  | printf _ _ => (tt, s)
  | fprintf_stderr _ _ => (tt, s)
  | malloc _ => (true, s)
  | free => (tt, s)
  | usleep _ => (tt, s)
  | viiper_client_create _ _ =>
    let s := tick s in
    if up s then ((VIIPER_OK, 1), s)
    else let '(r, s) := @fail unit ConnectionError s in ((rc_of r, 0), s)
  | viiper_client_free _ => (tt, destroy s)
  | viiper_get_error _ => (get_error s, s)
  | viiper_bus_list _ =>
    let '(r, s) := list_buses s in ((rc_of r, value_of [] r), s)
  | viiper_free_bus_list_response => (tt, s)
  | viiper_bus_create _ =>
    let '(r, s) := create_bus s in ((rc_of r, value_of 0%Z r), s)
  | viiper_bus_remove _ busId =>
    let '(r, s) := remove_bus busId s in (rc_of r, s)
  | viiper_add_device_and_connect _ busId req =>
    match create_and_connect busId req s with
    | (inr (info, hd), s) => ((VIIPER_OK, info, hd), s)
    | (inl e, s) =>
      ((VIIPER_ERROR e, {| DevId := None; InfoType := None |}, 0), s)
    end
  | viiper_device_on_output dev _ cb => (tt, register_output dev cb s)
  | viiper_device_send dev data _ =>
    let '(r, s) := send dev data s in (rc_of r, s)
  | viiper_device_close dev => (tt, close dev s)
  end.

End Hub.

(* ===================================================================== *)
(** * Notions the statements use                                          *)
(* ===================================================================== *)

(** The buffer [host] after [main] has copied the host part of an
    address whose last colon is at offset [colon]. *)
Definition host_of (addr : string) (colon : nat) : C.array ascii :=
  let len := if (256 <=? colon)%nat then 255 else colon in
  map Some (firstn len (list_ascii_of_string addr))
  ++ Some C.NUL :: C.uninit (255 - len).

(** The byte reports among the calls of a trace, in order. *)
Definition sent_bytes (tr : list call) : list (list byte) :=
  flat_map (fun c =>
    match c with
    | viiper_device_send _ (Bytes data) _ => [data]
    | _ => []
    end) tr.

(** The buffer [host] after [snprintf] has written the default host. *)
Definition default_host : C.array ascii :=
  map Some (list_ascii_of_string "127.0.0.1") ++ Some C.NUL :: C.uninit 246.

(** The program's first action is to connect to [host], [port]. *)
Definition connects_to {W} (h : forall c : call, W -> resp c * W)
  {R} (t : itree E R) (w : W) (host : string) (port : Z) : Prop :=
  first_call h t w = Some (viiper_client_create host port).

(** The program prints [usage] on [stderr] and returns 1, and does nothing
    else. *)
Definition exits_with_usage {W} (h : forall c : call, W -> resp c * W)
  (t : itree E Z) (w : W) (usage : string) : Prop :=
  yields h t w [fprintf_stderr usage []]
    (snd (h (fprintf_stderr usage []) w)) (Returned 1%Z).

(** A number written in decimal, without sign or leading zero. *)
Definition decimal (n : nat) : string :=
  NilEmpty.string_of_uint (Nat.to_uint n).

(** The command-line argument that names [host] and [port]. *)
Definition address (host : string) (port : nat) : string :=
  (host ++ String ":" (decimal port))%string.


Definition no_colon (s : string) : bool :=
  forallb (fun c => negb (Ascii.eqb c ":")) (list_ascii_of_string s).

(** The pad input reports among the calls of a trace, in order. *)
Definition sent_inputs (tr : list call) : list viiper_xbox360_input_t :=
  flat_map (fun c =>
    match c with
    | viiper_device_send _ (X360Input input) _ => [input]
    | _ => []
    end) tr.

(** The world after the calls [tr], made in this order from [w]. *)
Definition replay {W} (h : forall c : call, W -> resp c * W)
  (tr : list call) (w : W) : W :=
  fold_left (fun w c => snd (h c w)) tr w.

(** The report the pad's loop sends in its turn [i], counted from 1. *)
Definition pad_send `{viiper_xbox360_h} (dev : handle) (i : nat) : call :=
  viiper_device_send dev
    (X360Input (X360Pad.input_of_frame (C.to_ull (Z.of_nat i))))
    sizeof_viiper_xbox360_input_t.

(** The calls of turn [i] of the pad's loop when its report is accepted:
    the report, the progress line in every 60th turn, and the sleep. *)
Definition pad_turn_calls `{viiper_xbox360_h} (dev : handle) (i : nat)
  : list call :=
  let frame := C.to_ull (Z.of_nat i) in
  let in_ := X360Pad.input_of_frame frame in
  pad_send dev i ::
  (if (frame mod 60 =? 0)%Z
   then [printf "→ Sent input (frame %llu): buttons=0x%04x, LT=%u, RT=%u\n"
           [ArgU frame; ArgU (buttons in_); ArgU (lt in_); ArgU (rt in_)]]
   else [])
  ++ [usleep 16000].

(** The calls of the first [k] turns, all accepted. *)
Definition pad_turns `{viiper_xbox360_h} (dev : handle) (k : nat) : list call :=
  flat_map (pad_turn_calls dev) (seq 1 k).

(** Whether the report of turn [i] is accepted when the loop gets to it,
    the turns before it having been accepted. *)
Definition pad_send_accepted `{viiper_xbox360_h} {W}
  (h : forall c : call, W -> resp c * W) (dev : handle) (w : W) (i : nat) : bool :=
  is_ok (fst (h (pad_send dev i) (replay h (pad_turns dev (i - 1)) w))).

(** The time a trace spends asleep, in microseconds. *)
Definition slept_us (tr : list call) : Z :=
  fold_right Z.add 0%Z
    (flat_map (fun c => match c with usleep us => [us] | _ => [] end) tr).

(** The calls [send_keys] makes for the packet [frame]: the allocation,
    then the send and the release of the block if it was allocated. *)
Definition key_report_calls (dev : handle) (frame : list byte) (sent : bool)
  : list call :=
  malloc (List.length frame) ::
  if sent
  then [viiper_device_send dev (Bytes frame) (List.length frame); free]
  else [].

(** The calls of the keyboard's typing loop: allocation, sleeping,
    printing, and byte reports to [dev]. *)
Definition keyboard_loop_call (dev : handle) (c : call) : bool :=
  match c with
  | malloc _ | free | usleep _ | printf _ _ => true
  | viiper_device_send d (Bytes _) _ => Nat.eqb d dev
  | _ => false
  end.


Definition is_stderr (c : call) : bool :=
  match c with fprintf_stderr _ _ => true | _ => false end.

Definition is_free_bus_list (c : call) : bool :=
  match c with viiper_free_bus_list_response => true | _ => false end.

Definition is_bus_create (c : call) : bool :=
  match c with viiper_bus_create _ => true | _ => false end.

(** The malloc of this world never fails. *)
Definition malloc_succeeds {W} (h : forall c : call, W -> resp c * W) : Prop :=
  forall (size : nat) (w : W), fst (h (malloc size) w) = true.

(** Every send of this world is accepted. *)
Definition sends_succeed {W} (h : forall c : call, W -> resp c * W) : Prop :=
  forall (dev : handle) (data : report) (size : nat) (w : W),
    is_ok (fst (h (viiper_device_send dev data size) w)) = true.

(** What a part of a turn of the keyboard's loop does: it returns, having
    slept [us] microseconds and, where [malloc] never fails, sent
    [reports]. *)
Definition turn_part {W} (h : forall c : call, W -> resp c * W)
  {R} (t : itree E R) (us : Z) (reports : list (list byte)) : Prop :=
  forall w, exists tr w' r,
    yields h t w tr w' (Returned r) /\
    slept_us tr = us /\
    (malloc_succeeds h -> sent_bytes tr = reports).

(** What a run shows of a program that never ends: it is still running,
    and all its calls satisfy [P]. *)
Definition goes_on {W} (h : forall c : call, W -> resp c * W)
  {R} (P : call -> Prop) (t : itree E R) (w : W) : Prop :=
  forall n, snd (run h n t w) = Running /\ Forall P (fst (fst (run h n t w))).


(* ===================================================================== *)
(** * Concrete headers and worlds, for running the programs               *)
(* ===================================================================== *)

(** Key codes and LED masks of the USB HID usage tables, one byte of LED
    state. *)
Definition hid_keyboard : viiper_keyboard_h := {|
  VIIPER_KEYBOARD_KEY_H := x0b;
  VIIPER_KEYBOARD_KEY_E := x08;
  VIIPER_KEYBOARD_KEY_L := x0f;
  VIIPER_KEYBOARD_KEY_O := x12;
  VIIPER_KEYBOARD_KEY1 := x1e;
  VIIPER_KEYBOARD_KEY_ENTER := x28;
  VIIPER_KEYBOARD_LED_NUM_LOCK := 1;
  VIIPER_KEYBOARD_LED_CAPS_LOCK := 2;
  VIIPER_KEYBOARD_LED_SCROLL_LOCK := 4;
  VIIPER_KEYBOARD_LED_COMPOSE := 8;
  VIIPER_KEYBOARD_LED_KANA := 16;
  VIIPER_KEYBOARD_OUTPUT_SIZE := 1
|}.

(** Button masks of the XInput gamepad. *)
Definition xinput_pad : viiper_xbox360_h := {|
  VIIPER_XBOX360_BUTTON_A := 4096;
  VIIPER_XBOX360_BUTTON_B := 8192;
  VIIPER_XBOX360_BUTTON_X := 16384;
  VIIPER_XBOX360_BUTTON_Y := 32768;
  sizeof_viiper_xbox360_input_t := 14
|}.

(** A hub with the given buses and attached devices, no open device on the
    client side, and a connection that stays up. *)
Definition hub_with (buses : list Z) (attached : list (Z * string)) : Hub.state :=
  {| Hub.link := fun _ => true; Hub.clock := 0; Hub.buses := buses;
     Hub.attached := attached; Hub.devices := []; Hub.last_error := "" |}.

(** A hub with bus 7 whose connection is lost after [up] operations. *)
Definition hub_for (up : nat) : Hub.state :=
  {| Hub.link := fun n => (n <=? up)%nat; Hub.clock := 0; Hub.buses := [7]%Z;
     Hub.attached := []; Hub.devices := []; Hub.last_error := "" |}.

(** A world in which nothing can be allocated and every library call
    fails with the given error. *)
Definition failing (e : error) (c : call) (w : unit) : resp c * unit :=
  (match c return resp c with
   | printf _ _ | fprintf_stderr _ _ | free | usleep _ => tt
   | malloc _ => false
   | viiper_client_create _ _ => (VIIPER_ERROR e, 0)
   | viiper_client_free _ => tt
   | viiper_get_error _ => Hub.message e
   | viiper_bus_list _ => (VIIPER_ERROR e, [])
   | viiper_free_bus_list_response => tt
   | viiper_bus_create _ => (VIIPER_ERROR e, 0%Z)
   | viiper_bus_remove _ _ => VIIPER_ERROR e
   | viiper_add_device_and_connect _ _ _ =>
     (VIIPER_ERROR e, {| DevId := None; InfoType := None |}, 0)
   | viiper_device_on_output _ _ _ => tt
   | viiper_device_send _ _ _ => VIIPER_ERROR e
   | viiper_device_close _ => tt
   end, w).

(** A world in which every allocation and every library call succeeds:
    one client, the bus 7 and one device. *)
Definition willing (c : call) (w : unit) : resp c * unit :=
  (match c return resp c with
   | printf _ _ | fprintf_stderr _ _ | free | usleep _ => tt
   | malloc _ => true
   | viiper_client_create _ _ => (VIIPER_OK, 1)
   | viiper_client_free _ => tt
   | viiper_get_error _ => ""
   | viiper_bus_list _ => (VIIPER_OK, [7%Z])
   | viiper_free_bus_list_response => tt
   | viiper_bus_create _ => (VIIPER_OK, 8%Z)
   | viiper_bus_remove _ _ => VIIPER_OK
   | viiper_add_device_and_connect _ _ _ =>
     (VIIPER_OK, {| DevId := Some "0"; InfoType := None |}, 1)
   | viiper_device_on_output _ _ _ => tt
   | viiper_device_send _ _ _ => VIIPER_OK
   | viiper_device_close _ => tt
   end, w).

(* ===================================================================== *)
(** * Runs of programs: general facts                                     *)
(* ===================================================================== *)

Section RunFacts.

Context {W : Type} (h : forall c : call, W -> resp c * W).

Lemma run_S {R} n (t : itree E R) w :
  run h (S n) t w =
  match observe t with
  | RetF r => ([], w, Returned r)
  | TauF t' => run h n t' w
  | VisF e k =>
    match answer h e w with
    | Some (c, x, w') =>
      let '(tr, w'', o) := run h n (k x) w' in (c :: tr, w'', o)
    | None => ([], w, Undef)
    end
  end.
Proof. reflexivity. Qed.

(** A run only looks at a tree through [observe]. *)
Lemma run_observe {R} (t1 t2 : itree E R) n w :
  observe t1 = observe t2 -> run h n t1 w = run h n t2 w.
Proof.
  intros Hobs. destruct n as [|n]; simpl; [reflexivity|].
  now rewrite Hobs.
Qed.

(** Once a run has ended, more fuel changes nothing. *)
Lemma run_stable {R} n : forall (t : itree E R) w tr w' o m,
  run h n t w = (tr, w', o) -> o <> Running -> n <= m ->
  run h m t w = (tr, w', o).
Proof.
  induction n as [|n IH]; intros t w tr w' o m Hrun Ho Hle.
  - simpl in Hrun. inversion Hrun; subst. congruence.
  - destruct m as [|m]; [lia|].
    simpl in *. destruct (observe t) as [r|t'|X e k].
    + exact Hrun.
    + apply (IH t'); auto; lia.
    + destruct (answer h e w) as [[[c x] w1]|]; [|exact Hrun].
      destruct (run h n (k x) w1) as [[tr1 w2] o1] eqn:Hk.
      inversion Hrun; subst.
      rewrite (IH (k x) w1 tr1 w' o m Hk Ho); [reflexivity|lia].
Qed.

Lemma yields_det {R} (t : itree E R) w tr1 w1 o1 tr2 w2 o2 :
  yields h t w tr1 w1 o1 -> yields h t w tr2 w2 o2 ->
  tr1 = tr2 /\ w1 = w2 /\ o1 = o2.
Proof.
  intros [H1 [n1 R1]] [H2 [n2 R2]].
  pose proof (run_stable n1 t w tr1 w1 o1 (n1 + n2) R1 H1 ltac:(lia)) as A.
  pose proof (run_stable n2 t w tr2 w2 o2 (n1 + n2) R2 H2 ltac:(lia)) as B.
  rewrite A in B. inversion B; auto.
Qed.

Lemma yields_observe {R} (t1 t2 : itree E R) w tr w' o :
  observe t1 = observe t2 -> yields h t2 w tr w' o -> yields h t1 w tr w' o.
Proof.
  intros Hobs [Ho [n Hn]]. split; [exact Ho|].
  exists n. now rewrite (run_observe t1 t2 n w Hobs).
Qed.

Lemma yields_ret {R} (r : R) w : yields h (Ret r) w [] w (Returned r).
Proof. split; [discriminate|]. now exists 1. Qed.

Lemma yields_tau {R} (t : itree E R) w tr w' o :
  yields h t w tr w' o -> yields h (Tau t) w tr w' o.
Proof. intros [Ho [n Hn]]. split; [exact Ho|]. now exists (S n). Qed.

Lemma yields_undefined {R} w : yields h (@undefined R) w [] w Undef.
Proof. split; [discriminate|]. now exists 1. Qed.

Lemma yields_do (c : call) w :
  yields h (do c) w [c] (snd (h c w)) (Returned (fst (h c w))).
Proof.
  split; [discriminate|]. exists 2. simpl.
  now destruct (h c w) as [x w1].
Qed.

(** Sequencing: the calls of the first part, then those of the rest. *)
Lemma yields_bind {R T} (t : itree E R) (k : R -> itree E T)
  w tr1 w1 r tr2 w2 o :
  yields h t w tr1 w1 (Returned r) ->
  yields h (k r) w1 tr2 w2 o ->
  yields h (ITree.bind t k) w (tr1 ++ tr2) w2 o.
Proof.
  intros [_ [n Hn]] [Ho [m Hm]]. split; [exact Ho|].
  exists (n + m).
  revert t w tr1 Hn. induction n as [|n IH]; intros t w tr1 Hn.
  - simpl in Hn. inversion Hn.
  - change (S n + m) with (S (n + m)).
    rewrite run_S in Hn. rewrite run_S, observe_bind.
    destruct (observe t) as [r0|t'|X e ke].
    + inversion Hn; subst.
      pose proof (run_stable m (k r) w1 tr2 w2 o (S (n + m)) Hm Ho ltac:(lia)) as A.
      rewrite run_S in A. exact A.
    + cbn [observe _observe]. apply IH. exact Hn.
    + cbn [observe _observe]. destruct (answer h e w) as [[[c x] w0]|]; [|inversion Hn].
      destruct (run h n (ke x) w0) as [[tr0 w3] o0] eqn:Hke.
      inversion Hn; subst.
      rewrite (IH (ke x) w0 tr0 Hke). reflexivity.
Qed.

(** A call followed by the rest of the program. *)
Lemma yields_do_bind {T} (c : call) (k : resp c -> itree E T) w tr w' o :
  yields h (k (fst (h c w))) (snd (h c w)) tr w' o ->
  yields h (ITree.bind (do c) k) w (c :: tr) w' o.
Proof.
  intros Hk. apply (yields_bind (do c) k w [c] _ _ tr w' o (yields_do c w) Hk).
Qed.

(** Undefined behaviour in the first part ends the run there. *)
Lemma yields_bind_undef {R T} (t : itree E R) (k : R -> itree E T) w tr w' :
  yields h t w tr w' Undef ->
  yields h (ITree.bind t k) w tr w' Undef.
Proof.
  intros [_ [n Hn]]. split; [discriminate|]. exists n.
  revert t w tr Hn. induction n as [|n IH]; intros t w tr Hn.
  - simpl in Hn. inversion Hn.
  - rewrite run_S in Hn. rewrite run_S, observe_bind.
    destruct (observe t) as [r0|t'|X e ke].
    + inversion Hn.
    + cbn [observe _observe]. apply IH. exact Hn.
    + cbn [observe _observe].
      destruct (answer h e w) as [[[c x] w0]|]; [|now inversion Hn].
      destruct (run h n (ke x) w0) as [[tr0 w3] o0] eqn:Hke.
      inversion Hn; subst.
      rewrite (IH (ke x) w0 tr0 Hke). reflexivity.
Qed.

(** One turn of a loop that goes on, and one that stops. *)
Lemma yields_iter_again {I R} (body : I -> itree E (I + R)) i i' w tr1 w1 tr2 w2 o :
  yields h (body i) w tr1 w1 (Returned (inl i')) ->
  yields h (ITree.iter body i') w1 tr2 w2 o ->
  yields h (ITree.iter body i) w (tr1 ++ tr2) w2 o.
Proof.
  intros Hb Hi.
  apply (yields_observe _
    (ITree.bind (body i) (fun lr => ITree.on_left lr l (Tau (ITree.iter body l))))).
  - reflexivity.
  - apply (yields_bind _ _ w tr1 w1 (inl i') tr2 w2 o Hb).
    simpl. apply yields_tau. exact Hi.
Qed.

Lemma yields_iter_stop {I R} (body : I -> itree E (I + R)) i r w tr w' :
  yields h (body i) w tr w' (Returned (inr r)) ->
  yields h (ITree.iter body i) w tr w' (Returned r).
Proof.
  intros Hb.
  apply (yields_observe _
    (ITree.bind (body i) (fun lr => ITree.on_left lr l (Tau (ITree.iter body l))))).
  - reflexivity.
  - rewrite <- (app_nil_r tr).
    apply (yields_bind _ _ w tr w' (inr r) [] w' _ Hb).
    simpl. apply yields_ret.
Qed.

End RunFacts.

(** Defined operations step silently. *)
Lemma yields_ret_bind {W} (h : forall c : call, W -> resp c * W)
  {A T} (a : A) (k : A -> itree E T) w tr w' o :
  yields h (k a) w tr w' o ->
  yields h (ITree.bind (Ret a) k) w tr w' o.
Proof. apply yields_observe. reflexivity. Qed.

Lemma yields_defined_bind {W} (h : forall c : call, W -> resp c * W)
  {A T} (a : A) (k : A -> itree E T) w tr w' o :
  yields h (k a) w tr w' o ->
  yields h (ITree.bind (defined (Some a)) k) w tr w' o.
Proof. apply yields_observe. reflexivity. Qed.

Lemma yields_undefined_bind {W} (h : forall c : call, W -> resp c * W)
  {A T} (k : A -> itree E T) w :
  yields h (ITree.bind (defined None) k) w [] w Undef.
Proof. apply yields_bind_undef. apply yields_undefined. Qed.

(** Steps through a program whose next action is known. *)
Ltac run_step :=
  lazymatch goal with
  | |- yields ?h (Ret _) _ _ _ _ => apply yields_ret
  | |- yields ?h undefined _ _ _ _ => apply yields_undefined
  | |- yields ?h (ITree.bind (do ?c) ?k) ?w _ _ _ =>
    eapply (yields_do_bind h c k w)
  | |- yields ?h (ITree.bind (Ret ?a) ?k) _ _ _ _ =>
    apply (yields_ret_bind h a k)
  | |- yields ?h (ITree.bind (defined (Some ?a)) ?k) _ _ _ _ =>
    apply (yields_defined_bind h a k)
  | |- yields ?h (ITree.bind (defined None) ?k) _ _ _ _ =>
    apply (yields_undefined_bind h k)
  | |- yields ?h (do ?c) ?w _ _ _ => eapply (yields_do h c w)
  end.

(* ===================================================================== *)
(** * choose_or_create_bus                                                *)
(* ===================================================================== *)

Lemma lowest_le_first (first : Z) (rest : list Z) :
  (Example.lowest first rest <= first)%Z.
Proof.
  unfold Example.lowest. revert first.
  induction rest as [|b rest IH]; intros first; simpl; [lia|].
  destruct (Z.ltb_spec b first); [specialize (IH b)|specialize (IH first)]; lia.
Qed.

Lemma lowest_in (first : Z) (rest : list Z) :
  In (Example.lowest first rest) (first :: rest).
Proof.
  unfold Example.lowest. revert first.
  induction rest as [|b rest IH]; intros first; simpl; [now left|].
  destruct (b <? first)%Z.
  - right. apply IH.
  - destruct (IH first) as [A|A]; [now left|right; now right].
Qed.

Lemma lowest_le (first : Z) (rest : list Z) (b : Z) :
  In b (first :: rest) -> (Example.lowest first rest <= b)%Z.
Proof.
  unfold Example.lowest. revert first.
  induction rest as [|c rest IH]; intros first Hin; simpl.
  - destruct Hin as [<-|[]]. lia.
  - destruct Hin as [<-|[<-|Hin]].
    + pose proof (lowest_le_first (if (c <? first)%Z then c else first) rest) as A.
      unfold Example.lowest in A.
      destruct (Z.ltb_spec c first); lia.
    + pose proof (lowest_le_first (if (c <? first)%Z then c else first) rest) as A.
      unfold Example.lowest in A.
      destruct (Z.ltb_spec c first); lia.
    + apply IH. now right.
Qed.

(** C2. When listing the buses succeeds, [choose_or_create_bus] returns
    the numeric minimum of the listed identifiers if there is one, without
    creating a bus; it calls [viiper_bus_create] only when the list is
    empty, and then returns the identifier the call assigned. *)
Theorem choose_or_create_bus_lowest_else_created
  (W : Type) (h : forall c : call, W -> resp c * W) (w : W)
  (client : handle) (buses : list Z) :
  fst (h (viiper_bus_list client) w) = (VIIPER_OK, buses) ->
  exists tr w' busId,
    yields h (Example.choose_or_create_bus client) w tr w' (Returned busId) /\
    (buses <> [] ->
       In busId buses /\ (forall b, In b buses -> (busId <= b)%Z) /\
       ~ In (viiper_bus_create client) tr) /\
    (buses = [] ->
       In (viiper_bus_create client) tr /\
       forall id,
         fst (h (viiper_bus_create client)
                (snd (h viiper_free_bus_list_response
                        (snd (h (viiper_bus_list client) w)))))
         = (VIIPER_OK, id) ->
         busId = id).
Proof.
  intros Hlist. unfold Example.choose_or_create_bus.
  destruct buses as [|first rest].
  - (* no bus: create one *)
    destruct (fst (h (viiper_bus_create client)
                (snd (h viiper_free_bus_list_response
                        (snd (h (viiper_bus_list client) w))))))
      as [rc id] eqn:Hcreate.
    destruct rc as [|e].
    + do 3 eexists. split; [|split].
      * run_step. rewrite Hlist. cbn [negb is_ok].
        run_step. run_step. rewrite Hcreate. cbn [negb is_ok].
        run_step. run_step.
      * intros A. now contradiction A.
      * intros _. split; [cbn; tauto|].
        intros id' Hid. now inversion Hid.
    + do 3 eexists. split; [|split].
      * run_step. rewrite Hlist. cbn [negb is_ok].
        run_step. run_step. rewrite Hcreate. cbn [negb is_ok].
        run_step. run_step. run_step.
      * intros A. now contradiction A.
      * intros _. split; [cbn; tauto|].
        intros id' Hid. inversion Hid.
  - do 3 eexists. split; [|split].
    + run_step. rewrite Hlist. cbn [negb is_ok].
      run_step. run_step. run_step.
    + intros _. split; [apply lowest_in|split; [intros b; apply lowest_le|]].
      cbn. intros [A|[A|[A|[]]]]; discriminate.
    + intros A. discriminate.
Qed.

Lemma choose_or_create_bus_lowest_else_created_witness :
  fst (Hub.handler (viiper_bus_list 1) (hub_with [5; 3; 9]%Z []))
  = (VIIPER_OK, [5; 3; 9]%Z) /\
  exists tr w' busId,
    yields Hub.handler (Example.choose_or_create_bus 1)
      (hub_with [5; 3; 9]%Z []) tr w' (Returned busId) /\
    ([5; 3; 9]%Z <> [] ->
       In busId [5; 3; 9]%Z /\
       (forall b, In b [5; 3; 9]%Z -> (busId <= b)%Z) /\
       ~ In (viiper_bus_create 1) tr) /\
    ([5; 3; 9]%Z = [] ->
       In (viiper_bus_create 1) tr /\
       forall id,
         fst (Hub.handler (viiper_bus_create 1)
                (snd (Hub.handler viiper_free_bus_list_response
                        (snd (Hub.handler (viiper_bus_list 1)
                                (hub_with [5; 3; 9]%Z []))))))
         = (VIIPER_OK, id) ->
         busId = id).
Proof.
  split; [reflexivity|].
  apply (choose_or_create_bus_lowest_else_created
           Hub.state Hub.handler (hub_with [5; 3; 9]%Z []) 1 [5; 3; 9]%Z).
  reflexivity.
Defined.

(* ===================================================================== *)
(** * Arrays                                                              *)
(* ===================================================================== *)

Lemma read_written {A} (l : list A) (rest : C.array A) :
  C.read (map Some l ++ rest) (List.length l) = Some l.
Proof.
  induction l as [|a l IH]; simpl; [reflexivity|].
  now rewrite IH.
Qed.

Lemma length_uninit {A} n : List.length (@C.uninit A n) = n.
Proof. apply repeat_length. Qed.

(* ===================================================================== *)
(** * send_keys                                                           *)
(* ===================================================================== *)

Section SendKeys.

Context {W : Type} (h : forall c : call, W -> resp c * W).

(** The packet [send_keys] builds and what it does with it, for a [keys]
    pointer that is usable: the block is sent once, whole, when it could be
    allocated, and nothing is sent otherwise. *)
Lemma send_keys_run (w : W) (dev : handle) (modifiers : byte)
  (keys : option (list byte)) (nkeys : byte) :
  let n := N.to_nat (Byte.to_N nkeys) in
  let ks := match keys with Some ks => ks | None => [] end in
  match keys with Some ks => n <= List.length ks | None => n = 0 end ->
  let frame := modifiers :: nkeys :: firstn n ks in
  exists w',
    yields h (Keyboard.send_keys dev modifiers keys nkeys) w
      (malloc (2 + n) ::
       if fst (h (malloc (2 + n)) w)
       then [viiper_device_send dev (Bytes frame) (2 + n); free]
       else [])
      w' (Returned tt).
Proof.
  intros n ks Hkeys frame. unfold Keyboard.send_keys. fold n.
  assert (Hguard :
    (match keys with None => true | Some _ => false end) && negb (n =? 0)%nat
    = false).
  { destruct keys; [reflexivity|]. rewrite Hkeys. reflexivity. }
  rewrite Hguard. cbv zeta.
  destruct (fst (h (malloc (2 + n)) w)) eqn:Hmalloc.
  2: { eexists. run_step. rewrite Hmalloc. cbn [negb]. run_step. }
  eexists. run_step. rewrite Hmalloc. cbn [negb].
  change (C.uninit (2 + n)) with (@None byte :: None :: C.uninit n).
  change (C.store (None :: None :: C.uninit n) 0 modifiers)
    with (Some (Some modifiers :: None :: @C.uninit byte n)).
  run_step.
  change (C.store (Some modifiers :: None :: C.uninit n) 1 nkeys)
    with (Some (Some modifiers :: Some nkeys :: @C.uninit byte n)).
  run_step.
  assert (Hread : forall body : C.array byte,
    body = map Some (firstn n ks) ->
    C.read (Some modifiers :: Some nkeys :: body) (2 + n) = Some frame).
  { intros body ->. cbn [C.read Nat.add].
    assert (Hlen : List.length (firstn n ks) = n).
    { rewrite length_firstn. subst ks. destruct keys; simpl in *; lia. }
    pose proof (read_written (firstn n ks) []) as R.
    rewrite app_nil_r, Hlen in R. rewrite R. reflexivity. }
  destruct keys as [ks0|]; subst ks.
  - destruct (n =? 0)%nat eqn:Hn; cbn [negb].
    + apply Nat.eqb_eq in Hn. run_step.
      rewrite (Hread (C.uninit n)); [|rewrite Hn; reflexivity].
      run_step. run_step. run_step. run_step.
    + unfold C.memcpy.
      assert (Hfit : (n <=? List.length ks0)%nat
                     && (2 + n <=? List.length
                           (Some modifiers :: Some nkeys :: @C.uninit byte n))%nat
                     = true).
      { cbn [List.length]. rewrite length_uninit.
        apply andb_true_intro. split; apply Nat.leb_le; [exact Hkeys|lia]. }
      rewrite Hfit. run_step.
      replace (firstn 2 (Some modifiers :: Some nkeys :: C.uninit n)
               ++ map Some (firstn n ks0)
               ++ skipn (2 + n) (Some modifiers :: Some nkeys :: C.uninit n))
        with (Some modifiers :: Some nkeys :: map Some (firstn n ks0)).
      * rewrite (Hread _ eq_refl).
        run_step. run_step. run_step. run_step.
      * cbn [firstn skipn Nat.add app].
        rewrite skipn_all2; [|rewrite length_uninit; lia].
        now rewrite app_nil_r.
  - run_step.
    rewrite (Hread (C.uninit n)); [|rewrite Hkeys; reflexivity].
    run_step. run_step. run_step. run_step.
Qed.

End SendKeys.

Lemma byte_to_nat_zero (b : byte) :
  N.to_nat (Byte.to_N b) = 0 -> b = x00.
Proof.
  intros Hb. assert (Hn : Byte.to_N b = 0%N) by lia.
  pose proof (Byte.of_to_N b) as A. rewrite Hn in A.
  now inversion A.
Qed.

(** C1. For a call of [send_keys] whose [keys] pointer is usable (it
    points to at least [nkeys] bytes, or is null with [nkeys = 0]), the
    buffer handed to [viiper_device_send] has length [2 + nkeys]: byte 0 is
    [modifiers], byte 1 is [nkeys], and the bytes from 2 on are
    [keys[0..nkeys-1]].  It is sent exactly when it could be allocated.  In
    particular left shift with the single key H gives [0x02, 0x01, H]. *)
Theorem send_keys_wire_frame `{viiper_keyboard_h}
  (W : Type) (h : forall c : call, W -> resp c * W) (w : W)
  (dev : handle) (modifiers : byte) (keys : option (list byte)) (nkeys : byte) :
  let n := N.to_nat (Byte.to_N nkeys) in
  let ks := match keys with Some ks => ks | None => [] end in
  match keys with Some ks => n <= List.length ks | None => n = 0 end ->
  exists frame w',
    yields h (Keyboard.send_keys dev modifiers keys nkeys) w
      (malloc (2 + n) ::
       if fst (h (malloc (2 + n)) w)
       then [viiper_device_send dev (Bytes frame) (2 + n); free]
       else [])
      w' (Returned tt) /\
    List.length frame = 2 + n /\
    nth_error frame 0 = Some modifiers /\
    nth_error frame 1 = Some nkeys /\
    (forall i, i < n -> nth_error frame (2 + i) = nth_error ks i) /\
    (modifiers = VIIPER_KEYBOARD_MOD_LEFT_SHIFT ->
     keys = Some [VIIPER_KEYBOARD_KEY_H] -> nkeys = x01 ->
     frame = [x02; x01; VIIPER_KEYBOARD_KEY_H]).
Proof.
  intros n ks Hkeys.
  destruct (send_keys_run h w dev modifiers keys nkeys Hkeys) as [w' Hrun].
  exists (modifiers :: nkeys :: firstn n ks), w'.
  split; [exact Hrun|].
  assert (Hlen : List.length (firstn n ks) = n).
  { rewrite length_firstn. subst ks. destruct keys; simpl in *; lia. }
  repeat split.
  - cbn [List.length]. now rewrite Hlen.
  - intros i Hi. cbn [Nat.add nth_error]. rewrite nth_error_firstn.
    apply Nat.ltb_lt in Hi. now rewrite Hi.
  - intros -> Hk Hn. subst n ks. rewrite Hk, Hn. reflexivity.
Qed.

Lemma send_keys_wire_frame_witness :
  exists frame w',
    yields Hub.handler
      (Keyboard.send_keys 1
         VIIPER_KEYBOARD_MOD_LEFT_SHIFT (Some [x0b]) x01)
      (hub_with [] [])
      [malloc 3; viiper_device_send 1 (Bytes frame) 3; free]
      w' (Returned tt) /\
    frame = [x02; x01; x0b].
Proof.
  destruct (@send_keys_wire_frame hid_keyboard Hub.state Hub.handler
              (hub_with [] []) 1 VIIPER_KEYBOARD_MOD_LEFT_SHIFT
              (Some [x0b]) x01 (le_n 1))
    as [frame [w' [Hrun [_ [_ [_ [_ Hframe]]]]]]].
  exists frame, w'. split.
  - exact Hrun.
  - apply Hframe; reflexivity.
Defined.

(** The reports of [type_string_hello], as a hub that accepts them
    receives them: each key press is followed by a release-all report, and
    the first press is left shift with H. *)
Example type_string_hello_reports `{viiper_keyboard_h} (dev : handle) :
  exists n tr s,
    run Hub.handler n (Keyboard.type_string_hello dev) (hub_with [] [])
    = (tr, s, Returned tt) /\
    sent_bytes tr =
    [[x02; x01; VIIPER_KEYBOARD_KEY_H]; [x00; x00];
     [x00; x01; VIIPER_KEYBOARD_KEY_E]; [x00; x00];
     [x00; x01; VIIPER_KEYBOARD_KEY_L]; [x00; x00];
     [x00; x01; VIIPER_KEYBOARD_KEY_L]; [x00; x00];
     [x00; x01; VIIPER_KEYBOARD_KEY_O]; [x00; x00];
     [x02; x01; VIIPER_KEYBOARD_KEY1]; [x00; x00]].
Proof. exists 100. do 2 eexists. split; vm_compute; reflexivity. Qed.

(** C8. With a null [keys] and [nkeys > 0], [send_keys] returns without
    calling [viiper_device_send] (it makes no call at all), so it never
    copies from the null pointer; with a null [keys] and [nkeys = 0] the
    release-all report is still sent, as the two bytes [modifiers, 0], when
    its block could be allocated. *)
Theorem send_keys_null_keys
  (W : Type) (h : forall c : call, W -> resp c * W) (w : W)
  (dev : handle) (modifiers : byte) (nkeys : byte) :
  (nkeys <> x00 ->
   yields h (Keyboard.send_keys dev modifiers None nkeys) w [] w (Returned tt)) /\
  (nkeys = x00 ->
   exists w',
     yields h (Keyboard.send_keys dev modifiers None nkeys) w
       (malloc 2 ::
        if fst (h (malloc 2) w)
        then [viiper_device_send dev (Bytes [modifiers; x00]) 2; free]
        else [])
       w' (Returned tt)).
Proof.
  split.
  - intros Hn. unfold Keyboard.send_keys.
    destruct (N.to_nat (Byte.to_N nkeys) =? 0)%nat eqn:Hz.
    + apply Nat.eqb_eq in Hz. now apply byte_to_nat_zero in Hz.
    + cbn [negb andb]. run_step.
  - intros ->.
    exact (send_keys_run h w dev modifiers None x00 eq_refl).
Qed.

Lemma send_keys_null_keys_witness :
  yields (failing ConnectionError)
    (Keyboard.send_keys 1 x02 None x03) tt [] tt
    (Returned tt) /\
  exists w',
    yields Hub.handler (Keyboard.send_keys 1 x00 None x00)
      (hub_with [] [])
      [malloc 2; viiper_device_send 1 (Bytes [x00; x00]) 2; free]
      w' (Returned tt).
Proof.
  split.
  - apply (proj1 (send_keys_null_keys unit
                    (failing ConnectionError) tt 1 x02 x03)).
    discriminate.
  - apply (proj2 (send_keys_null_keys Hub.state Hub.handler
                    (hub_with [] []) 1 x00 x00)).
    reflexivity.
Defined.

(* ===================================================================== *)
(** * on_leds                                                             *)
(* ===================================================================== *)

Lemma skipn_nth_error {A} (l : list A) (i : nat) (a : A) :
  nth_error l i = Some a -> skipn i l = a :: skipn (S i) l.
Proof.
  revert l. induction i as [|i IH]; intros [|x l] Hnth; simpl in *;
    try discriminate.
  - now inversion Hnth.
  - now apply IH.
Qed.

Section OnLeds.

Context `{viiper_keyboard_h}.
Context {W : Type} (h : forall c : call, W -> resp c * W).

(** The loop of [on_leds] from index [i] on: one line per remaining
    byte, in the order of the buffer. *)
Lemma on_leds_loop (buffer : list byte) (bytes_read : nat) :
  bytes_read <= List.length buffer ->
  forall k i w, k = bytes_read - i ->
  exists w',
    yields h
      (for_ i bytes_read (fun i =>
         b <- defined (nth_error buffer i);;
         do (leds_line b)))
      w (map leds_line (firstn k (skipn i buffer))) w' (Returned tt).
Proof.
  intros Hlen. induction k as [|k IH]; intros i w Hk.
  - exists w. unfold for_. apply yields_iter_stop.
    assert (Hi : (i <? bytes_read)%nat = false) by (apply Nat.ltb_ge; lia).
    rewrite Hi. run_step.
  - assert (Hi : (i <? bytes_read)%nat = true) by (apply Nat.ltb_lt; lia).
    destruct (nth_error buffer i) as [b|] eqn:Hb.
    2: { apply nth_error_None in Hb. lia. }
    destruct (IH (S i) (snd (h (leds_line b) w)) ltac:(lia)) as [w' Hrest].
    exists w'. rewrite (skipn_nth_error buffer i b Hb).
    change (map leds_line (firstn (S k) (b :: skipn (S i) buffer)))
      with ([leds_line b] ++ map leds_line (firstn k (skipn (S i) buffer))).
    unfold for_. eapply yields_iter_again; [|exact Hrest].
    rewrite Hi, Hb.
    rewrite <- (app_nil_r [leds_line b]).
    eapply yields_bind; [|apply yields_ret].
    run_step. run_step.
Qed.

End OnLeds.

(** C4. A delivery of [bytes_read] bytes to [on_leds] is handled as
    [bytes_read] records of one byte: the callback prints one line per
    byte, for all of them and in the order of the buffer, and the line of a
    byte gives, for each of the five LEDs in the order Num, Caps, Scroll,
    Compose, Kana, 1 when the byte has a bit of that LED's mask and 0 when
    it has none.  The three bytes [0x01, 0x00, 0x02] delivered at once
    give three lines, and a delivery of no byte gives none. *)
Theorem on_leds_decodes_each_byte `{viiper_keyboard_h}
  (W : Type) (h : forall c : call, W -> resp c * W) (w : W)
  (buffer : list byte) (bytes_read : nat) :
  let flag (b : byte) (mask : Z) : Z :=
    if (Z.land (Z.of_N (Byte.to_N b)) mask =? 0)%Z then 0%Z else 1%Z in
  let line (b : byte) : call :=
    printf "→ LEDs: Num=%u Caps=%u Scroll=%u Compose=%u Kana=%u\n"
      [ArgU (flag b VIIPER_KEYBOARD_LED_NUM_LOCK);
       ArgU (flag b VIIPER_KEYBOARD_LED_CAPS_LOCK);
       ArgU (flag b VIIPER_KEYBOARD_LED_SCROLL_LOCK);
       ArgU (flag b VIIPER_KEYBOARD_LED_COMPOSE);
       ArgU (flag b VIIPER_KEYBOARD_LED_KANA)] in
  bytes_read <= List.length buffer ->
  exists tr w',
    yields h (Keyboard.on_leds buffer bytes_read) w tr w' (Returned tt) /\
    tr = map line (firstn bytes_read buffer) /\
    List.length tr = bytes_read /\
    (bytes_read = 0 -> tr = []) /\
    (buffer = [x01; x00; x02] -> bytes_read = 3 ->
     tr = [line x01; line x00; line x02]).
Proof.
  intros flag line Hlen.
  assert (Hline : forall b, leds_line b = line b) by reflexivity.
  assert (Hrun : exists w',
    yields h (Keyboard.on_leds buffer bytes_read) w
      (map leds_line (firstn bytes_read buffer)) w' (Returned tt)).
  { unfold Keyboard.on_leds. cbv zeta.
    destruct (bytes_read =? 0)%nat eqn:Hz.
    - apply Nat.eqb_eq in Hz. subst bytes_read. exists w. run_step.
    - destruct (on_leds_loop h buffer bytes_read Hlen bytes_read 0 w
                  ltac:(lia)) as [w' Hloop].
      exists w'. exact Hloop. }
  destruct Hrun as [w' Hrun].
  rewrite (map_ext _ _ Hline) in Hrun.
  exists (map line (firstn bytes_read buffer)), w'.
  split; [exact Hrun|]. split; [reflexivity|]. split; [|split].
  - rewrite length_map, length_firstn. lia.
  - intros ->. reflexivity.
  - intros -> ->. reflexivity.
Qed.

Lemma on_leds_decodes_each_byte_witness :
  exists tr w',
    yields Hub.handler (Keyboard.on_leds (H := hid_keyboard) [x01; x00; x02] 3)
      (hub_with [] []) tr w' (Returned tt) /\
    tr = [printf "→ LEDs: Num=%u Caps=%u Scroll=%u Compose=%u Kana=%u\n"
            [ArgU 1; ArgU 0; ArgU 0; ArgU 0; ArgU 0];
          printf "→ LEDs: Num=%u Caps=%u Scroll=%u Compose=%u Kana=%u\n"
            [ArgU 0; ArgU 0; ArgU 0; ArgU 0; ArgU 0];
          printf "→ LEDs: Num=%u Caps=%u Scroll=%u Compose=%u Kana=%u\n"
            [ArgU 0; ArgU 1; ArgU 0; ArgU 0; ArgU 0]].
Proof.
  destruct (@on_leds_decodes_each_byte hid_keyboard Hub.state Hub.handler
              (hub_with [] []) [x01; x00; x02] 3 (le_n 3))
    as [tr [w' [Hrun [_ [_ [_ Hthree]]]]]].
  exists tr, w'. split.
  - exact Hrun.
  - apply Hthree; reflexivity.
Defined.

(* ===================================================================== *)
(** * on_rumble                                                           *)
(* ===================================================================== *)

(** C5. [on_rumble] reads a delivered frame as a structure of two
    fields, the first being the left intensity and the second the right
    one, and it reads them only when at least two bytes were delivered:
    with fewer it prints nothing and touches no byte of the frame. *)
Theorem on_rumble_two_fields
  (W : Type) (h : forall c : call, W -> resp c * W) (w : W)
  (output : list byte) (output_size : nat) :
  (forall l r rest,
     2 <= output_size -> output = l :: r :: rest ->
     as_xbox360_output output = Some {| left := l; right := r |} /\
     yields h (X360Pad.on_rumble output output_size) w
       [printf "← Rumble: Left=%u, Right=%u\n" [ArgU (C.u8 l); ArgU (C.u8 r)]]
       (snd (h (printf "← Rumble: Left=%u, Right=%u\n"
                  [ArgU (C.u8 l); ArgU (C.u8 r)]) w))
       (Returned tt)) /\
  (output_size < 2 ->
   yields h (X360Pad.on_rumble output output_size) w [] w (Returned tt)).
Proof.
  split.
  - intros l r rest Hsize ->. split; [reflexivity|].
    unfold X360Pad.on_rumble.
    apply Nat.leb_le in Hsize. rewrite Hsize.
    cbn [as_xbox360_output]. run_step. cbn [left right].
    pose proof (yields_do h
      (printf "← Rumble: Left=%u, Right=%u\n" [ArgU (C.u8 l); ArgU (C.u8 r)]) w)
      as Hprint.
    destruct (h (printf "← Rumble: Left=%u, Right=%u\n"
                   [ArgU (C.u8 l); ArgU (C.u8 r)]) w) as [[] w1].
    exact Hprint.
  - intros Hsize. unfold X360Pad.on_rumble.
    apply Nat.leb_gt in Hsize. rewrite Hsize. run_step.
Qed.

Lemma on_rumble_two_fields_witness :
  yields Hub.handler (X360Pad.on_rumble [x80; xff] 2) (hub_with [] [])
    [printf "← Rumble: Left=%u, Right=%u\n" [ArgU 128; ArgU 255]]
    (hub_with [] []) (Returned tt) /\
  yields Hub.handler (X360Pad.on_rumble [x80] 1) (hub_with [] [])
    [] (hub_with [] []) (Returned tt).
Proof.
  split.
  - apply (proj1 (on_rumble_two_fields Hub.state Hub.handler (hub_with [] [])
                    [x80; xff] 2) x80 xff []).
    + apply le_n.
    + reflexivity.
  - apply (proj2 (on_rumble_two_fields Hub.state Hub.handler (hub_with [] [])
                    [x80] 1)).
    apply le_n.
Defined.

(* ===================================================================== *)
(** * Strings and the host buffer                                         *)
(* ===================================================================== *)

Lemma strrchr_lt (s : string) (c : ascii) (i : nat) :
  C.strrchr s c = Some i -> i < String.length s.
Proof.
  revert i. induction s as [|a s IH]; intros i Hs; simpl in *; [discriminate|].
  destruct (C.strrchr s c) as [j|].
  - inversion Hs; subst. specialize (IH j eq_refl). lia.
  - destruct (Ascii.eqb a c); inversion Hs; subst. lia.
Qed.

(** [strrchr] finds the last occurrence: [c] is at the offset it returns
    and nowhere after it; it returns nothing only if [c] is nowhere. *)
Lemma strrchr_last (s : string) (c : ascii) :
  match C.strrchr s c with
  | Some i =>
    String.get i s = Some c /\
    forall j, i < j -> String.get j s <> Some c
  | None => forall j, String.get j s <> Some c
  end.
Proof.
  induction s as [|a s IH]; simpl.
  - intros j. destruct j; discriminate.
  - destruct (C.strrchr s c) as [i|].
    + destruct IH as [Hget Hafter]. split; [exact Hget|].
      intros [|j] Hj; [lia|]. apply Hafter. lia.
    + destruct (Ascii.eqb_spec a c) as [->|Hne].
      * split; [reflexivity|]. intros [|j] Hj; [lia|]. apply IH.
      * intros [|j]; [congruence|apply IH].
Qed.

Lemma length_list_ascii_of_string (s : string) :
  List.length (list_ascii_of_string s) = String.length s.
Proof. induction s as [|a s IH]; simpl; [reflexivity|now rewrite IH]. Qed.

Lemma substring_firstn (s : string) (n : nat) :
  substring 0 n s = string_of_list_ascii (firstn n (list_ascii_of_string s)).
Proof.
  revert n. induction s as [|a s IH]; intros [|n]; simpl; try reflexivity.
  now rewrite IH.
Qed.

Lemma cstring_written (l : list ascii) (rest : C.array ascii) :
  forallb (fun c => negb (Ascii.eqb c C.NUL)) l = true ->
  C.cstring (map Some l ++ Some C.NUL :: rest) = Some (string_of_list_ascii l).
Proof.
  induction l as [|a l IH]; intros Hl; simpl in *; [reflexivity|].
  apply andb_prop in Hl. destruct Hl as [Ha Hl].
  apply negb_true_iff in Ha. rewrite Ha, (IH Hl). reflexivity.
Qed.

Lemma forallb_firstn {A} (f : A -> bool) (l : list A) (n : nat) :
  forallb f l = true -> forallb f (firstn n l) = true.
Proof.
  revert n. induction l as [|a l IH]; intros [|n] Hl; simpl in *; auto.
  apply andb_prop in Hl. destruct Hl as [Ha Hl].
  now rewrite Ha, (IH n Hl).
Qed.

Lemma skipn_uninit {A} (n m : nat) :
  skipn n (@C.uninit A m) = C.uninit (m - n).
Proof.
  unfold C.uninit. revert m. induction n as [|n IH]; intros m; simpl.
  - now rewrite Nat.sub_0_r.
  - destruct m as [|m]; simpl; [reflexivity|apply IH].
Qed.

Lemma memcpy_uninit {A} (src : list A) (n m : nat) :
  n <= List.length src -> n <= m ->
  C.memcpy (C.uninit m) 0 src n
  = Some (map Some (firstn n src) ++ C.uninit (m - n)).
Proof.
  intros Hsrc Hm. unfold C.memcpy.
  rewrite length_uninit.
  replace ((n <=? List.length src)%nat) with true
    by (symmetry; now apply Nat.leb_le).
  replace ((0 + n <=? m)%nat) with true by (symmetry; now apply Nat.leb_le).
  cbn [andb firstn app Nat.add]. now rewrite skipn_uninit.
Qed.

Lemma store_after {A} (l : list A) (x : option A) (rest : C.array A) (v : A) :
  C.store (map Some l ++ x :: rest) (List.length l) v
  = Some (map Some l ++ Some v :: rest).
Proof.
  unfold C.store.
  assert (Hlen : List.length (map Some l) = List.length l) by apply length_map.
  replace ((List.length l <? List.length (map Some l ++ x :: rest))%nat) with true.
  2: { symmetry. apply Nat.ltb_lt. rewrite length_app, Hlen. simpl. lia. }
  rewrite <- Hlen at 1.
  rewrite firstn_app, firstn_all, Nat.sub_diag. cbn [firstn].
  rewrite app_nil_r.
  replace (S (List.length l)) with (List.length (map Some l) + 1) by lia.
  rewrite skipn_app, skipn_all2 by lia.
  replace (List.length (map Some l) + 1 - List.length (map Some l)) with 1 by lia.
  reflexivity.
Qed.

Lemma host_of_spec (addr : string) (colon : nat) :
  colon < String.length addr ->
  let len := if (256 <=? colon)%nat then 255 else colon in
  len <= 255 /\
  List.length (host_of addr colon) = 256 /\
  nth_error (host_of addr colon) len = Some (Some C.NUL) /\
  (C.is_cstring addr = true ->
   C.cstring (host_of addr colon) = Some (substring 0 len addr)).
Proof.
  intros Hcolon len.
  assert (Hle : len <= 255).
  { subst len. destruct (Nat.leb_spec 256 colon); lia. }
  assert (Hlen : len <= String.length addr).
  { subst len. destruct (Nat.leb_spec 256 colon); lia. }
  assert (Hfirst : List.length (firstn len (list_ascii_of_string addr)) = len).
  { rewrite length_firstn, length_list_ascii_of_string. lia. }
  unfold host_of. fold len. repeat split.
  - exact Hle.
  - rewrite length_app, length_map, Hfirst. cbn [List.length].
    rewrite length_uninit. lia.
  - rewrite nth_error_app2; rewrite length_map, Hfirst; [|lia].
    now rewrite Nat.sub_diag.
  - intros Hstr. rewrite substring_firstn.
    apply cstring_written. apply forallb_firstn. exact Hstr.
Qed.

(** With one argument that holds a colon, [main] makes no call and runs
    into nothing undefined before it connects, provided [atoi] is defined
    on the port part: the host buffer is [host_of] and the port is the
    number read, as a [uint16_t]. *)
Lemma main_args_address (usage prog addr : string) (colon : nat) (n : Z) :
  C.strrchr addr ":" = Some colon ->
  C.atoi (C.offset addr (S colon)) = Some n ->
  observe (Example.main_args usage [prog; addr])
  = RetF (inr (host_of addr colon, C.to_uint16_t n)).
Proof.
  intros Hcolon Hatoi.
  pose proof (strrchr_lt addr ":" colon Hcolon) as Hlt.
  unfold Example.main_args. cbv zeta.
  change (List.length [prog; addr] <=? 1)%nat with false.
  change (List.length [prog; addr] =? 2)%nat with true.
  change (nth 1 [prog; addr] "") with addr.
  cbv iota. rewrite Hcolon.
  set (len := if (256 <=? colon)%nat then 255 else colon).
  assert (Hle : len <= 255).
  { subst len. destruct (Nat.leb_spec 256 colon); lia. }
  assert (Hlen : len <= String.length addr).
  { subst len. destruct (Nat.leb_spec 256 colon); lia. }
  rewrite (memcpy_uninit (list_ascii_of_string addr) len 256)
    by (rewrite ?length_list_ascii_of_string; lia).
  replace (256 - len) with (S (255 - len)) by lia.
  change (@C.uninit ascii (S (255 - len))) with (@None ascii :: C.uninit (255 - len)).
  assert (Hfirst : List.length (firstn len (list_ascii_of_string addr)) = len).
  { rewrite length_firstn, length_list_ascii_of_string. lia. }
  pose proof (store_after (firstn len (list_ascii_of_string addr)) None
                (C.uninit (255 - len)) C.NUL) as Hstore.
  rewrite Hfirst in Hstore.
  cbn [defined]. rewrite observe_bind. cbn [observe _observe].
  rewrite Hstore.
  cbn [defined]. rewrite observe_bind. cbn [observe _observe].
  rewrite Hatoi.
  reflexivity.
Qed.

Lemma main_args_default (usage : string) (argv : list string) :
  List.length argv <= 1 ->
  observe (Example.main_args usage argv) = RetF (inr (default_host, 3242%Z)).
Proof.
  intros Hargc. destruct argv as [|prog [|arg rest]]; [| |simpl in Hargc; lia];
    reflexivity.
Qed.

Lemma default_host_cstring : C.cstring default_host = Some "127.0.0.1".
Proof. reflexivity. Qed.

Lemma main_args_usage (usage : string) (argv : list string) :
  (exists prog addr, argv = [prog; addr] /\ C.strrchr addr ":" = None) \/
  2 < List.length argv ->
  observe (Example.main_args usage argv)
  = observe (do (fprintf_stderr usage []);; Ret (inl 1%Z)).
Proof.
  intros [[prog [addr [-> Hcolon]]]|Hargc].
  - unfold Example.main_args. cbv zeta.
    change (List.length [prog; addr] <=? 1)%nat with false.
    change (List.length [prog; addr] =? 2)%nat with true.
    change (nth 1 [prog; addr] "") with addr.
    cbv iota. now rewrite Hcolon.
  - unfold Example.main_args. cbv zeta.
    destruct argv as [|a [|b [|c rest]]]; simpl in Hargc; try lia.
    reflexivity.
Qed.

Lemma observe_bind_ret {R T} (t : itree E R) (k : R -> itree E T) (r : R) :
  observe t = RetF r -> observe (ITree.bind t k) = observe (k r).
Proof. intros Ht. now rewrite observe_bind, Ht. Qed.

Section FirstCall.

Context {W : Type} (h : forall c : call, W -> resp c * W).

Lemma first_call_observe {R} (t1 t2 : itree E R) w :
  observe t1 = observe t2 -> first_call h t1 w = first_call h t2 w.
Proof. intros Hobs. unfold first_call. now rewrite (run_observe h t1 t2 1 w Hobs). Qed.

Lemma first_call_do_bind {T} (c : call) (k : resp c -> itree E T) w :
  first_call h (ITree.bind (do c) k) w = Some c.
Proof.
  unfold first_call. rewrite run_S. cbn.
  now destruct (h c w) as [x w1].
Qed.

Lemma first_call_ret_bind {A T} (a : A) (k : A -> itree E T) w :
  first_call h (ITree.bind (defined (Some a)) k) w = first_call h (k a) w.
Proof. apply first_call_observe. reflexivity. Qed.

End FirstCall.

Lemma observe_bind_cong {R T} (t1 t2 : itree E R) (k : R -> itree E T) :
  observe t1 = observe t2 ->
  observe (ITree.bind t1 k) = observe (ITree.bind t2 k).
Proof. intros Ht. now rewrite !observe_bind, Ht. Qed.

(* ===================================================================== *)
(** * main: from the arguments to the connection                          *)
(* ===================================================================== *)

Section MainArgs.

Context `{viiper_keyboard_h} `{viiper_xbox360_h}.
Context {W : Type} (h : forall c : call, W -> resp c * W).

Lemma keyboard_main_connects argv host port hostname w :
  observe (Example.main_args "Usage: virtual_keyboard [host:port]\n" argv)
  = RetF (inr (host, port)) ->
  C.cstring host = Some hostname ->
  connects_to h (Keyboard.main argv) w hostname port.
Proof.
  intros Hargs Hhost. unfold connects_to.
  rewrite (first_call_observe h _ (Keyboard.main_connected host port)).
  - unfold Keyboard.main_connected. rewrite Hhost.
    rewrite first_call_ret_bind. apply first_call_do_bind.
  - unfold Keyboard.main. now rewrite (observe_bind_ret _ _ _ Hargs).
Qed.

Lemma pad_main_connects argv host port hostname w :
  observe (Example.main_args "Usage: virtual_x360_pad [host:port]\n" argv)
  = RetF (inr (host, port)) ->
  C.cstring host = Some hostname ->
  connects_to h (X360Pad.main argv) w hostname port.
Proof.
  intros Hargs Hhost. unfold connects_to.
  rewrite (first_call_observe h _ (X360Pad.main_connected host port)).
  - unfold X360Pad.main_connected. rewrite Hhost.
    rewrite first_call_ret_bind. apply first_call_do_bind.
  - unfold X360Pad.main. now rewrite (observe_bind_ret _ _ _ Hargs).
Qed.

(** A program that starts with the argument handling of [main] and is
    sent to the usage line prints it and returns 1. *)
Lemma main_exits_with_usage (usage : string) (argv : list string)
  (k : Z + C.array ascii * Z -> itree E Z) w :
  (forall status, k (inl status) = Ret status) ->
  (exists prog addr, argv = [prog; addr] /\ C.strrchr addr ":" = None) \/
  2 < List.length argv ->
  exits_with_usage h (ITree.bind (Example.main_args usage argv) k) w usage.
Proof.
  intros Hk Hargv. unfold exits_with_usage.
  apply (yields_observe h _
           (ITree.bind (do (fprintf_stderr usage []);; Ret (inl 1%Z)) k)).
  - apply observe_bind_cong. now apply main_args_usage.
  - rewrite <- (app_nil_r [fprintf_stderr usage []]).
    eapply yields_bind.
    + run_step. run_step.
    + rewrite Hk. run_step.
Qed.

End MainArgs.



Lemma host_len_min (colon : nat) :
  (if (256 <=? colon)%nat then 255 else colon) = Nat.min colon 255.
Proof. destruct (Nat.leb_spec 256 colon); lia. Qed.

Section MainAddress.

Context `{viiper_keyboard_h} `{viiper_xbox360_h}.
Context {W : Type} (h : forall c : call, W -> resp c * W).

(** With one argument [addr] that is a C string with its last colon at
    [colon] and a port part [atoi] is defined on, both programs connect to
    the host part, cut to 255 characters, and to the port as a
    [uint16_t]. *)
Lemma main_connects_to_address (w : W) (prog addr : string) (colon : nat) (n : Z) :
  C.is_cstring addr = true ->
  C.strrchr addr ":" = Some colon ->
  C.atoi (C.offset addr (S colon)) = Some n ->
  connects_to h (Keyboard.main [prog; addr]) w
    (substring 0 (Nat.min colon 255) addr) (C.to_uint16_t n) /\
  connects_to h (X360Pad.main [prog; addr]) w
    (substring 0 (Nat.min colon 255) addr) (C.to_uint16_t n).
Proof.
  intros Hstr Hcolon Hatoi.
  pose proof (strrchr_lt addr ":" colon Hcolon) as Hlt.
  destruct (host_of_spec addr colon Hlt) as [_ [_ [_ Hhost]]].
  specialize (Hhost Hstr). rewrite host_len_min in Hhost.
  split.
  - apply (keyboard_main_connects h _ (host_of addr colon)); [|exact Hhost].
    now apply main_args_address.
  - apply (pad_main_connects h _ (host_of addr colon)); [|exact Hhost].
    now apply main_args_address.
Qed.

End MainAddress.

(** C3, amended. Without an argument both programs connect to host
    127.0.0.1, port 3242.  With one argument that holds a colon, the host
    is the part before the last colon, cut to its first 255 characters
    when it is longer, and the port is [atoi] of the part after it
    (defined when that number fits an [int]) as a [uint16_t].  With one
    argument without a colon, or with more arguments, the program prints
    its usage line, returns 1 and makes no other call. *)
Theorem main_host_and_port `{viiper_keyboard_h} `{viiper_xbox360_h}
  (W : Type) (h : forall c : call, W -> resp c * W) (w : W)
  (argv : list string) :
  (List.length argv <= 1 ->
   connects_to h (Keyboard.main argv) w "127.0.0.1" 3242 /\
   connects_to h (X360Pad.main argv) w "127.0.0.1" 3242) /\
  (forall prog addr colon n,
     argv = [prog; addr] ->
     C.is_cstring addr = true ->
     C.strrchr addr ":" = Some colon ->
     C.atoi (C.offset addr (S colon)) = Some n ->
     connects_to h (Keyboard.main argv) w
       (substring 0 (Nat.min colon 255) addr) (n mod 65536) /\
     connects_to h (X360Pad.main argv) w
       (substring 0 (Nat.min colon 255) addr) (n mod 65536)) /\
  ((exists prog addr, argv = [prog; addr] /\ C.strrchr addr ":" = None) \/
   2 < List.length argv ->
   exits_with_usage h (Keyboard.main argv) w
     "Usage: virtual_keyboard [host:port]\n" /\
   exits_with_usage h (X360Pad.main argv) w
     "Usage: virtual_x360_pad [host:port]\n").
Proof.
  split; [|split].
  - intros Hargc. split.
    + apply (keyboard_main_connects h argv default_host);
        [now apply main_args_default|apply default_host_cstring].
    + apply (pad_main_connects h argv default_host);
        [now apply main_args_default|apply default_host_cstring].
  - intros prog addr colon n -> Hstr Hcolon Hatoi.
    now apply main_connects_to_address.
  - intros Hargv. split.
    + unfold Keyboard.main. apply main_exits_with_usage; [reflexivity|exact Hargv].
    + unfold X360Pad.main. apply main_exits_with_usage; [reflexivity|exact Hargv].
Qed.

Lemma main_host_and_port_witness :
  connects_to Hub.handler
    (Keyboard.main (H := hid_keyboard) ["virtual_keyboard"; "localhost:3242"])
    (hub_with [] []) "localhost" 3242 /\
  exits_with_usage Hub.handler
    (X360Pad.main (H := xinput_pad) ["virtual_x360_pad"; "localhost"])
    (hub_with [] []) "Usage: virtual_x360_pad [host:port]\n".
Proof.
  pose proof (@main_host_and_port hid_keyboard xinput_pad Hub.state
                Hub.handler (hub_with [] [])) as T.
  split.
  - exact (proj1 (proj1 (proj2 (T ["virtual_keyboard"; "localhost:3242"]))
                    "virtual_keyboard" "localhost:3242" 9 3242%Z
                    eq_refl eq_refl eq_refl eq_refl)).
  - apply (proj2 (proj2 (T ["virtual_x360_pad"; "localhost"]))).
    left. exists "virtual_x360_pad", "localhost". split; reflexivity.
Defined.

(** C3 as the specification words it fails on a host part of 300
    characters: the program connects to its first 255 characters, not to
    the part before the last colon. *)
Lemma main_long_host_counterexample :
  let addr := (string_of_list_ascii (repeat "a"%char 300) ++ ":80")%string in
  C.strrchr addr ":" = Some 300 /\
  connects_to Hub.handler
    (Keyboard.main (H := hid_keyboard) ["virtual_keyboard"; addr])
    (hub_with [] []) (substring 0 255 addr) 80 /\
  ~ connects_to Hub.handler
      (Keyboard.main (H := hid_keyboard) ["virtual_keyboard"; addr])
      (hub_with [] []) (substring 0 300 addr) 80.
Proof.
  cbv zeta. split; [|split].
  - vm_compute. reflexivity.
  - unfold connects_to. vm_compute. reflexivity.
  - unfold connects_to. vm_compute. intros Heq. inversion Heq.
Qed.








(* ===================================================================== *)
(** * The bus identifier 0                                                *)
(* ===================================================================== *)

Section BusZero.

Context `{viiper_keyboard_h} `{viiper_xbox360_h}.
Context {W : Type} (h : forall c : call, W -> resp c * W).

(** What [choose_or_create_bus] returns, from the answers it gets. *)
Lemma choose_or_create_bus_returns (w : W) (client : handle) :
  let listed := fst (h (viiper_bus_list client) w) in
  let created :=
    fst (h (viiper_bus_create client)
           (snd (h viiper_free_bus_list_response
                   (snd (h (viiper_bus_list client) w))))) in
  exists tr w',
    yields h (Example.choose_or_create_bus client) w tr w'
      (Returned
         (if is_ok (fst listed) then
            match snd listed with
            | first :: rest => Example.lowest first rest
            | [] => if is_ok (fst created) then snd created else 0%Z
            end
          else 0%Z)).
Proof.
  intros listed created. unfold Example.choose_or_create_bus.
  subst listed.
  destruct (fst (h (viiper_bus_list client) w)) as [rc buses] eqn:Hlist.
  cbn [fst snd].
  destruct rc as [|e]; cbn [is_ok].
  - destruct buses as [|first rest].
    + subst created.
      destruct (fst (h (viiper_bus_create client)
                  (snd (h viiper_free_bus_list_response
                          (snd (h (viiper_bus_list client) w))))))
        as [rc id] eqn:Hcreate.
      cbn [fst snd].
      destruct rc as [|e]; cbn [is_ok]; do 2 eexists.
      * run_step. rewrite Hlist. cbn [negb is_ok].
        run_step. run_step. rewrite Hcreate. cbn [negb is_ok].
        run_step. run_step.
      * run_step. rewrite Hlist. cbn [negb is_ok].
        run_step. run_step. rewrite Hcreate. cbn [negb is_ok].
        run_step. run_step. run_step.
    + do 2 eexists.
      run_step. rewrite Hlist. cbn [negb is_ok].
      run_step. run_step. run_step.
  - do 2 eexists.
    run_step. rewrite Hlist. cbn [negb is_ok].
    run_step. run_step. run_step.
Qed.

(** After a successful [viiper_client_create], a bus identifier 0 makes
    [main] free the client and return 1. *)
Lemma keyboard_main_zero_bus (w0 w w' : W) (host : C.array ascii) (port : Z)
  (hostname : string) (client : handle) (tr : list call) :
  C.cstring host = Some hostname ->
  h (viiper_client_create hostname port) w0 = ((VIIPER_OK, client), w) ->
  yields h (Example.choose_or_create_bus client) w tr w' (Returned 0%Z) ->
  yields h (Keyboard.main_connected host port) w0
    (viiper_client_create hostname port :: tr ++ [viiper_client_free client])
    (snd (h (viiper_client_free client) w')) (Returned 1%Z).
Proof.
  intros Hhost Hcreate Hchoose. unfold Keyboard.main_connected.
  rewrite Hhost. run_step. run_step. rewrite Hcreate. cbn [fst snd negb is_ok].
  eapply yields_bind; [exact Hchoose|].
  change (0 =? 0)%Z with true. cbv iota. run_step. run_step.
Qed.

Lemma pad_main_zero_bus (w0 w w' : W) (host : C.array ascii) (port : Z)
  (hostname : string) (client : handle) (tr : list call) :
  C.cstring host = Some hostname ->
  h (viiper_client_create hostname port) w0 = ((VIIPER_OK, client), w) ->
  yields h (Example.choose_or_create_bus client) w tr w' (Returned 0%Z) ->
  yields h (X360Pad.main_connected host port) w0
    (viiper_client_create hostname port :: tr ++ [viiper_client_free client])
    (snd (h (viiper_client_free client) w')) (Returned 1%Z).
Proof.
  intros Hhost Hcreate Hchoose. unfold X360Pad.main_connected.
  rewrite Hhost. run_step. run_step. rewrite Hcreate. cbn [fst snd negb is_ok].
  eapply yields_bind; [exact Hchoose|].
  change (0 =? 0)%Z with true. cbv iota. run_step. run_step.
Qed.

End BusZero.

(** C9. [choose_or_create_bus] returns 0 when listing the buses fails
    and when creating a bus fails; it also returns 0 when 0 is the lowest
    listed identifier and when the hub assigns 0 to the new bus.  In each of
    these cases [main], once connected, makes the calls of
    [choose_or_create_bus], frees the client and returns 1: a bus 0 is
    treated as the failure. *)
Theorem bus_zero_is_fatal `{viiper_keyboard_h} `{viiper_xbox360_h}
  (W : Type) (h : forall c : call, W -> resp c * W) (w : W) (client : handle) :
  let listed := fst (h (viiper_bus_list client) w) in
  let created :=
    fst (h (viiper_bus_create client)
           (snd (h viiper_free_bus_list_response
                   (snd (h (viiper_bus_list client) w))))) in
  is_ok (fst listed) = false \/
  (listed = (VIIPER_OK, []) /\ is_ok (fst created) = false) \/
  (fst listed = VIIPER_OK /\ In 0%Z (snd listed) /\
   forall b, In b (snd listed) -> (0 <= b)%Z) \/
  (listed = (VIIPER_OK, []) /\ created = (VIIPER_OK, 0%Z)) ->
  exists tr w',
    yields h (Example.choose_or_create_bus client) w tr w' (Returned 0%Z) /\
    forall (w0 : W) (argv : list string)
           (host : C.array ascii) (port : Z) (hostname : string),
      C.cstring host = Some hostname ->
      h (viiper_client_create hostname port) w0 = ((VIIPER_OK, client), w) ->
      (observe (Example.main_args "Usage: virtual_keyboard [host:port]\n" argv)
       = RetF (inr (host, port)) ->
       yields h (Keyboard.main argv) w0
         (viiper_client_create hostname port :: tr ++ [viiper_client_free client])
         (snd (h (viiper_client_free client) w')) (Returned 1%Z)) /\
      (observe (Example.main_args "Usage: virtual_x360_pad [host:port]\n" argv)
       = RetF (inr (host, port)) ->
       yields h (X360Pad.main argv) w0
         (viiper_client_create hostname port :: tr ++ [viiper_client_free client])
         (snd (h (viiper_client_free client) w')) (Returned 1%Z)).
Proof.
  intros listed created Hzero.
  destruct (choose_or_create_bus_returns h w client) as [tr [w' Hrun]].
  fold listed created in Hrun.
  assert (Hres :
    (if is_ok (fst listed) then
       match snd listed with
       | first :: rest => Example.lowest first rest
       | [] => if is_ok (fst created) then snd created else 0%Z
       end
     else 0%Z) = 0%Z).
  { destruct Hzero as [Hfail|[[Hlist Hfail]|[[Hok [Hin Hpos]]|[Hlist Hid]]]].
    - now rewrite Hfail.
    - rewrite Hlist. cbn [fst snd is_ok]. now rewrite Hfail.
    - rewrite Hok. cbn [is_ok].
      destruct (snd listed) as [|first rest]; [contradiction|].
      pose proof (lowest_le first rest 0%Z Hin) as Hle.
      pose proof (Hpos _ (lowest_in first rest)) as Hge. lia.
    - rewrite Hlist, Hid. reflexivity. }
  rewrite Hres in Hrun.
  exists tr, w'. split; [exact Hrun|].
  intros w0 argv host port hostname Hhost Hcreate. split; intros Hargs.
  - apply (yields_observe h _ (Keyboard.main_connected host port)).
    + unfold Keyboard.main. now rewrite (observe_bind_ret _ _ _ Hargs).
    + now apply (keyboard_main_zero_bus h w0 w w').
  - apply (yields_observe h _ (X360Pad.main_connected host port)).
    + unfold X360Pad.main. now rewrite (observe_bind_ret _ _ _ Hargs).
    + now apply (pad_main_zero_bus h w0 w w').
Qed.

Lemma bus_zero_is_fatal_witness :
  exists tr w',
    yields Hub.handler (Keyboard.main (H := hid_keyboard) ["virtual_keyboard"])
      (hub_with [0; 4]%Z [])
      (viiper_client_create "127.0.0.1" 3242 :: tr ++ [viiper_client_free 1])
      w' (Returned 1%Z).
Proof.
  assert (Hzero : forall b : Z, In b [0; 4]%Z -> (0 <= b)%Z).
  { intros b [<-|[<-|[]]]; lia. }
  destruct (@bus_zero_is_fatal hid_keyboard xinput_pad Hub.state Hub.handler
              (Hub.tick (hub_with [0; 4]%Z [])) 1
              (or_intror (or_intror (or_introl
                 (conj eq_refl (conj (or_introl eq_refl) Hzero))))))
    as [tr [w' [_ Hmain]]].
  exists tr. eexists.
  apply (proj1 (Hmain (hub_with [0; 4]%Z []) ["virtual_keyboard"]
                  default_host 3242%Z "127.0.0.1" eq_refl eq_refl)).
  reflexivity.
Defined.

(* ===================================================================== *)
(** * The hub: devices and buses                                          *)
(* ===================================================================== *)

(** [send] on a live device does not report [DeviceClosed]. *)
Lemma send_live_not_closed (hd : handle) (d : Hub.device) (r : report)
  (s : Hub.state) :
  Hub.find_device hd s = Some d -> Hub.dev_live d = true ->
  fst (Hub.send hd r s) <> inl (DeviceError DeviceClosed).
Proof.
  intros Hfind Hlive. unfold Hub.send. rewrite Hfind, Hlive. cbn [negb].
  destruct (Hub.up (Hub.tick s)); cbn; discriminate.
Qed.

Lemma find_update_device (hd : handle) (f : Hub.device -> Hub.device)
  (d : Hub.device) (s : Hub.state) :
  (forall d', Hub.dev_handle (f d') = Hub.dev_handle d') ->
  Hub.find_device hd s = Some d ->
  Hub.find_device hd (Hub.update_device hd f s) = Some (f d).
Proof.
  intros Hf. unfold Hub.find_device, Hub.update_device.
  cbn [Hub.devices Hub.with_devices].
  induction (Hub.devices s) as [|d0 ds IH]; cbn [find map]; [discriminate|].
  destruct (Nat.eqb hd (Hub.dev_handle d0)) eqn:Hd0.
  - intros Heq. inversion Heq; subst. cbn [find]. now rewrite Hf, Hd0.
  - intros Hfind. cbn [find]. rewrite Hd0. now apply IH.
Qed.

(** Registering an output callback keeps a live device live. *)
Lemma register_output_live (hd : handle) (cb : callback) (d : Hub.device)
  (s : Hub.state) :
  Hub.find_device hd s = Some d -> Hub.dev_live d = true ->
  exists d', Hub.find_device hd (Hub.register_output hd cb s) = Some d' /\
             Hub.dev_live d' = true.
Proof.
  intros Hfind Hlive. unfold Hub.register_output.
  eexists. split.
  - apply find_update_device; [reflexivity|exact Hfind].
  - exact Hlive.
Qed.

(** A failing [create_and_connect] leaves the registry of open devices
    alone and its text in the last-error slot. *)
Lemma create_and_connect_failure (bus : Z) (req : viiper_device_create_request_t)
  (s s' : Hub.state) (e : error) :
  Hub.create_and_connect bus req s = (inl e, s') ->
  Hub.devices s' = Hub.devices s /\ Hub.get_error s' = Hub.message e.
Proof.
  unfold Hub.create_and_connect, Hub.create_device.
  destruct (negb (Hub.up (Hub.tick s))); [intros Heq; inversion Heq; now subst|].
  destruct (negb (Hub.has_bus bus (Hub.tick s)));
    [intros Heq; inversion Heq; now subst|].
  unfold Hub.connect_device.
  match goal with
  | |- context [negb (Hub.up (Hub.tick ?s1))] =>
    destruct (negb (Hub.up (Hub.tick s1)))
  end; intros Heq; inversion Heq; now subst.
Qed.

(** A successful [create_and_connect] returns the handle of a device that
    is in the registry and live. *)
Lemma create_and_connect_success (bus : Z) (req : viiper_device_create_request_t)
  (s s' : Hub.state) (info : viiper_device_info_t) (hd : handle) :
  Hub.create_and_connect bus req s = (inr (info, hd), s') ->
  exists d, Hub.find_device hd s' = Some d /\ Hub.dev_live d = true.
Proof.
  unfold Hub.create_and_connect, Hub.create_device.
  destruct (negb (Hub.up (Hub.tick s))); [discriminate|].
  destruct (negb (Hub.has_bus bus (Hub.tick s))); [discriminate|].
  unfold Hub.connect_device.
  match goal with
  | |- context [negb (Hub.up (Hub.tick ?s1))] =>
    destruct (negb (Hub.up (Hub.tick s1))); [discriminate|]
  end.
  intros Heq. inversion Heq; subst.
  eexists. split.
  - unfold Hub.find_device.
    cbn [Hub.devices Hub.with_devices find Hub.dev_handle].
    rewrite Nat.eqb_refl. reflexivity.
  - reflexivity.
Qed.

Section AddDevice.

Context `{viiper_keyboard_h} `{viiper_xbox360_h}.
Context {W : Type} (h : forall c : call, W -> resp c * W).

(** When [viiper_add_device_and_connect] fails, [main] reads the error
    text, prints it, frees the client and returns 1: it makes no call on a
    device. *)
Lemma keyboard_main_add_device_fails (w0 w w1 : W) (host : C.array ascii)
  (port : Z) (hostname : string) (client : handle) (tr : list call) (busId : Z) :
  C.cstring host = Some hostname ->
  h (viiper_client_create hostname port) w0 = ((VIIPER_OK, client), w) ->
  yields h (Example.choose_or_create_bus client) w tr w1 (Returned busId) ->
  busId <> 0%Z ->
  let add := viiper_add_device_and_connect client busId Keyboard.createReq in
  is_ok (fst (fst (fst (h add w1)))) = false ->
  let err := fst (h (viiper_get_error client) (snd (h add w1))) in
  let line := fprintf_stderr "add_device_and_connect failed: %s\n" [ArgS err] in
  yields h (Keyboard.main_connected host port) w0
    (viiper_client_create hostname port :: tr ++
     [add; viiper_get_error client; line; viiper_client_free client])
    (snd (h (viiper_client_free client)
            (snd (h line (snd (h (viiper_get_error client) (snd (h add w1))))))))
    (Returned 1%Z).
Proof.
  intros Hhost Hcreate Hchoose Hbus add Hfail err line.
  unfold Keyboard.main_connected.
  rewrite Hhost. run_step. run_step. rewrite Hcreate.
  cbn [fst snd negb is_ok].
  eapply yields_bind; [exact Hchoose|].
  apply Z.eqb_neq in Hbus. rewrite Hbus.
  run_step. fold add.
  destruct (fst (h add w1)) as [[rc addResp] dev].
  cbn [fst] in Hfail. rewrite Hfail. cbn [negb].
  run_step. fold err. fold line. run_step. run_step. run_step.
Qed.

Lemma pad_main_add_device_fails (w0 w w1 : W) (host : C.array ascii)
  (port : Z) (hostname : string) (client : handle) (tr : list call) (busId : Z) :
  C.cstring host = Some hostname ->
  h (viiper_client_create hostname port) w0 = ((VIIPER_OK, client), w) ->
  yields h (Example.choose_or_create_bus client) w tr w1 (Returned busId) ->
  busId <> 0%Z ->
  let add := viiper_add_device_and_connect client busId X360Pad.createReq in
  is_ok (fst (fst (fst (h add w1)))) = false ->
  let err := fst (h (viiper_get_error client) (snd (h add w1))) in
  let line := fprintf_stderr "add_device_and_connect failed: %s\n" [ArgS err] in
  yields h (X360Pad.main_connected host port) w0
    (viiper_client_create hostname port :: tr ++
     [add; viiper_get_error client; line; viiper_client_free client])
    (snd (h (viiper_client_free client)
            (snd (h line (snd (h (viiper_get_error client) (snd (h add w1))))))))
    (Returned 1%Z).
Proof.
  intros Hhost Hcreate Hchoose Hbus add Hfail err line.
  unfold X360Pad.main_connected.
  rewrite Hhost. run_step. run_step. rewrite Hcreate.
  cbn [fst snd negb is_ok].
  eapply yields_bind; [exact Hchoose|].
  apply Z.eqb_neq in Hbus. rewrite Hbus.
  run_step. fold add.
  destruct (fst (h add w1)) as [[rc addResp] dev].
  cbn [fst] in Hfail. rewrite Hfail. cbn [negb].
  run_step. fold err. fold line. run_step. run_step. run_step.
Qed.

End AddDevice.

(** C6. When [create_and_connect] succeeds the device it returns is
    live, so a [send] that follows at once, or after the output callback
    has been registered as both programs do, does not fail with
    [DeviceClosed] (the connection may still fail it); the same holds of
    [viiper_add_device_and_connect] and [viiper_device_send] as the library
    answers them.  When it fails, the client's registry of open devices is
    as before, no handle being left with the caller, and [main] of either
    program, having chosen the bus, reads the error text, prints it, frees
    the client and returns 1 without a call on any device. *)
Theorem create_and_connect_then_send `{viiper_keyboard_h} `{viiper_xbox360_h}
  (s : Hub.state) (client : handle) (bus : Z)
  (req : viiper_device_create_request_t) :
  match Hub.create_and_connect bus req s with
  | (inr (info, hd), s') =>
    (exists d, Hub.find_device hd s' = Some d /\ Hub.dev_live d = true) /\
    (forall r, fst (Hub.send hd r s') <> inl (DeviceError DeviceClosed)) /\
    Hub.handler (viiper_add_device_and_connect client bus req) s
    = ((VIIPER_OK, info, hd), s') /\
    (forall data size,
       fst (Hub.handler (viiper_device_send hd data size) s')
       <> VIIPER_ERROR (DeviceError DeviceClosed)) /\
    (forall cb buffer_size data size,
       fst (Hub.handler (viiper_device_send hd data size)
              (snd (Hub.handler (viiper_device_on_output hd buffer_size cb) s')))
       <> VIIPER_ERROR (DeviceError DeviceClosed))
  | (inl e, s') =>
    Hub.devices s' = Hub.devices s /\
    fst (fst (fst (Hub.handler (viiper_add_device_and_connect client bus req) s)))
    = VIIPER_ERROR e /\
    forall (w0 w : Hub.state) (host : C.array ascii) (port : Z)
           (hostname : string) (tr : list call),
      C.cstring host = Some hostname ->
      Hub.handler (viiper_client_create hostname port) w0
      = ((VIIPER_OK, client), w) ->
      yields Hub.handler (Example.choose_or_create_bus client) w tr s
        (Returned bus) ->
      bus <> 0%Z ->
      let failure :=
        [viiper_add_device_and_connect client bus req;
         viiper_get_error client;
         fprintf_stderr "add_device_and_connect failed: %s\n"
           [ArgS (Hub.message e)];
         viiper_client_free client] in
      (req = Keyboard.createReq ->
       yields Hub.handler (Keyboard.main_connected host port) w0
         (viiper_client_create hostname port :: tr ++ failure)
         (Hub.destroy s') (Returned 1%Z)) /\
      (req = X360Pad.createReq ->
       yields Hub.handler (X360Pad.main_connected host port) w0
         (viiper_client_create hostname port :: tr ++ failure)
         (Hub.destroy s') (Returned 1%Z))
  end.
Proof.
  destruct (Hub.create_and_connect bus req s) as [[e|[info hd]] s'] eqn:Hcc.
  - (* failure *)
    destruct (create_and_connect_failure bus req s s' e Hcc) as [Hdevs Herr].
    assert (Hrc : Hub.handler (viiper_add_device_and_connect client bus req) s
                  = ((VIIPER_ERROR e, {| DevId := None; InfoType := None |}, 0), s')).
    { cbn [Hub.handler]. now rewrite Hcc. }
    split; [exact Hdevs|]. split; [now rewrite Hrc|].
    intros w0 w host port hostname tr Hhost Hcreate Hchoose Hbus failure.
    split; intros ->.
    + pose proof (keyboard_main_add_device_fails Hub.handler w0 w s host port
                    hostname client tr bus Hhost Hcreate Hchoose Hbus) as Hrun.
      cbv zeta in Hrun. rewrite Hrc in Hrun.
      cbn [fst snd Hub.handler] in Hrun. rewrite Herr in Hrun.
      exact (Hrun eq_refl).
    + pose proof (pad_main_add_device_fails Hub.handler w0 w s host port
                    hostname client tr bus Hhost Hcreate Hchoose Hbus) as Hrun.
      cbv zeta in Hrun. rewrite Hrc in Hrun.
      cbn [fst snd Hub.handler] in Hrun. rewrite Herr in Hrun.
      exact (Hrun eq_refl).
  - (* success *)
    destruct (create_and_connect_success bus req s s' info hd Hcc)
      as [d [Hfind Hlive]].
    assert (Hhandler : forall s1 data size,
      (forall r, fst (Hub.send hd r s1) <> inl (DeviceError DeviceClosed)) ->
      fst (Hub.handler (viiper_device_send hd data size) s1)
      <> VIIPER_ERROR (DeviceError DeviceClosed)).
    { intros s1 data size Hsend. specialize (Hsend data). cbn [Hub.handler].
      destruct (Hub.send hd data s1) as [[e|[]] s3]; cbn in *; [|discriminate].
      intros Heq. apply Hsend. now inversion Heq. }
    split; [now exists d|].
    split; [intros r; now apply (send_live_not_closed hd d)|].
    split; [cbn [Hub.handler]; now rewrite Hcc|].
    split.
    + intros data size. apply Hhandler.
      intros r. now apply (send_live_not_closed hd d).
    + intros cb buffer_size data size. apply Hhandler. intros r.
      cbn [Hub.handler snd].
      destruct (register_output_live hd cb d s' Hfind Hlive) as [d' [Hfind' Hlive']].
      now apply (send_live_not_closed hd d').
Qed.

Lemma create_and_connect_then_send_witness :
  fst (Hub.handler (viiper_device_send 1 (Bytes [x02; x01; x0b]) 3)
         (snd (Hub.handler (viiper_add_device_and_connect 1 7 Keyboard.createReq)
                 (hub_with [7]%Z []))))
  <> VIIPER_ERROR (DeviceError DeviceClosed) /\
  Hub.devices
    (snd (Hub.create_and_connect 8 Keyboard.createReq (hub_with [7]%Z [])))
  = [].
Proof.
  split.
  - pose proof (@create_and_connect_then_send hid_keyboard xinput_pad
                  (hub_with [7]%Z []) 1 7 Keyboard.createReq) as T.
    cbv beta iota delta [Hub.create_and_connect Hub.create_device
      Hub.connect_device Hub.up Hub.tick Hub.has_bus Hub.link Hub.clock
      Hub.buses hub_with negb existsb Z.eqb Pos.eqb orb] in T.
    destruct T as [_ [_ [_ [Hsend _]]]]. exact (Hsend (Bytes [x02; x01; x0b]) 3).
  - pose proof (@create_and_connect_then_send hid_keyboard xinput_pad
                  (hub_with [7]%Z []) 1 8 Keyboard.createReq) as T.
    cbv beta iota delta [Hub.create_and_connect Hub.create_device
      Hub.connect_device Hub.up Hub.tick Hub.has_bus Hub.link Hub.clock
      Hub.buses hub_with negb existsb Z.eqb Pos.eqb orb Hub.fail] in T.
    destruct T as [Hdevs _]. exact Hdevs.
Defined.

(** A hub in which the steps of C6 succeed: the keyboard is created and
    connected on bus 7, and the report sent next is accepted. *)
Example create_and_connect_then_send_runs :
  let req := {| Type_ := Some "keyboard"; IdVendor := None; IdProduct := None |} in
  exists info hd s',
    Hub.create_and_connect 7 req (hub_with [7]%Z []) = (inr (info, hd), s') /\
    fst (Hub.send hd (Bytes [x02; x01; x0b]) s') = inr tt.
Proof. cbv zeta. do 3 eexists. split; reflexivity. Qed.

(** C7. Removing a bus that still has devices attached fails with a
    remote error.  The failure is recoverable: its text can be read back
    with [get_error], the hub's buses and devices and the client's open
    devices are as before, and the client goes on working (the next
    [list_buses] answers as before the failure).  [main] of the pad
    program handles it so: it reads the text, prints it after
    "BusRemove failed (continuing)", frees the client and returns 0. *)
Theorem remove_bus_in_use_is_recoverable
  (s : Hub.state) (busId : Z) :
  Hub.link s (S (Hub.clock s)) = true ->
  Hub.has_bus busId s = true ->
  Hub.bus_in_use busId s = true ->
  let r := Hub.remove_bus busId s in
  fst r = inl (RpcError (RpcRemote "bus not empty")) /\
  Hub.get_error (snd r) = "bus not empty" /\
  Hub.buses (snd r) = Hub.buses s /\
  Hub.attached (snd r) = Hub.attached s /\
  Hub.devices (snd r) = Hub.devices s /\
  (Hub.link s (S (S (Hub.clock s))) = true ->
   fst (Hub.list_buses (snd r)) = inr (Hub.buses s)) /\
  (forall (client dev : handle) (s0 : Hub.state),
     s = Hub.close dev s0 ->
     yields Hub.handler (X360Pad.main_teardown client dev busId) s0
       [viiper_device_close dev;
        viiper_bus_remove client busId;
        viiper_get_error client;
        fprintf_stderr "BusRemove failed (continuing): %s\n"
          [ArgS "bus not empty"];
        viiper_client_free client]
       (Hub.destroy (snd r)) (Returned 0%Z)).
Proof.
  intros Hup Hbus Hused r.
  assert (Hr : r = Hub.fail (RpcError (RpcRemote "bus not empty")) (Hub.tick s)).
  { subst r. unfold Hub.remove_bus.
    change (Hub.up (Hub.tick s)) with (Hub.link s (S (Hub.clock s))).
    change (Hub.has_bus busId (Hub.tick s)) with (Hub.has_bus busId s).
    change (Hub.bus_in_use busId (Hub.tick s)) with (Hub.bus_in_use busId s).
    now rewrite Hup, Hbus, Hused. }
  rewrite Hr. cbn [fst snd Hub.fail Hub.get_error Hub.last_error Hub.message
                   Hub.buses Hub.attached Hub.devices Hub.tick].
  do 5 (split; [reflexivity|]). split.
  - intros Hup2. unfold Hub.list_buses, Hub.up.
    cbn [Hub.tick Hub.link Hub.clock Hub.buses].
    now rewrite Hup2.
  - intros client dev s0 ->. unfold X360Pad.main_teardown.
    run_step. cbn [Hub.handler fst snd].
    run_step. cbn [Hub.handler]. fold r. rewrite Hr.
    cbn [fst snd Hub.fail Hub.rc_of negb is_ok].
    eapply (yields_bind Hub.handler _ _ _
              [viiper_get_error client;
               fprintf_stderr "BusRemove failed (continuing): %s\n"
                 [ArgS "bus not empty"]]).
    + run_step. cbn [Hub.handler fst snd Hub.get_error Hub.last_error Hub.message].
      run_step.
    + cbn [Hub.handler fst snd]. run_step. cbn [Hub.handler fst snd]. run_step.
Qed.

Lemma remove_bus_in_use_is_recoverable_witness :
  yields Hub.handler (X360Pad.main_teardown 1 5 3)
    (hub_with [3]%Z [(3%Z, "other")])
    [viiper_device_close 5;
     viiper_bus_remove 1 3;
     viiper_get_error 1;
     fprintf_stderr "BusRemove failed (continuing): %s\n" [ArgS "bus not empty"];
     viiper_client_free 1]
    (Hub.destroy
       (snd (Hub.remove_bus 3 (hub_with [3]%Z [(3%Z, "other")]))))
    (Returned 0%Z).
Proof.
  destruct (remove_bus_in_use_is_recoverable (hub_with [3]%Z [(3%Z, "other")]) 3
              eq_refl eq_refl eq_refl)
    as [_ [_ [_ [_ [_ [_ Hmain]]]]]].
  apply (Hmain 1 5 (hub_with [3]%Z [(3%Z, "other")])).
  reflexivity.
Defined.

(* ===================================================================== *)
(** * Runs with any amount of fuel                                        *)
(* ===================================================================== *)

Section RunPrefix.

Context {W : Type} (h : forall c : call, W -> resp c * W).

(** With less fuel a run is cut short: its calls are the first calls of
    the longer run, and unless it is all of the longer run it is still
    running. *)
Lemma run_less {R} (m : nat) : forall (n : nat) (t : itree E R) (w : W),
  m <= n ->
  (exists more, fst (fst (run h n t w)) = fst (fst (run h m t w)) ++ more) /\
  (snd (run h m t w) = Running \/ run h m t w = run h n t w).
Proof.
  induction m as [|m IH]; intros n t w Hle.
  - split; [now exists (fst (fst (run h n t w)))|now left].
  - destruct n as [|n]; [lia|].
    rewrite !run_S. destruct (observe t) as [r|t'|X e k].
    + split; [now exists []|now right].
    + apply IH. lia.
    + destruct (answer h e w) as [[[c x] w1]|].
      * destruct (IH n (k x) w1 ltac:(lia)) as [[more Hmore] Hend].
        destruct (run h n (k x) w1) as [[trn wn] on].
        destruct (run h m (k x) w1) as [[trm wm] om].
        cbn [fst snd] in *. split.
        -- exists more. now rewrite Hmore.
        -- destruct Hend as [Hrun|Heq]; [now left|right].
           now inversion Heq.
      * split; [now exists []|now right].
Qed.

(** A run of [t] followed by [k], by the run of [t] with the same fuel:
    if [t] has not ended, neither has the whole; if [t] has returned, the
    rest runs on what fuel is left. *)
Lemma run_bind_cases {R T} (k : R -> itree E T) (n : nat) :
  forall (t : itree E R) (w : W),
  match run h n t w with
  | (tr1, w1, Returned r) =>
    exists m, m <= n /\
      run h n (ITree.bind t k) w =
      (tr1 ++ fst (fst (run h m (k r) w1)),
       snd (fst (run h m (k r) w1)), snd (run h m (k r) w1))
  | (tr1, w1, Undef) => run h n (ITree.bind t k) w = (tr1, w1, Undef)
  | (tr1, w1, Running) => run h n (ITree.bind t k) w = (tr1, w1, Running)
  end.
Proof.
  induction n as [|n IH]; intros t w; [reflexivity|].
  rewrite (run_S h n (ITree.bind t k)), observe_bind, run_S.
  destruct (observe t) as [r|t'|X e ke].
  - exists (S n). split; [lia|].
    rewrite <- (run_S h n (k r) w). cbn [app].
    now destruct (run h (S n) (k r) w) as [[tr2 w2] o2].
  - cbn [observe _observe]. specialize (IH t' w).
    destruct (run h n t' w) as [[tr1 w1] [r| |]].
    + destruct IH as [m [Hm Hrun]]. exists m. split; [lia|exact Hrun].
    + exact IH.
    + exact IH.
  - cbn [observe _observe].
    destruct (answer h e w) as [[[c x] w0]|]; [|reflexivity].
    specialize (IH (ke x) w0).
    destruct (run h n (ke x) w0) as [[tr1 w1] [r| |]].
    + destruct IH as [m [Hm Hrun]]. exists m. split; [lia|].
      now rewrite Hrun.
    + now rewrite IH.
    + now rewrite IH.
Qed.

(** A part that returns, followed by a rest that never ends. *)
Lemma goes_on_after {R T} (P : call -> Prop) (t : itree E R)
  (k : R -> itree E T) w tr1 w1 r :
  yields h t w tr1 w1 (Returned r) ->
  Forall P tr1 ->
  goes_on h P (k r) w1 ->
  goes_on h P (ITree.bind t k) w.
Proof.
  intros [_ [n0 Hn0]] Htr Hrest n.
  pose proof (run_bind_cases k n t w) as Hcases.
  destruct (Nat.le_gt_cases n0 n) as [Hle|Hgt].
  - rewrite (run_stable h n0 t w tr1 w1 (Returned r) n Hn0 ltac:(discriminate) Hle)
      in Hcases.
    destruct Hcases as [m [_ Hrun]]. rewrite Hrun. cbn [fst snd].
    destruct (Hrest m) as [Ho Hall]. split; [exact Ho|].
    apply Forall_app. now split.
  - destruct (run_less n n0 t w ltac:(lia)) as [[more Hmore] Hend].
    rewrite Hn0 in Hmore, Hend. cbn [fst snd] in Hmore.
    assert (Hpre : Forall P (fst (fst (run h n t w)))).
    { rewrite Hmore in Htr. now apply Forall_app in Htr. }
    destruct Hend as [Hrun|Heq].
    + destruct (run h n t w) as [[trn wn] on]. cbn [fst snd] in *. subst on.
      rewrite Hcases. cbn [fst snd]. now split.
    + rewrite Heq in Hcases.
      destruct Hcases as [m [_ Hrun]]. rewrite Hrun. cbn [fst snd].
      destruct (Hrest m) as [Ho Hall]. split; [exact Ho|].
      apply Forall_app. now split.
Qed.



End RunPrefix.

Section SettlesInto.

Context {W : Type} (h : forall c : call, W -> resp c * W).





End SettlesInto.

(* ===================================================================== *)
(** * The keyboard: pressing, typing, and the loop of main                *)
(* ===================================================================== *)

Section Typing.

Context `{viiper_keyboard_h}.
Context {W : Type} (h : forall c : call, W -> resp c * W).

Lemma key_report_calls_loop (dev : handle) (frame : list byte) (sent : bool) :
  Forall (fun c => keyboard_loop_call dev c = true)
    (key_report_calls dev frame sent).
Proof.
  unfold key_report_calls.
  destruct sent; repeat constructor; cbn; apply Nat.eqb_refl.
Qed.

(** [press_and_release]: the report of the key, 100 ms, the release-all
    report, 100 ms; each report is sent if its block could be allocated. *)
Lemma press_and_release_run (w : W) (dev : handle) (modifiers key : byte) :
  exists pressed released w',
    yields h (Keyboard.press_and_release dev modifiers key) w
      (key_report_calls dev [modifiers; x01; key] pressed
       ++ usleep 100000
       :: key_report_calls dev [x00; x00] released
       ++ [usleep 100000])
      w' (Returned tt) /\
    (malloc_succeeds h -> pressed = true /\ released = true).
Proof.
  unfold Keyboard.press_and_release. cbv zeta.
  destruct (send_keys_run h w dev modifiers (Some [key]) x01 (le_n 1))
    as [w1 Hpress].
  destruct (send_keys_run h (snd (h (usleep 100000) w1)) dev x00 None x00 eq_refl)
    as [w2 Hrelease].
  exists (fst (h (malloc 3) w)),
         (fst (h (malloc 2) (snd (h (usleep 100000) w1)))),
         (snd (h (usleep 100000) w2)).
  split.
  - eapply yields_bind; [exact Hpress|].
    unfold sleep_ms. change (100 * 1000)%Z with 100000%Z.
    run_step.
    eapply yields_bind; [exact Hrelease|].
    pose proof (yields_do h (usleep 100000) w2) as Hsleep.
    now destruct (fst (h (usleep 100000) w2)).
  - intros Hmalloc. split; apply Hmalloc.
Qed.

End Typing.



Section Hello.

Context `{viiper_keyboard_h}.
Context {W : Type} (h : forall c : call, W -> resp c * W).

(** A run of [press_and_release] as the typing loop sees it: only calls
    of the loop, and both reports where [malloc] never fails. *)
Lemma press_and_release_step (w : W) (dev : handle) (modifiers key : byte) :
  exists tr w',
    yields h (Keyboard.press_and_release dev modifiers key) w tr w'
      (Returned tt) /\
    Forall (fun c => keyboard_loop_call dev c = true) tr /\
    (malloc_succeeds h ->
     sent_bytes tr = [[modifiers; x01; key]; [x00; x00]]).
Proof.
  destruct (press_and_release_run h w dev modifiers key)
    as [pressed [released [w' [Hrun Hmalloc]]]].
  do 2 eexists. split; [exact Hrun|]. split.
  - apply Forall_app. split; [apply key_report_calls_loop|].
    constructor; [reflexivity|].
    apply Forall_app. split; [apply key_report_calls_loop|].
    now repeat constructor.
  - intros Hm. now destruct (Hmalloc Hm) as [-> ->].
Qed.

Lemma sent_bytes_app (tr1 tr2 : list call) :
  sent_bytes (tr1 ++ tr2) = sent_bytes tr1 ++ sent_bytes tr2.
Proof. apply flat_map_app. Qed.

(** Two parts of the typing, one after the other. *)
Lemma typing_then {R} (dev : handle) (t : itree E unit) (k : unit -> itree E R)
  (reports1 reports2 : list (list byte)) :
  (forall w, exists tr w',
     yields h t w tr w' (Returned tt) /\
     Forall (fun c => keyboard_loop_call dev c = true) tr /\
     (malloc_succeeds h -> sent_bytes tr = reports1)) ->
  (forall w, exists tr w' r,
     yields h (k tt) w tr w' (Returned r) /\
     Forall (fun c => keyboard_loop_call dev c = true) tr /\
     (malloc_succeeds h -> sent_bytes tr = reports2)) ->
  forall w, exists tr w' r,
    yields h (ITree.bind t k) w tr w' (Returned r) /\
    Forall (fun c => keyboard_loop_call dev c = true) tr /\
    (malloc_succeeds h -> sent_bytes tr = reports1 ++ reports2).
Proof.
  intros Ht Hk w.
  destruct (Ht w) as [tr1 [w1 [Hrun1 [Hall1 Hsent1]]]].
  destruct (Hk w1) as [tr2 [w2 [r [Hrun2 [Hall2 Hsent2]]]]].
  exists (tr1 ++ tr2), w2, r. split; [|split].
  - eapply yields_bind; [exact Hrun1|exact Hrun2].
  - apply Forall_app. now split.
  - intros Hm. now rewrite sent_bytes_app, (Hsent1 Hm), (Hsent2 Hm).
Qed.

Lemma press_and_release_last (dev : handle) (modifiers key : byte) :
  forall w, exists tr w' r,
    yields h (Keyboard.press_and_release dev modifiers key) w tr w'
      (Returned r) /\
    Forall (fun c => keyboard_loop_call dev c = true) tr /\
    (malloc_succeeds h ->
     sent_bytes tr = [[modifiers; x01; key]; [x00; x00]]).
Proof.
  intros w.
  destruct (press_and_release_step w dev modifiers key) as [tr [w' Hstep]].
  now exists tr, w', tt.
Qed.

(** [type_string_hello] as the typing loop sees it. *)
Lemma type_string_hello_step (dev : handle) :
  forall w, exists tr w' r,
    yields h (Keyboard.type_string_hello dev) w tr w' (Returned r) /\
    Forall (fun c => keyboard_loop_call dev c = true) tr /\
    (malloc_succeeds h ->
     sent_bytes tr =
     [[x02; x01; VIIPER_KEYBOARD_KEY_H]; [x00; x00]] ++
     [[x00; x01; VIIPER_KEYBOARD_KEY_E]; [x00; x00]] ++
     [[x00; x01; VIIPER_KEYBOARD_KEY_L]; [x00; x00]] ++
     [[x00; x01; VIIPER_KEYBOARD_KEY_L]; [x00; x00]] ++
     [[x00; x01; VIIPER_KEYBOARD_KEY_O]; [x00; x00]] ++
     [[x02; x01; VIIPER_KEYBOARD_KEY1]; [x00; x00]]).
Proof.
  unfold Keyboard.type_string_hello.
  repeat (apply typing_then; [intros w; apply press_and_release_step|]).
  apply press_and_release_last.
Qed.

End Hello.

(** X2. [type_string_hello] types Hello!: where [malloc] never fails it
    sends twelve reports, whatever the library answers to them: shift+H,
    e, l, l, o and shift+1, each followed by the release-all report, so
    that no key is left pressed at the end.  In any world it returns, and
    it makes no call but allocations, sleeps and byte reports to its
    device. *)
Theorem type_string_hello_types_hello `{viiper_keyboard_h}
  (W : Type) (h : forall c : call, W -> resp c * W) (w : W) (dev : handle) :
  exists tr w',
    yields h (Keyboard.type_string_hello dev) w tr w' (Returned tt) /\
    Forall (fun c => keyboard_loop_call dev c = true) tr /\
    (malloc_succeeds h ->
     sent_bytes tr =
     [[x02; x01; VIIPER_KEYBOARD_KEY_H]; [x00; x00];
      [x00; x01; VIIPER_KEYBOARD_KEY_E]; [x00; x00];
      [x00; x01; VIIPER_KEYBOARD_KEY_L]; [x00; x00];
      [x00; x01; VIIPER_KEYBOARD_KEY_L]; [x00; x00];
      [x00; x01; VIIPER_KEYBOARD_KEY_O]; [x00; x00];
      [x02; x01; VIIPER_KEYBOARD_KEY1]; [x00; x00]] /\
     last (sent_bytes tr) [] = [x00; x00]).
Proof.
  destruct (type_string_hello_step h dev w) as [tr [w' [[] [Hrun [Hall Hsent]]]]].
  exists tr, w'. split; [exact Hrun|]. split; [exact Hall|].
  intros Hm. rewrite (Hsent Hm). split; reflexivity.
Qed.

Lemma type_string_hello_types_hello_witness :
  exists tr w',
    yields Hub.handler (Keyboard.type_string_hello (H := hid_keyboard) 1)
      (hub_with [] []) tr w' (Returned tt) /\
    sent_bytes tr =
    [[x02; x01; x0b]; [x00; x00]; [x00; x01; x08]; [x00; x00];
     [x00; x01; x0f]; [x00; x00]; [x00; x01; x0f]; [x00; x00];
     [x00; x01; x12]; [x00; x00]; [x02; x01; x1e]; [x00; x00]].
Proof.
  destruct (@type_string_hello_types_hello hid_keyboard Hub.state Hub.handler
              (hub_with [] []) 1) as [tr [w' [Hrun [_ Hsent]]]].
  exists tr, w'. split; [exact Hrun|].
  apply Hsent. intros size s. reflexivity.
Defined.

(* ===================================================================== *)
(** * choose_or_create_bus: its calls                                     *)
(* ===================================================================== *)

Section BusCalls.

Context {W : Type} (h : forall c : call, W -> resp c * W).

(** The calls of [choose_or_create_bus] on each of its four paths. *)
Lemma choose_or_create_bus_paths (w : W) (client : handle) :
  let listed := fst (h (viiper_bus_list client) w) in
  exists tr w' busId,
    yields h (Example.choose_or_create_bus client) w tr w' (Returned busId) /\
    ((is_ok (fst listed) = false /\ busId = 0%Z /\
      exists err,
        tr = [viiper_bus_list client; viiper_get_error client;
              fprintf_stderr "BusList error: %s\n" [ArgS err]]) \/
     (is_ok (fst listed) = true /\ snd listed <> [] /\
      tr = [viiper_bus_list client;
            printf "Using existing bus %u\n" [ArgU busId];
            viiper_free_bus_list_response]) \/
     (is_ok (fst listed) = true /\ snd listed = [] /\
      tr = [viiper_bus_list client; viiper_free_bus_list_response;
            viiper_bus_create client;
            printf "Created bus %u\n" [ArgU busId]]) \/
     (is_ok (fst listed) = true /\ snd listed = [] /\ busId = 0%Z /\
      exists err,
        tr = [viiper_bus_list client; viiper_free_bus_list_response;
              viiper_bus_create client; viiper_get_error client;
              fprintf_stderr "BusCreate failed: %s\n" [ArgS err]])).
Proof.
  intros listed. unfold Example.choose_or_create_bus. subst listed.
  destruct (fst (h (viiper_bus_list client) w)) as [rc buses] eqn:Hlist.
  cbn [fst snd].
  destruct rc as [|e]; cbn [is_ok].
  - destruct buses as [|first rest].
    + destruct (fst (h (viiper_bus_create client)
                  (snd (h viiper_free_bus_list_response
                          (snd (h (viiper_bus_list client) w))))))
        as [rc id] eqn:Hcreate.
      destruct rc as [|e]; do 3 eexists; (split; [|]).
      * run_step. rewrite Hlist. cbn [negb is_ok].
        run_step. run_step. rewrite Hcreate. cbn [negb is_ok].
        run_step. run_step.
      * right. right. left. now repeat split.
      * run_step. rewrite Hlist. cbn [negb is_ok].
        run_step. run_step. rewrite Hcreate. cbn [negb is_ok].
        run_step. run_step. run_step.
      * right. right. right. repeat split. eexists. reflexivity.
    + do 3 eexists. split.
      * run_step. rewrite Hlist. cbn [negb is_ok].
        run_step. run_step. run_step.
      * right. left. repeat split. discriminate.
  - do 3 eexists. split.
    + run_step. rewrite Hlist. cbn [negb is_ok].
      run_step. run_step. run_step.
    + left. repeat split. eexists. reflexivity.
Qed.


End BusCalls.

(** X11. [choose_or_create_bus] always returns, and it starts by listing
    the buses.  It releases the list response exactly once when the listing
    succeeded and never when it failed, and always before it creates a bus;
    it creates at most one bus.  It prints at most one line on [stderr],
    and when it prints one it returns 0. *)
Theorem choose_or_create_bus_releases_the_list
  (W : Type) (h : forall c : call, W -> resp c * W) (w : W) (client : handle) :
  exists tr w' busId,
    yields h (Example.choose_or_create_bus client) w tr w' (Returned busId) /\
    hd_error tr = Some (viiper_bus_list client) /\
    List.length (filter is_free_bus_list tr)
    = (if is_ok (fst (fst (h (viiper_bus_list client) w))) then 1 else 0) /\
    List.length (filter is_bus_create tr) <= 1 /\
    (forall before after,
       tr = before ++ viiper_bus_create client :: after ->
       In viiper_free_bus_list_response before) /\
    List.length (filter is_stderr tr) <= 1 /\
    (filter is_stderr tr <> [] -> busId = 0%Z).
Proof.
  destruct (choose_or_create_bus_paths h w client)
    as [tr [w' [busId [Hrun Hpaths]]]].
  exists tr, w', busId. split; [exact Hrun|].
  destruct Hpaths
    as [[Hrc [Hbus [err ->]]]|[[Hrc [_ ->]]|[[Hrc [_ ->]]|[Hrc [_ [Hbus [err ->]]]]]]];
    rewrite Hrc; cbn;
    (split; [reflexivity|]); (split; [reflexivity|]); (split; [lia|]);
    (split; [|split; [lia|try (intros A; now contradiction A); auto]]);
    intros before after Heq;
    destruct before as [|c1 [|c2 [|c3 [|c4 [|c5 [|c6 before]]]]]];
    inversion Heq; subst; cbn; auto 6.
Qed.

Lemma choose_or_create_bus_releases_the_list_witness :
  (exists tr w' before after,
     yields Hub.handler (Example.choose_or_create_bus 1) (hub_with [] [])
       tr w' (Returned 1%Z) /\
     tr = before ++ viiper_bus_create 1 :: after /\
     In viiper_free_bus_list_response before) /\
  (exists tr w',
     yields (failing ConnectionError) (Example.choose_or_create_bus 1)
       tt tr w' (Returned 0%Z) /\
     filter is_stderr tr <> []).
Proof.
  split.
  - destruct (choose_or_create_bus_releases_the_list Hub.state Hub.handler
                (hub_with [] []) 1)
      as [tr [w' [busId [Hrun [_ [_ [_ [Hfree _]]]]]]]].
    assert (Hconcrete :
      yields Hub.handler (Example.choose_or_create_bus 1) (hub_with [] [])
        [viiper_bus_list 1; viiper_free_bus_list_response; viiper_bus_create 1;
         printf "Created bus %u\n" [ArgU 1]]
        (snd (fst (run Hub.handler 10 (Example.choose_or_create_bus 1)
                     (hub_with [] []))))
        (Returned 1%Z)).
    { split; [discriminate|]. exists 10. reflexivity. }
    destruct (yields_det Hub.handler _ _ _ _ _ _ _ _ Hrun Hconcrete)
      as [Htr [_ Hbus]].
    injection Hbus as ->.
    exists tr, w', [viiper_bus_list 1; viiper_free_bus_list_response],
           [printf "Created bus %u\n" [ArgU 1]].
    split; [exact Hrun|]. split; [exact Htr|].
    exact (Hfree [viiper_bus_list 1; viiper_free_bus_list_response]
             [printf "Created bus %u\n" [ArgU 1]] Htr).
  - destruct (choose_or_create_bus_releases_the_list unit
                (failing ConnectionError) tt 1)
      as [tr [w' [busId [Hrun [_ [_ [_ [_ [_ Hzero]]]]]]]]].
    assert (Hconcrete :
      yields (failing ConnectionError) (Example.choose_or_create_bus 1) tt
        [viiper_bus_list 1; viiper_get_error 1;
         fprintf_stderr "BusList error: %s\n" [ArgS (Hub.message ConnectionError)]]
        tt (Returned 0%Z)).
    { split; [discriminate|]. exists 10. reflexivity. }
    destruct (yields_det _ _ _ _ _ _ _ _ _ Hrun Hconcrete) as [Htr _].
    assert (Hline : filter is_stderr tr <> []) by (rewrite Htr; discriminate).
    rewrite (Hzero Hline) in Hrun.
    exists tr, w'. split; [exact Hrun|exact Hline].
Defined.

(* ===================================================================== *)
(** * The keyboard's main never leaves its loop                           *)
(* ===================================================================== *)

Section KeyboardLoop.

Context `{viiper_keyboard_h}.
Context {W : Type} (h : forall c : call, W -> resp c * W).






End KeyboardLoop.



(* ===================================================================== *)
(** * main: leaving before the loop                                       *)
(* ===================================================================== *)

Section EarlyExit.

Context `{viiper_keyboard_h} `{viiper_xbox360_h}.
Context {W : Type} (h : forall c : call, W -> resp c * W).

Lemma keyboard_main_create_fails (w0 : W) (host : C.array ascii) (port : Z)
  (hostname : string) :
  C.cstring host = Some hostname ->
  is_ok (fst (fst (h (viiper_client_create hostname port) w0))) = false ->
  yields h (Keyboard.main_connected host port) w0
    [viiper_client_create hostname port;
     fprintf_stderr "client_create failed\n" []]
    (snd (h (fprintf_stderr "client_create failed\n" [])
            (snd (h (viiper_client_create hostname port) w0))))
    (Returned 1%Z).
Proof.
  intros Hhost Hfail. unfold Keyboard.main_connected.
  rewrite Hhost. run_step. run_step.
  destruct (fst (h (viiper_client_create hostname port) w0)) as [rc client].
  cbn [fst] in Hfail. rewrite Hfail. cbn [negb]. run_step. run_step.
Qed.

Lemma pad_main_create_fails (w0 : W) (host : C.array ascii) (port : Z)
  (hostname : string) :
  C.cstring host = Some hostname ->
  is_ok (fst (fst (h (viiper_client_create hostname port) w0))) = false ->
  yields h (X360Pad.main_connected host port) w0
    [viiper_client_create hostname port;
     fprintf_stderr "client_create failed\n" []]
    (snd (h (fprintf_stderr "client_create failed\n" [])
            (snd (h (viiper_client_create hostname port) w0))))
    (Returned 1%Z).
Proof.
  intros Hhost Hfail. unfold X360Pad.main_connected.
  rewrite Hhost. run_step. run_step.
  destruct (fst (h (viiper_client_create hostname port) w0)) as [rc client].
  cbn [fst] in Hfail. rewrite Hfail. cbn [negb]. run_step. run_step.
Qed.

End EarlyExit.

(** X4. When [viiper_client_create] fails, either program prints
    "client_create failed" on [stderr] and returns 1; it makes no other
    call: there is no client to free, and no bus is listed. *)
Theorem main_client_create_fails `{viiper_keyboard_h} `{viiper_xbox360_h}
  (W : Type) (h : forall c : call, W -> resp c * W) (w0 : W)
  (argv : list string) (host : C.array ascii) (port : Z) (hostname : string) :
  C.cstring host = Some hostname ->
  is_ok (fst (fst (h (viiper_client_create hostname port) w0))) = false ->
  (observe (Example.main_args "Usage: virtual_keyboard [host:port]\n" argv)
   = RetF (inr (host, port)) ->
   yields h (Keyboard.main argv) w0
     [viiper_client_create hostname port;
      fprintf_stderr "client_create failed\n" []]
     (snd (h (fprintf_stderr "client_create failed\n" [])
             (snd (h (viiper_client_create hostname port) w0))))
     (Returned 1%Z)) /\
  (observe (Example.main_args "Usage: virtual_x360_pad [host:port]\n" argv)
   = RetF (inr (host, port)) ->
   yields h (X360Pad.main argv) w0
     [viiper_client_create hostname port;
      fprintf_stderr "client_create failed\n" []]
     (snd (h (fprintf_stderr "client_create failed\n" [])
             (snd (h (viiper_client_create hostname port) w0))))
     (Returned 1%Z)).
Proof.
  intros Hhost Hfail. split; intros Hargs.
  - apply (yields_observe h _ (Keyboard.main_connected host port)).
    + unfold Keyboard.main. now rewrite (observe_bind_ret _ _ _ Hargs).
    + now apply keyboard_main_create_fails.
  - apply (yields_observe h _ (X360Pad.main_connected host port)).
    + unfold X360Pad.main. now rewrite (observe_bind_ret _ _ _ Hargs).
    + now apply pad_main_create_fails.
Qed.

Lemma main_client_create_fails_witness :
  yields (failing ConnectionError)
    (X360Pad.main (H := xinput_pad) ["virtual_x360_pad"; "hub.local:3242"]) tt
    [viiper_client_create "hub.local" 3242;
     fprintf_stderr "client_create failed\n" []]
    tt (Returned 1%Z).
Proof.
  apply (proj2 (@main_client_create_fails hid_keyboard xinput_pad unit
                  (failing ConnectionError) tt
                  ["virtual_x360_pad"; "hub.local:3242"]
                  (host_of "hub.local:3242" 9) 3242%Z "hub.local"
                  eq_refl eq_refl)).
  reflexivity.
Defined.

(** X5. When [viiper_add_device_and_connect] fails, either program reads
    the error text, prints it after "add_device_and_connect failed", frees
    the client and returns 1: the client is released on this path, and no
    call is made on a device. *)
Theorem main_add_device_fails `{viiper_keyboard_h} `{viiper_xbox360_h}
  (W : Type) (h : forall c : call, W -> resp c * W) (w0 w w1 : W)
  (argv : list string) (host : C.array ascii) (port : Z) (hostname : string)
  (client : handle) (tr : list call) (busId : Z)
  (req : viiper_device_create_request_t) :
  C.cstring host = Some hostname ->
  h (viiper_client_create hostname port) w0 = ((VIIPER_OK, client), w) ->
  yields h (Example.choose_or_create_bus client) w tr w1 (Returned busId) ->
  busId <> 0%Z ->
  is_ok (fst (fst (fst
    (h (viiper_add_device_and_connect client busId req) w1)))) = false ->
  let add := viiper_add_device_and_connect client busId req in
  let err := fst (h (viiper_get_error client) (snd (h add w1))) in
  let line := fprintf_stderr "add_device_and_connect failed: %s\n" [ArgS err] in
  let failure := [add; viiper_get_error client; line; viiper_client_free client] in
  let w' :=
    snd (h (viiper_client_free client)
           (snd (h line (snd (h (viiper_get_error client) (snd (h add w1))))))) in
  (req = Keyboard.createReq ->
   observe (Example.main_args "Usage: virtual_keyboard [host:port]\n" argv)
   = RetF (inr (host, port)) ->
   yields h (Keyboard.main argv) w0
     (viiper_client_create hostname port :: tr ++ failure) w' (Returned 1%Z)) /\
  (req = X360Pad.createReq ->
   observe (Example.main_args "Usage: virtual_x360_pad [host:port]\n" argv)
   = RetF (inr (host, port)) ->
   yields h (X360Pad.main argv) w0
     (viiper_client_create hostname port :: tr ++ failure) w' (Returned 1%Z)).
Proof.
  intros Hhost Hcreate Hchoose Hbus Hfail add err line failure w'.
  split; intros -> Hargs.
  - apply (yields_observe h _ (Keyboard.main_connected host port)).
    + unfold Keyboard.main. now rewrite (observe_bind_ret _ _ _ Hargs).
    + exact (keyboard_main_add_device_fails h w0 w w1 host port hostname
               client tr busId Hhost Hcreate Hchoose Hbus Hfail).
  - apply (yields_observe h _ (X360Pad.main_connected host port)).
    + unfold X360Pad.main. now rewrite (observe_bind_ret _ _ _ Hargs).
    + exact (pad_main_add_device_fails h w0 w w1 host port hostname
               client tr busId Hhost Hcreate Hchoose Hbus Hfail).
Qed.

Lemma main_add_device_fails_witness :
  exists w',
    yields Hub.handler (Keyboard.main (H := hid_keyboard) ["virtual_keyboard"])
      (hub_for 2)
      [viiper_client_create "127.0.0.1" 3242;
       viiper_bus_list 1; printf "Using existing bus %u\n" [ArgU 7];
       viiper_free_bus_list_response;
       viiper_add_device_and_connect 1 7 Keyboard.createReq;
       viiper_get_error 1;
       fprintf_stderr "add_device_and_connect failed: %s\n" [ArgS "rpc failure"];
       viiper_client_free 1]
      w' (Returned 1%Z).
Proof.
  eexists.
  refine (proj1 (@main_add_device_fails hid_keyboard xinput_pad Hub.state
                   Hub.handler (hub_for 2) (Hub.tick (hub_for 2))
                   (Hub.tick (Hub.tick (hub_for 2)))
                   ["virtual_keyboard"] default_host 3242%Z
                   "127.0.0.1" 1
                   [viiper_bus_list 1; printf "Using existing bus %u\n" [ArgU 7];
                    viiper_free_bus_list_response]
                   7%Z Keyboard.createReq eq_refl eq_refl _ _ eq_refl)
            eq_refl eq_refl).
  - split; [discriminate|]. exists 10. reflexivity.
  - discriminate.
Defined.

(* ===================================================================== *)
(** * The pad: the end of main                                            *)
(* ===================================================================== *)

(** The calls of [main_teardown] and its result, in any world. *)
Lemma main_teardown_run
  {W : Type} (h : forall c : call, W -> resp c * W) (w : W)
  (client dev : handle) (busId : Z) :
  let w1 := snd (h (viiper_device_close dev) w) in
  let rc := fst (h (viiper_bus_remove client busId) w1) in
  let w2 := snd (h (viiper_bus_remove client busId) w1) in
  let err := fst (h (viiper_get_error client) w2) in
  exists w',
    yields h (X360Pad.main_teardown client dev busId) w
      ([viiper_device_close dev; viiper_bus_remove client busId]
       ++ (if is_ok rc then []
           else [viiper_get_error client;
                 fprintf_stderr "BusRemove failed (continuing): %s\n" [ArgS err]])
       ++ [viiper_client_free client])
      w' (Returned 0%Z).
Proof.
  intros w1 rc w2 err. unfold X360Pad.main_teardown.
  destruct (is_ok rc) eqn:Hrc; eexists.
  - run_step. fold w1. run_step. fold rc w2. rewrite Hrc. cbn [negb app].
    run_step. run_step. run_step.
  - run_step. fold w1. run_step. fold rc w2. rewrite Hrc. cbn [negb app].
    eapply (yields_bind h _ _ _
              [viiper_get_error client;
               fprintf_stderr "BusRemove failed (continuing): %s\n" [ArgS err]]).
    + run_step. fold err. run_step.
    + run_step. run_step.
Qed.

(** X6. What the pad's [main] does after its loop returns 0 whatever the
    library answers: it closes the device first, then asks for the bus to
    be removed, and frees the client last.  A failed removal is not an
    error of the program: it only adds the reading and printing of the
    error text, after "BusRemove failed (continuing)". *)
Theorem pad_teardown_returns_zero
  (W : Type) (h : forall c : call, W -> resp c * W) (w : W)
  (client dev : handle) (busId : Z) :
  let w1 := snd (h (viiper_device_close dev) w) in
  let rc := fst (h (viiper_bus_remove client busId) w1) in
  let w2 := snd (h (viiper_bus_remove client busId) w1) in
  let err := fst (h (viiper_get_error client) w2) in
  exists w',
    yields h (X360Pad.main_teardown client dev busId) w
      ([viiper_device_close dev; viiper_bus_remove client busId]
       ++ (if is_ok rc then []
           else [viiper_get_error client;
                 fprintf_stderr "BusRemove failed (continuing): %s\n" [ArgS err]])
       ++ [viiper_client_free client])
      w' (Returned 0%Z).
Proof. exact (main_teardown_run h w client dev busId). Qed.

(* ===================================================================== *)
(** * The pad: the reports of the loop                                    *)
(* ===================================================================== *)



(** A run of [t;; k], when [t] returns after the calls [tr1]: it has gone
    through [t] and into [k], or it has stopped inside [t]. *)
Lemma run_bind_prefix {W} (h : forall c : call, W -> resp c * W)
  {R T} (t : itree E R) (k : R -> itree E T) w tr1 w1 r n :
  yields h t w tr1 w1 (Returned r) ->
  (exists m, m <= n /\
     run h n (ITree.bind t k) w =
     (tr1 ++ fst (fst (run h m (k r) w1)),
      snd (fst (run h m (k r) w1)), snd (run h m (k r) w1))) \/
  (exists trn wn more,
     run h n (ITree.bind t k) w = (trn, wn, Running) /\ tr1 = trn ++ more).
Proof.
  intros [_ [n0 Hn0]].
  pose proof (run_bind_cases h k n t w) as Hcases.
  destruct (Nat.le_gt_cases n0 n) as [Hle|Hgt].
  - rewrite (run_stable h n0 t w tr1 w1 (Returned r) n Hn0 ltac:(discriminate) Hle)
      in Hcases.
    now left.
  - destruct (run_less h n n0 t w ltac:(lia)) as [[more Hmore] Hend].
    rewrite Hn0 in Hmore, Hend. cbn [fst snd] in Hmore.
    destruct Hend as [Hrun|Heq].
    + destruct (run h n t w) as [[trn wn] on]. cbn [fst snd] in *. subst on.
      right. now exists trn, wn, more.
    + rewrite Heq in Hcases. now left.
Qed.

Lemma sent_inputs_app (tr1 tr2 : list call) :
  sent_inputs (tr1 ++ tr2) = sent_inputs tr1 ++ sent_inputs tr2.
Proof. apply flat_map_app. Qed.

(** A part that returns, followed by a rest: from some amount of fuel on,
    the run is the calls of the part and then the run of the rest on the
    fuel that is left. *)
Lemma run_bind_exact {W} (h : forall c : call, W -> resp c * W)
  {R T} (t : itree E R) (k : R -> itree E T) w tr1 w1 r :
  yields h t w tr1 w1 (Returned r) ->
  exists n0, forall m,
    run h (n0 + m) (ITree.bind t k) w =
    (tr1 ++ fst (fst (run h m (k r) w1)),
     snd (fst (run h m (k r) w1)), snd (run h m (k r) w1)).
Proof.
  intros [_ [n Hn]]. revert t w tr1 Hn.
  induction n as [|n IH]; intros t w tr1 Hn.
  - simpl in Hn. inversion Hn.
  - rewrite run_S in Hn.
    destruct (observe t) as [r0|t'|X e ke] eqn:Hobs.
    + inversion Hn; subst. exists 0. intros m. cbn [Nat.add app].
      destruct m as [|m]; [reflexivity|].
      rewrite (run_S h m (ITree.bind t k)), observe_bind, Hobs.
      rewrite <- (run_S h m (k r) w1).
      now destruct (run h (S m) (k r) w1) as [[tr2 w2] o2].
    + destruct (IH t' w tr1 Hn) as [n0 Hn0]. exists (S n0). intros m.
      change (S n0 + m) with (S (n0 + m)).
      rewrite run_S, observe_bind, Hobs. cbn [observe _observe].
      apply Hn0.
    + destruct (answer h e w) as [[[c x] w0]|] eqn:Hans; [|inversion Hn].
      destruct (run h n (ke x) w0) as [[tr0 w3] o0] eqn:Hke.
      inversion Hn; subst.
      destruct (IH (ke x) w0 tr0 Hke) as [n0 Hn0]. exists (S n0). intros m.
      change (S n0 + m) with (S (n0 + m)).
      rewrite run_S, observe_bind, Hobs. cbn [observe _observe].
      rewrite Hans, Hn0. reflexivity.
Qed.

Lemma replay_app {W} (h : forall c : call, W -> resp c * W)
  (tr1 tr2 : list call) (w : W) :
  replay h (tr1 ++ tr2) w = replay h tr2 (replay h tr1 w).
Proof. apply fold_left_app. Qed.

Section PadLoop.

Context `{viiper_xbox360_h}.
Context {W : Type} (h : forall c : call, W -> resp c * W).
Variables client dev : handle.

(** One turn of the loop of [main], from the frame counter [frame]. *)
Let turn (frame : Z) : itree E (Z + unit) :=
  let frame := C.to_ull (frame + 1) in
  let in_ := X360Pad.input_of_frame frame in
  rc <- do (viiper_device_send dev (X360Input in_) sizeof_viiper_xbox360_input_t);;
  if negb (is_ok rc) then
    err <- do (viiper_get_error client);;
    do (fprintf_stderr "send error: %s\n" [ArgS err]);;
    Ret (inr tt)
  else
    (if (frame mod 60 =? 0)%Z then
       do (printf "→ Sent input (frame %llu): buttons=0x%04x, LT=%u, RT=%u\n"
             [ArgU frame; ArgU (buttons in_); ArgU (lt in_); ArgU (rt in_)])
     else Ret tt);;
    sleep_ms 16;;
    Ret (inl frame).

Lemma main_loop_turns :
  X360Pad.main_loop client dev = ITree.iter turn 0%Z.
Proof. reflexivity. Qed.

(** A turn sends the report of the next frame; it ends the loop, after
    reading and printing the error, exactly when the send failed. *)
Lemma turn_run (f : Z) (w : W) :
  let send :=
    viiper_device_send dev (X360Input (X360Pad.input_of_frame (C.to_ull (f + 1))))
      sizeof_viiper_xbox360_input_t in
  exists rest w' r,
    yields h (turn f) w (send :: rest) w' (Returned r) /\
    sent_inputs rest = [] /\
    ((is_ok (fst (h send w)) = false /\ r = inr tt /\
      exists err,
        rest = [viiper_get_error client;
                fprintf_stderr "send error: %s\n" [ArgS err]]) \/
     (is_ok (fst (h send w)) = true /\ r = inl (C.to_ull (f + 1)))).
Proof.
  intros send. unfold turn. cbv zeta. fold send.
  destruct (is_ok (fst (h send w))) eqn:Hrc.
  - destruct ((C.to_ull (f + 1) mod 60 =? 0)%Z); do 3 eexists;
      (split; [|split; [|right; split; reflexivity]]).
    + run_step. rewrite Hrc. cbn [negb].
      eapply yields_bind; [run_step|]. unfold sleep_ms. run_step. run_step.
    + reflexivity.
    + run_step. rewrite Hrc. cbn [negb].
      eapply yields_bind; [run_step|]. unfold sleep_ms. run_step. run_step.
    + reflexivity.
  - do 3 eexists. split; [|split; [|left; repeat split; eexists; reflexivity]].
    + run_step. rewrite Hrc. cbn [negb]. run_step. run_step. run_step.
    + reflexivity.
Qed.

(** The frames sent from the counter [f] on. *)
Let frames (f : Z) (k : nat) : list viiper_xbox360_input_t :=
  map (fun i => X360Pad.input_of_frame (C.to_ull (f + Z.of_nat i))) (seq 1 k).

Lemma frames_next (f : Z) (k : nat) :
  X360Pad.input_of_frame (C.to_ull (f + 1)) :: frames (C.to_ull (f + 1)) k
  = frames f (S k).
Proof.
  unfold frames. cbn [seq map]. f_equal.
  rewrite <- (seq_shift k 1), map_map. apply map_ext. intros i.
  f_equal. unfold C.to_ull.
  replace (f + Z.of_nat (S i))%Z with (f + 1 + Z.of_nat i)%Z by lia.
  now rewrite Zplus_mod_idemp_l.
Qed.

(** Every run of the loop, however long. *)
Lemma turns_run (n : nat) : forall (f : Z) (w : W),
  exists k,
    sent_inputs (fst (fst (run h n (ITree.iter turn f) w))) = frames f k /\
    snd (run h n (ITree.iter turn f) w) <> Undef /\
    (snd (run h n (ITree.iter turn f) w) = Returned tt ->
     exists before input err,
       fst (fst (run h n (ITree.iter turn f) w)) =
       before ++
       [viiper_device_send dev (X360Input input) sizeof_viiper_xbox360_input_t;
        viiper_get_error client;
        fprintf_stderr "send error: %s\n" [ArgS err]]) /\
    (sends_succeed h -> snd (run h n (ITree.iter turn f) w) = Running).
Proof.
  induction n as [n IH] using lt_wf_ind. intros f w.
  rewrite (run_observe h (ITree.iter turn f)
             (ITree.bind (turn f)
                (fun lr => ITree.on_left lr l (Tau (ITree.iter turn l))))
             n w eq_refl).
  destruct (turn_run f w) as [rest [w' [r [Hturn [Hrest Hcase]]]]].
  cbv zeta in Hturn, Hcase.
  set (send := viiper_device_send dev
                 (X360Input (X360Pad.input_of_frame (C.to_ull (f + 1))))
                 sizeof_viiper_xbox360_input_t) in *.
  destruct (run_bind_prefix h (turn f)
              (fun lr => ITree.on_left lr l (Tau (ITree.iter turn l)))
              w (send :: rest) w' r n Hturn)
    as [[m [Hm Hrun]]|[trn [wn [more [Hrun Hpre]]]]]; rewrite Hrun; cbn [fst snd].
  - destruct Hcase as [[Hfail [-> [err ->]]]|[Hok ->]]; cbv beta iota.
    + (* the send failed: the loop ends *)
      exists 1.
      assert (Hend : fst (fst (run h m (Ret tt : itree E unit) w')) = []
                     /\ snd (run h m (Ret tt : itree E unit) w') <> Undef).
      { destruct m; cbn; split; [reflexivity|discriminate| reflexivity|discriminate]. }
      destruct Hend as [Htr Ho]. rewrite Htr.
      split; [reflexivity|]. split; [exact Ho|]. split.
      * intros _. exists [], (X360Pad.input_of_frame (C.to_ull (f + 1))), err.
        reflexivity.
      * intros Hsends. specialize (Hsends dev
          (X360Input (X360Pad.input_of_frame (C.to_ull (f + 1))))
          sizeof_viiper_xbox360_input_t w).
        fold send in Hsends. congruence.
    + (* the send was accepted: the loop goes on *)
      destruct m as [|m].
      * exists 1. cbn [run fst snd]. rewrite app_nil_r.
        split; [cbn [sent_inputs flat_map]; fold (sent_inputs rest);
                now rewrite Hrest|].
        split; [discriminate|]. split; [discriminate|reflexivity].
      * rewrite run_S. cbn [observe _observe].
        destruct (IH m ltac:(lia) (C.to_ull (f + 1)) w')
          as [k [Hsent [Hundef [Hret Hsends]]]].
        exists (S k). split; [|split; [exact Hundef|split; [|exact Hsends]]].
        -- change (send :: rest) with ([send] ++ rest).
           rewrite !sent_inputs_app, Hrest, Hsent. cbn [sent_inputs flat_map app].
           apply frames_next.
        -- intros Hreturned.
           destruct (Hret Hreturned) as [before [input [err Htr]]].
           exists ((send :: rest) ++ before), input, err.
           now rewrite Htr, app_assoc.
  - (* the fuel ran out inside the turn *)
    assert (Hsent : sent_inputs trn = [] \/
                    sent_inputs trn = [X360Pad.input_of_frame (C.to_ull (f + 1))]).
    { destruct trn as [|c trn]; [now left|right].
      inversion Hpre; subst.
      rewrite sent_inputs_app in Hrest. apply app_eq_nil in Hrest.
      change (send :: trn) with ([send] ++ trn).
      rewrite sent_inputs_app, (proj1 Hrest). reflexivity. }
    destruct Hsent as [Hsent|Hsent]; [exists 0|exists 1]; rewrite Hsent;
      (split; [reflexivity|]); (split; [discriminate|]);
      (split; [discriminate|reflexivity]).
Qed.

Lemma pad_turns_S (k : nat) :
  pad_turns dev (S k) = pad_turns dev k ++ pad_turn_calls dev (S k).
Proof.
  unfold pad_turns. rewrite seq_S, flat_map_app. cbn [flat_map Nat.add].
  now rewrite app_nil_r.
Qed.

Lemma to_ull_S (k : nat) :
  C.to_ull (C.to_ull (Z.of_nat k) + 1) = C.to_ull (Z.of_nat (S k)).
Proof.
  unfold C.to_ull. rewrite Zplus_mod_idemp_l. f_equal. lia.
Qed.

(** A turn whose report is accepted: its calls, and the next counter. *)
Lemma turn_accepted (k : nat) (w : W) :
  is_ok (fst (h (pad_send dev (S k)) w)) = true ->
  yields h (turn (C.to_ull (Z.of_nat k))) w
    (pad_turn_calls dev (S k)) (replay h (pad_turn_calls dev (S k)) w)
    (Returned (inl (C.to_ull (Z.of_nat (S k))))).
Proof.
  unfold turn, pad_turn_calls, pad_send. cbv zeta. rewrite to_ull_S.
  intros Hok. run_step. rewrite Hok. cbn [negb].
  destruct ((C.to_ull (Z.of_nat (S k)) mod 60 =? 0)%Z).
  - eapply (yields_bind h _ _ _ [_]); [run_step|].
    unfold sleep_ms. run_step. run_step.
  - eapply (yields_bind h _ _ _ []); [run_step|].
    unfold sleep_ms. run_step. run_step.
Qed.

(** A turn whose report is refused: the loop ends after the error line. *)
Lemma turn_refused (k : nat) (w : W) :
  is_ok (fst (h (pad_send dev (S k)) w)) = false ->
  let w1 := snd (h (pad_send dev (S k)) w) in
  let err := fst (h (viiper_get_error client) w1) in
  exists w',
    yields h (ITree.iter turn (C.to_ull (Z.of_nat k))) w
      [pad_send dev (S k); viiper_get_error client;
       fprintf_stderr "send error: %s\n" [ArgS err]]
      w' (Returned tt).
Proof.
  intros Hrefused w1 err. eexists. apply yields_iter_stop.
  unfold turn. cbv zeta. rewrite to_ull_S. fold (pad_send dev (S k)).
  run_step. rewrite Hrefused. cbn [negb]. fold w1.
  run_step. fold err. run_step. run_step.
Qed.

(** After [k] accepted turns the loop is at its turn [k + 1], in the world
    the calls of these turns have left. *)
Lemma loop_after_turns (w : W) (k : nat) :
  (forall i, 1 <= i <= k -> pad_send_accepted h dev w i = true) ->
  exists n, forall m,
    run h (n + m) (ITree.iter turn 0%Z) w =
    (pad_turns dev k
     ++ fst (fst (run h m (ITree.iter turn (C.to_ull (Z.of_nat k)))
                    (replay h (pad_turns dev k) w))),
     snd (fst (run h m (ITree.iter turn (C.to_ull (Z.of_nat k)))
                 (replay h (pad_turns dev k) w))),
     snd (run h m (ITree.iter turn (C.to_ull (Z.of_nat k)))
            (replay h (pad_turns dev k) w))).
Proof.
  induction k as [|k IH]; intros Hacc.
  - exists 0. intros m. cbn [Nat.add pad_turns seq flat_map app replay fold_left].
    change (C.to_ull (Z.of_nat 0)) with 0%Z.
    now destruct (run h m (ITree.iter turn 0%Z) w) as [[tr w'] o].
  - destruct (IH ltac:(intros i Hi; apply Hacc; lia)) as [n Hn].
    pose proof (Hacc (S k) ltac:(lia)) as Hok.
    unfold pad_send_accepted in Hok.
    replace (S k - 1) with k in Hok by lia.
    pose proof (turn_accepted k _ Hok) as Hturn.
    destruct (run_bind_exact h _
                (fun lr => ITree.on_left lr l (Tau (ITree.iter turn l)))
                _ _ _ _ Hturn) as [n1 Hn1].
    exists (n + (n1 + 1)). intros m.
    replace (n + (n1 + 1) + m) with (n + (n1 + S m)) by lia.
    rewrite Hn.
    rewrite (run_observe h (ITree.iter turn (C.to_ull (Z.of_nat k)))
               (ITree.bind (turn (C.to_ull (Z.of_nat k)))
                  (fun lr => ITree.on_left lr l (Tau (ITree.iter turn l))))
               (n1 + S m) _ eq_refl).
    rewrite Hn1. cbv beta iota. rewrite run_S. cbn [observe _observe fst snd].
    rewrite pad_turns_S, replay_app, app_assoc. reflexivity.
Qed.

Lemma sent_inputs_pad_turns (k : nat) :
  sent_inputs (pad_turns dev k)
  = map (fun i => X360Pad.input_of_frame (C.to_ull (Z.of_nat i))) (seq 1 k).
Proof.
  induction k as [|k IH]; [reflexivity|].
  rewrite pad_turns_S, sent_inputs_app, IH, seq_S, map_app.
  f_equal. unfold pad_turn_calls, pad_send. cbv zeta.
  now destruct ((C.to_ull (Z.of_nat (S k)) mod 60 =? 0)%Z).
Qed.

End PadLoop.

(** X7. The pad's loop sends the reports of frames 1, 2, 3, ... in this
    order, exactly one per turn.  As long as the reports are accepted the
    loop goes on: after [k] accepted turns it has made the calls of these
    [k] turns and no other (a report, the progress line in every 60th
    turn, a sleep of 16 ms) and is still running.  It ends at the first
    report that is refused, right after reading the error text and printing
    it after "send error", and it ends in no other way: however long it runs, what
    it has sent is the reports of the frames 1 to some [k], it has not run
    into undefined behaviour, it has returned only right after a send, the
    reading of the error text and the line "send error", and where every
    send is accepted it has not returned. *)
Theorem pad_loop_sends_frames_in_order `{viiper_xbox360_h}
  (W : Type) (h : forall c : call, W -> resp c * W) (w : W)
  (client dev : handle) :
  (forall k,
     sent_inputs (pad_turns dev k)
     = map (fun i => X360Pad.input_of_frame (C.to_ull (Z.of_nat i))) (seq 1 k)) /\
  (forall k,
     (forall i, 1 <= i <= k -> pad_send_accepted h dev w i = true) ->
     (exists n,
        run h n (X360Pad.main_loop client dev) w
        = (pad_turns dev k, replay h (pad_turns dev k) w, Running)) /\
     (pad_send_accepted h dev w (S k) = false ->
      let w1 := snd (h (pad_send dev (S k)) (replay h (pad_turns dev k) w)) in
      let err := fst (h (viiper_get_error client) w1) in
      exists w',
        yields h (X360Pad.main_loop client dev) w
          (pad_turns dev k
           ++ [pad_send dev (S k); viiper_get_error client;
               fprintf_stderr "send error: %s\n" [ArgS err]])
          w' (Returned tt))) /\
  (forall n, exists k,
     sent_inputs (fst (fst (run h n (X360Pad.main_loop client dev) w)))
     = map (fun i => X360Pad.input_of_frame (C.to_ull (Z.of_nat i))) (seq 1 k) /\
     snd (run h n (X360Pad.main_loop client dev) w) <> Undef /\
     (snd (run h n (X360Pad.main_loop client dev) w) = Returned tt ->
      exists before input err,
        fst (fst (run h n (X360Pad.main_loop client dev) w)) =
        before ++
        [viiper_device_send dev (X360Input input) sizeof_viiper_xbox360_input_t;
         viiper_get_error client;
         fprintf_stderr "send error: %s\n" [ArgS err]]) /\
     (sends_succeed h ->
      snd (run h n (X360Pad.main_loop client dev) w) = Running)).
Proof.
  split; [exact (sent_inputs_pad_turns dev)|]. split.
  - intros k Hacc.
    destruct (loop_after_turns h client dev w k Hacc) as [n Hn].
    split.
    + exists n. specialize (Hn 0). rewrite Nat.add_0_r in Hn.
      rewrite (main_loop_turns client dev), Hn.
      cbn [run fst snd]. now rewrite app_nil_r.
    + intros Hrefused w1 err.
      unfold pad_send_accepted in Hrefused.
      replace (S k - 1) with k in Hrefused by lia.
      destruct (turn_refused h client dev k _ Hrefused) as [w' [Ho [m Hm]]].
      exists w'. split; [exact Ho|]. exists (n + m).
      rewrite (main_loop_turns client dev), Hn, Hm. reflexivity.
  - intros n. exact (turns_run h client dev n 0%Z w).
Qed.

Lemma pad_loop_sends_frames_in_order_witness :
  let s :=
    snd (Hub.handler (viiper_add_device_and_connect 1 7 X360Pad.createReq)
           (hub_for 4)) in
  (exists n,
     run willing n (X360Pad.main_loop (H := xinput_pad) 1 1) tt
     = (pad_turns (H := xinput_pad) 1 60, tt, Running)) /\
  (exists s',
     yields Hub.handler (X360Pad.main_loop (H := xinput_pad) 1 1) s
       (pad_turns (H := xinput_pad) 1 2
        ++ [pad_send (H := xinput_pad) 1 3; viiper_get_error 1;
            fprintf_stderr "send error: %s\n"
              [ArgS "device transport failure"]])
       s' (Returned tt)) /\
  (forall n,
     snd (run willing n (X360Pad.main_loop (H := xinput_pad) 1 1) tt) = Running).
Proof.
  cbv zeta. split; [|split].
  - destruct (@pad_loop_sends_frames_in_order xinput_pad unit willing tt 1 1)
      as [_ [Hturns _]].
    destruct (Hturns 60) as [[n Hn] _].
    + intros i Hi. reflexivity.
    + exists n. rewrite Hn. reflexivity.
  - destruct (@pad_loop_sends_frames_in_order xinput_pad Hub.state Hub.handler
                (snd (Hub.handler
                        (viiper_add_device_and_connect 1 7 X360Pad.createReq)
                        (hub_for 4))) 1 1)
      as [_ [Hturns _]].
    destruct (Hturns 2) as [_ Hends].
    + intros i Hi.
      destruct i as [|[|[|i]]]; [lia|reflexivity|reflexivity|lia].
    + exact (Hends eq_refl).
  - intros n.
    destruct (@pad_loop_sends_frames_in_order xinput_pad unit willing tt 1 1)
      as [_ [_ Hruns]].
    destruct (Hruns n) as [k [_ [_ [_ Hgoes]]]].
    apply Hgoes. intros dev data size w. reflexivity.
Defined.

(** A pad whose third report is refused: the loop has handed over the
    frames 1, 2 and 3 and has ended. *)
Example pad_loop_ends_on_refusal :
  let s :=
    snd (Hub.handler (viiper_add_device_and_connect 1 7 X360Pad.createReq)
           (hub_for 4)) in
  exists tr s',
    run Hub.handler 20 (X360Pad.main_loop (H := xinput_pad) 1 1) s
    = (tr, s', Returned tt) /\
    sent_inputs tr =
    map (fun i => X360Pad.input_of_frame (H := xinput_pad) (Z.of_nat i)) [1; 2; 3].
Proof. cbv zeta. do 2 eexists. split; vm_compute; reflexivity. Qed.

(* ===================================================================== *)
(** * main: the arguments, whatever they are                              *)
(* ===================================================================== *)

(** With one argument that holds a colon, the argument handling gets as
    far as [atoi] without a call, with the host copied. *)
Lemma main_args_colon (usage prog addr : string) (colon : nat) :
  C.strrchr addr ":" = Some colon ->
  observe (Example.main_args usage [prog; addr])
  = observe (n <- defined (C.atoi (C.offset addr (S colon)));;
             Ret (inr (host_of addr colon, C.to_uint16_t n))).
Proof.
  intros Hcolon.
  pose proof (strrchr_lt addr ":" colon Hcolon) as Hlt.
  unfold Example.main_args. cbv zeta.
  change (List.length [prog; addr] <=? 1)%nat with false.
  change (List.length [prog; addr] =? 2)%nat with true.
  change (nth 1 [prog; addr] "") with addr.
  cbv iota. rewrite Hcolon.
  unfold host_of.
  set (len := if (256 <=? colon)%nat then 255 else colon).
  assert (Hle : len <= 255).
  { subst len. destruct (Nat.leb_spec 256 colon); lia. }
  assert (Hlen : len <= String.length addr).
  { subst len. destruct (Nat.leb_spec 256 colon); lia. }
  rewrite (memcpy_uninit (list_ascii_of_string addr) len 256)
    by (rewrite ?length_list_ascii_of_string; lia).
  replace (256 - len) with (S (255 - len)) by lia.
  change (@C.uninit ascii (S (255 - len))) with (@None ascii :: C.uninit (255 - len)).
  assert (Hfirst : List.length (firstn len (list_ascii_of_string addr)) = len).
  { rewrite length_firstn, length_list_ascii_of_string. lia. }
  pose proof (store_after (firstn len (list_ascii_of_string addr)) None
                (C.uninit (255 - len)) C.NUL) as Hstore.
  rewrite Hfirst in Hstore.
  cbn [defined]. rewrite observe_bind. cbn [observe _observe].
  rewrite Hstore.
  cbn [defined]. rewrite observe_bind. cbn [observe _observe].
  reflexivity.
Qed.

(** A buffer that holds characters and then a NUL holds a C string, no
    longer than the characters. *)
Lemma cstring_terminated (l : list ascii) (rest : C.array ascii) :
  exists name,
    C.cstring (map Some l ++ Some C.NUL :: rest) = Some name /\
    String.length name <= List.length l.
Proof.
  induction l as [|a l [name [Hname Hlen]]]; cbn [map app C.cstring].
  - exists EmptyString. split; [reflexivity|cbn; lia].
  - destruct (Ascii.eqb a C.NUL).
    + exists EmptyString. split; [reflexivity|cbn; lia].
    + rewrite Hname. exists (String a name). split; [reflexivity|cbn; lia].
Qed.

(** X9. Whatever its arguments, the argument handling of [main] ends
    in one of three ways.  It prints the usage line and makes [main]
    return 1; or it hands over, without a call, a 256-byte buffer that holds
    a NUL-terminated host name of at most 255 characters and a port between
    0 and 65535; or it is undefined, and then only because the number after
    the last colon does not fit an [int] for [atoi].  No argument makes it
    write outside the buffer. *)
Theorem main_args_is_safe
  (W : Type) (h : forall c : call, W -> resp c * W) (w : W)
  (usage : string) (argv : list string) :
  exists tr w' o,
    yields h (Example.main_args usage argv) w tr w' o /\
    match o with
    | Returned (inl status) =>
      status = 1%Z /\ tr = [fprintf_stderr usage []]
    | Returned (inr (host, port)) =>
      tr = [] /\ List.length host = 256 /\
      (exists name, C.cstring host = Some name /\ String.length name <= 255) /\
      (0 <= port < 65536)%Z
    | Undef =>
      tr = [] /\
      exists prog addr colon,
        argv = [prog; addr] /\ C.strrchr addr ":" = Some colon /\
        C.atoi (C.offset addr (S colon)) = None
    | Running => False
    end.
Proof.
  assert (Hdefault : List.length argv <= 1 ->
    exists tr w' o,
      yields h (Example.main_args usage argv) w tr w' o /\
      o = Returned (inr (default_host, 3242%Z)) /\ tr = []).
  { intros Hargc. exists [], w, (Returned (inr (default_host, 3242%Z))).
    split; [|now split].
    apply (yields_observe h _ (Ret (inr (default_host, 3242%Z)))).
    - now apply main_args_default.
    - apply yields_ret. }
  assert (Husage :
    (exists prog addr, argv = [prog; addr] /\ C.strrchr addr ":" = None) \/
    2 < List.length argv ->
    exists tr w' o,
      yields h (Example.main_args usage argv) w tr w' o /\
      o = Returned (inl 1%Z) /\ tr = [fprintf_stderr usage []]).
  { intros Hargv. do 3 eexists. split; [|split; reflexivity].
    apply (yields_observe h _ (do (fprintf_stderr usage []);; Ret (inl 1%Z))).
    - now apply main_args_usage.
    - run_step. run_step. }
  destruct argv as [|prog [|addr [|third rest]]].
  - destruct (Hdefault ltac:(cbn; lia)) as [tr [w' [o [Hrun [-> ->]]]]].
    exists [], w', (Returned (inr (default_host, 3242%Z))).
    split; [exact Hrun|]. repeat split; try lia.
    exists "127.0.0.1". split; [reflexivity|cbn; lia].
  - destruct (Hdefault ltac:(cbn; lia)) as [tr [w' [o [Hrun [-> ->]]]]].
    exists [], w', (Returned (inr (default_host, 3242%Z))).
    split; [exact Hrun|]. repeat split; try lia.
    exists "127.0.0.1". split; [reflexivity|cbn; lia].
  - destruct (C.strrchr addr ":") as [colon|] eqn:Hcolon.
    + pose proof (strrchr_lt addr ":" colon Hcolon) as Hlt.
      destruct (host_of_spec addr colon Hlt) as [Hle [Hlen _]].
      destruct (C.atoi (C.offset addr (S colon))) as [n|] eqn:Hatoi.
      * exists [], w, (Returned (inr (host_of addr colon, C.to_uint16_t n))).
        split.
        -- apply (yields_observe h _ (Ret (inr (host_of addr colon, C.to_uint16_t n)))).
           ++ now apply main_args_address.
           ++ apply yields_ret.
        -- split; [reflexivity|]. split; [exact Hlen|]. split.
           ++ unfold host_of.
              destruct (cstring_terminated
                          (firstn (if (256 <=? colon)%nat then 255 else colon)
                             (list_ascii_of_string addr))
                          (C.uninit (255 - (if (256 <=? colon)%nat then 255 else colon))))
                as [name [Hname Hshort]].
              exists name. split; [exact Hname|].
              rewrite length_firstn in Hshort. lia.
           ++ unfold C.to_uint16_t. apply Z.mod_pos_bound. lia.
      * exists [], w, Undef. split.
        -- apply (yields_observe h _ _ w _ _ _
                    (main_args_colon usage prog addr colon Hcolon)).
           rewrite Hatoi. apply yields_undefined_bind.
        -- split; [reflexivity|]. now exists prog, addr, colon.
    + destruct (Husage ltac:(left; now exists prog, addr))
        as [tr [w' [o [Hrun [-> ->]]]]].
      do 3 eexists. split; [exact Hrun|]. now split.
  - destruct (Husage ltac:(right; cbn; lia)) as [tr [w' [o [Hrun [-> ->]]]]].
    do 3 eexists. split; [exact Hrun|]. now split.
Qed.

(* ===================================================================== *)
(** * The address argument, written and read back                         *)
(* ===================================================================== *)

Lemma digits_uint d : forall acc, (0 <= acc)%Z ->
  C.digits (NilEmpty.string_of_uint d) acc = Z.of_nat (Nat.of_uint_acc d (Z.to_nat acc)).
Proof.
  induction d as [|d IH|d IH|d IH|d IH|d IH|d IH|d IH|d IH|d IH|d IH]; intros acc Hacc;
    cbn [NilEmpty.string_of_uint C.digits Nat.of_uint_acc];
    [lia | ..].
  all: change (C.isdigit _) with true; cbv iota;
       match goal with
       | |- context [Z.of_nat (nat_of_ascii ?a)] =>
         let v := eval vm_compute in (Z.of_nat (nat_of_ascii a)) in
         change (Z.of_nat (nat_of_ascii a)) with v
       end;
       rewrite IH by lia; rewrite Nat.tail_mul_spec; do 2 f_equal; lia.
Qed.
Lemma digits_are_digits d : forallb C.isdigit (list_ascii_of_string (NilEmpty.string_of_uint d)) = true.
Proof. induction d; cbn [NilEmpty.string_of_uint list_ascii_of_string forallb]; auto. Qed.
Lemma atoi_value_uint d : C.atoi_value (NilEmpty.string_of_uint d) = Z.of_nat (Nat.of_uint d).
Proof.
  transitivity (C.digits (NilEmpty.string_of_uint d) 0%Z).
  - destruct d; reflexivity.
  - now rewrite digits_uint by lia.
Qed.

Lemma atoi_decimal (n : nat) :
  (Z.of_nat n <= C.INT_MAX)%Z -> C.atoi (decimal n) = Some (Z.of_nat n).
Proof.
  intros Hn. unfold C.atoi, decimal. rewrite atoi_value_uint, DecimalNat.Unsigned.of_to.
  cbv zeta.
  replace (C.INT_MIN <=? Z.of_nat n)%Z with true
    by (symmetry; apply Z.leb_le; unfold C.INT_MIN; lia).
  replace (Z.of_nat n <=? C.INT_MAX)%Z with true by (symmetry; now apply Z.leb_le).
  reflexivity.
Qed.

Lemma digits_no_colon s :
  forallb C.isdigit (list_ascii_of_string s) = true -> no_colon s = true.
Proof.
  unfold no_colon. induction s as [|a s IH]; cbn [list_ascii_of_string forallb]; [reflexivity|].
  intros Hd. apply andb_true_iff in Hd as [Ha Hs]. rewrite (IH Hs), andb_true_r.
  destruct (Ascii.eqb_spec a ":") as [->|]; [discriminate Ha | reflexivity].
Qed.

Lemma digits_is_cstring s :
  forallb C.isdigit (list_ascii_of_string s) = true -> C.is_cstring s = true.
Proof.
  unfold C.is_cstring. induction s as [|a s IH]; cbn [list_ascii_of_string forallb]; [reflexivity|].
  intros Hd. apply andb_true_iff in Hd as [Ha Hs]. rewrite (IH Hs), andb_true_r.
  destruct (Ascii.eqb_spec a C.NUL) as [->|]; [discriminate Ha | reflexivity].
Qed.

Lemma strrchr_no_colon s : no_colon s = true -> C.strrchr s ":" = None.
Proof.
  unfold no_colon. induction s as [|a s IH]; cbn [list_ascii_of_string forallb C.strrchr]; [reflexivity|].
  intros Hd. apply andb_true_iff in Hd as [Ha Hs]. rewrite (IH Hs).
  destruct (Ascii.eqb a ":"); [discriminate Ha | reflexivity].
Qed.

Lemma strrchr_last_colon host rest :
  no_colon rest = true ->
  C.strrchr (host ++ String ":" rest)%string ":" = Some (String.length host).
Proof.
  intros Hrest. induction host as [|a host IH]; cbn [String.append C.strrchr String.length].
  - now rewrite (strrchr_no_colon rest Hrest).
  - now rewrite IH.
Qed.

Lemma offset_past host c rest :
  C.offset (host ++ String c rest)%string (S (String.length host)) = rest.
Proof.
  induction host as [|a host IH]; cbn [String.append C.offset String.length]; [|exact IH].
  destruct rest; reflexivity.
Qed.

Lemma is_cstring_app s1 s2 :
  C.is_cstring (s1 ++ s2)%string = C.is_cstring s1 && C.is_cstring s2.
Proof.
  unfold C.is_cstring. induction s1 as [|a s1 IH]; cbn [String.append list_ascii_of_string forallb]; [reflexivity|].
  now rewrite IH, andb_assoc.
Qed.

Lemma substring_prefix s1 s2 :
  substring 0 (String.length s1) (s1 ++ s2)%string = s1.
Proof.
  induction s1 as [|a s1 IH]; cbn [String.append String.length substring].
  - destruct s2; reflexivity.
  - now rewrite IH.
Qed.

Section RoundTrip.
Context `{viiper_keyboard_h} `{viiper_xbox360_h}.
Context {W : Type} (h : forall c : call, W -> resp c * W).

(** X10. Started with the one argument [host:port], where [host] is a C
    string of at most 255 characters (colons allowed, as in an IPv6
    address) and [port], below 65536, is written in decimal, both programs
    connect to exactly that host and that port. *)
Theorem main_address_round_trip (w : W) (prog host : string) (port : nat) :
  C.is_cstring host = true ->
  (String.length host <= 255)%nat ->
  (Z.of_nat port < 65536)%Z ->
  connects_to h (Keyboard.main [prog; address host port]) w host (Z.of_nat port) /\
  connects_to h (X360Pad.main [prog; address host port]) w host (Z.of_nat port).
Proof.
  intros Hhost Hlen Hport.
  pose proof (digits_are_digits (Nat.to_uint port)) as Hdigits.
  fold (decimal port) in Hdigits.
  pose proof (main_connects_to_address h w prog (address host port)
                (String.length host) (Z.of_nat port)) as Hmain.
  rewrite Nat.min_l in Hmain by exact Hlen.
  rewrite (substring_prefix host (String ":" (decimal port)) : substring 0 (String.length host) (address host port) = host) in Hmain.
  replace (C.to_uint16_t (Z.of_nat port)) with (Z.of_nat port) in Hmain.
  - apply Hmain.
    + unfold address. rewrite is_cstring_app, Hhost.
      change (C.is_cstring (String ":" (decimal port))) with (C.is_cstring (decimal port)).
      now rewrite digits_is_cstring.
    + apply strrchr_last_colon. now apply digits_no_colon.
    + unfold address. rewrite offset_past. apply atoi_decimal. unfold C.INT_MAX. lia.
  - unfold C.to_uint16_t. symmetry. apply Z.mod_small. lia.
Qed.

End RoundTrip.

Lemma main_address_round_trip_witness :
  connects_to Hub.handler
    (Keyboard.main (H := hid_keyboard) ["virtual_keyboard"; address "::1" 3242])
    (hub_with [] []) "::1" 3242 /\
  connects_to Hub.handler
    (X360Pad.main (H := xinput_pad) ["virtual_x360_pad"; address "::1" 3242])
    (hub_with [] []) "::1" 3242.
Proof.
  split.
  - exact (proj1 (@main_address_round_trip hid_keyboard xinput_pad Hub.state
                    Hub.handler (hub_with [] []) "virtual_keyboard" "::1" 3242
                    eq_refl ltac:(cbn; lia) eq_refl)).
  - exact (proj2 (@main_address_round_trip hid_keyboard xinput_pad Hub.state
                    Hub.handler (hub_with [] []) "virtual_x360_pad" "::1" 3242
                    eq_refl ltac:(cbn; lia) eq_refl)).
Defined.

(* ===================================================================== *)
(** * The pad's main, from the connection to the end                      *)
(* ===================================================================== *)

(** X12. Once the pad program has connected, got a bus other than 0 and
    added its device, and its loop has ended, [main] returns 0: the
    refused send that ends the loop does not show in the exit status.  Its
    calls are the connection, those of [choose_or_create_bus], the adding
    of the device, the registration of [on_rumble], those of the loop, and
    then the closing of the device, the removal of the bus and the freeing
    of the client.  The bus it asks to remove is the one it chose, whether
    it created that bus or found it. *)
Theorem pad_main_ends_with_teardown `{viiper_xbox360_h}
  (W : Type) (h : forall c : call, W -> resp c * W) (w0 w w1 w4 : W)
  (argv : list string) (host : C.array ascii) (port : Z) (hostname : string)
  (client : handle) (tr : list call) (busId : Z)
  (addResp : viiper_device_info_t) (dev : handle) (loop : list call) :
  let add := viiper_add_device_and_connect client busId X360Pad.createReq in
  let created :=
    printf "Created and connected device %s on bus %u (type: %s)\n"
      [ArgS (match DevId addResp with Some s => s | None => "(none)" end);
       ArgU busId;
       ArgS (match InfoType addResp with Some s => s | None => "unknown" end)] in
  let register := viiper_device_on_output dev None Callback_on_rumble in
  let connected := printf "Connected to device stream\n" [] in
  let w2 := snd (h created (snd (h add w1))) in
  let w3 := snd (h connected (snd (h register w2))) in
  let w5 := snd (h (viiper_device_close dev) w4) in
  let removed := h (viiper_bus_remove client busId) w5 in
  observe (Example.main_args "Usage: virtual_x360_pad [host:port]\n" argv)
  = RetF (inr (host, port)) ->
  C.cstring host = Some hostname ->
  h (viiper_client_create hostname port) w0 = ((VIIPER_OK, client), w) ->
  yields h (Example.choose_or_create_bus client) w tr w1 (Returned busId) ->
  busId <> 0%Z ->
  fst (h add w1) = (VIIPER_OK, addResp, dev) ->
  yields h (X360Pad.main_loop client dev) w3 loop w4 (Returned tt) ->
  exists w',
    yields h (X360Pad.main argv) w0
      (viiper_client_create hostname port :: tr
       ++ [add; created; register; connected]
       ++ loop
       ++ [viiper_device_close dev; viiper_bus_remove client busId]
       ++ (if is_ok (fst removed) then []
           else [viiper_get_error client;
                 fprintf_stderr "BusRemove failed (continuing): %s\n"
                   [ArgS (fst (h (viiper_get_error client) (snd removed)))]])
       ++ [viiper_client_free client])
      w' (Returned 0%Z).
Proof.
  intros add created register connected w2 w3 w5 removed
         Hargs Hhost Hcreate Hchoose Hbus Hadd Hloop.
  destruct (main_teardown_run h w4 client dev busId) as [w' Hdown].
  cbv zeta in Hdown. fold w5 removed in Hdown.
  exists w'.
  apply (yields_observe h _ (X360Pad.main_connected host port)).
  { unfold X360Pad.main. now rewrite (observe_bind_ret _ _ _ Hargs). }
  unfold X360Pad.main_connected. rewrite Hhost.
  eapply yields_observe; [apply observe_bind_ret; reflexivity|].
  run_step. rewrite Hcreate. cbn [fst snd negb is_ok].
  eapply yields_bind; [exact Hchoose|].
  apply Z.eqb_neq in Hbus. rewrite Hbus.
  change ([add; created; register; connected] ++ ?l) with
    (add :: created :: register :: connected :: l).
  run_step. fold add. rewrite Hadd. cbn [negb is_ok].
  run_step. run_step. run_step.
  eapply yields_bind; [exact Hloop|exact Hdown].
Qed.

Lemma pad_main_ends_with_teardown_witness :
  exists w',
    yields Hub.handler
      (X360Pad.main (H := xinput_pad) ["virtual_x360_pad"]) (hub_for 5)
      (viiper_client_create "127.0.0.1" 3242 ::
       [viiper_bus_list 1; printf "Using existing bus %u\n" [ArgU 7];
        viiper_free_bus_list_response]
       ++ [viiper_add_device_and_connect 1 7 X360Pad.createReq;
           printf "Created and connected device %s on bus %u (type: %s)\n"
             [ArgS "0"; ArgU 7; ArgS "xbox360"];
           viiper_device_on_output 1 None Callback_on_rumble;
           printf "Connected to device stream\n" []]
       ++ [viiper_device_send 1
             (X360Input (X360Pad.input_of_frame (H := xinput_pad) 1)) 14;
           usleep 16000;
           viiper_device_send 1
             (X360Input (X360Pad.input_of_frame (H := xinput_pad) 2)) 14;
           viiper_get_error 1;
           fprintf_stderr "send error: %s\n" [ArgS "device transport failure"]]
       ++ [viiper_device_close 1; viiper_bus_remove 1 7]
       ++ [viiper_get_error 1;
           fprintf_stderr "BusRemove failed (continuing): %s\n"
             [ArgS "rpc failure"]]
       ++ [viiper_client_free 1])
      w' (Returned 0%Z).
Proof.
  refine (@pad_main_ends_with_teardown xinput_pad Hub.state Hub.handler
            (hub_for 5) (Hub.tick (hub_for 5)) (Hub.tick (Hub.tick (hub_for 5)))
            (snd (fst (run Hub.handler 20
                         (X360Pad.main_loop (H := xinput_pad) 1 1)
                         (snd (Hub.handler
                                 (viiper_device_on_output 1 None Callback_on_rumble)
                                 (snd (Hub.handler
                                         (viiper_add_device_and_connect 1 7
                                            X360Pad.createReq)
                                         (Hub.tick (Hub.tick (hub_for 5))))))))))
            ["virtual_x360_pad"] default_host 3242%Z "127.0.0.1" 1 _ 7%Z
            {| DevId := Some "0"; InfoType := Some "xbox360" |} 1 _
            eq_refl eq_refl eq_refl _ _ eq_refl _).
  - split; [discriminate|]. exists 10. reflexivity.
  - discriminate.
  - split; [discriminate|]. exists 20. reflexivity.
Defined.

(* ===================================================================== *)
(** * The keyboard: one turn of the loop                                  *)
(* ===================================================================== *)

Lemma slept_us_app (tr1 tr2 : list call) :
  slept_us (tr1 ++ tr2) = (slept_us tr1 + slept_us tr2)%Z.
Proof.
  unfold slept_us. rewrite flat_map_app, fold_right_app.
  induction (flat_map _ tr1) as [|us l IH]; cbn [fold_right]; lia.
Qed.

Section Turn.

Context `{viiper_keyboard_h}.
Context {W : Type} (h : forall c : call, W -> resp c * W).

Lemma part_then {R T} (t : itree E R) (k : R -> itree E T) us1 us2 reports1 reports2 :
  turn_part h t us1 reports1 ->
  (forall r, turn_part h (k r) us2 reports2) ->
  turn_part h (ITree.bind t k) (us1 + us2)%Z (reports1 ++ reports2).
Proof.
  intros Ht Hk w.
  destruct (Ht w) as [tr1 [w1 [r1 [Hrun1 [Hus1 Hsent1]]]]].
  destruct (Hk r1 w1) as [tr2 [w2 [r [Hrun2 [Hus2 Hsent2]]]]].
  exists (tr1 ++ tr2), w2, r. split; [|split].
  - eapply yields_bind; [exact Hrun1|exact Hrun2].
  - rewrite slept_us_app. lia.
  - intros Hm. now rewrite sent_bytes_app, (Hsent1 Hm), (Hsent2 Hm).
Qed.

Lemma part_eq {R} (t : itree E R) us us' reports reports' :
  turn_part h t us reports -> us = us' -> reports = reports' -> turn_part h t us' reports'.
Proof. now intros Ht <- <-. Qed.

Lemma sleep_ms_part (ms : Z) : turn_part h (sleep_ms ms) (ms * 1000)%Z [].
Proof.
  intros w. unfold sleep_ms.
  exists [usleep (ms * 1000)], (snd (h (usleep (ms * 1000)) w)), tt.
  split; [|split; [cbn; lia|reflexivity]].
  pose proof (yields_do h (usleep (ms * 1000)) w) as Hsleep.
  now destruct (fst (h (usleep (ms * 1000)) w)).
Qed.

Lemma printf_part (fmt : string) (args : list arg) : turn_part h (do (printf fmt args)) 0%Z [].
Proof.
  intros w.
  exists [printf fmt args], (snd (h (printf fmt args) w)), tt.
  split; [|split; reflexivity].
  pose proof (yields_do h (printf fmt args) w) as Hprint.
  now destruct (fst (h (printf fmt args) w)).
Qed.

Lemma press_and_release_part (dev : handle) (modifiers key : byte) :
  turn_part h (Keyboard.press_and_release dev modifiers key) 200000%Z
    [[modifiers; x01; key]; [x00; x00]].
Proof.
  intros w.
  destruct (press_and_release_run h w dev modifiers key)
    as [pressed [released [w' [Hrun Hmalloc]]]].
  do 3 eexists. split; [exact Hrun|]. split.
  - now destruct pressed, released.
  - intros Hm. now destruct (Hmalloc Hm) as [-> ->].
Qed.

Lemma type_string_hello_part (dev : handle) :
  turn_part h (Keyboard.type_string_hello dev) 1200000%Z
    [[x02; x01; VIIPER_KEYBOARD_KEY_H]; [x00; x00];
     [x00; x01; VIIPER_KEYBOARD_KEY_E]; [x00; x00];
     [x00; x01; VIIPER_KEYBOARD_KEY_L]; [x00; x00];
     [x00; x01; VIIPER_KEYBOARD_KEY_L]; [x00; x00];
     [x00; x01; VIIPER_KEYBOARD_KEY_O]; [x00; x00];
     [x02; x01; VIIPER_KEYBOARD_KEY1]; [x00; x00]].
Proof.
  unfold Keyboard.type_string_hello.
  eapply part_eq.
  - repeat (eapply part_then; [apply press_and_release_part|intros _]).
    apply press_and_release_part.
  - reflexivity.
  - reflexivity.
Qed.

End Turn.

(** X13. One turn of the loop of the keyboard's [main] always returns,
    and it has slept 6.5 seconds in all by then, whatever the calls
    answer: 1.2 s inside [type_string_hello], 0.1 s, 0.2 s for the Enter
    key and then the 5 s of the last [sleep_ms].  Where [malloc] never
    fails the turn sends fourteen reports, the last two being the press of
    Enter without modifier and the release of all keys. *)
Theorem keyboard_turn_sleeps_and_types `{viiper_keyboard_h}
  (W : Type) (h : forall c : call, W -> resp c * W) (w : W) (dev : handle) :
  exists tr w',
    yields h
      (Keyboard.type_string_hello dev;;
       sleep_ms 100;;
       Keyboard.press_and_release dev x00 VIIPER_KEYBOARD_KEY_ENTER;;
       do (printf "→ Typed: Hello!\n" []);;
       sleep_ms 5000)
      w tr w' (Returned tt) /\
    slept_us tr = 6500000%Z /\
    (malloc_succeeds h ->
     List.length (sent_bytes tr) = 14 /\
     skipn 12 (sent_bytes tr) = [[x00; x01; VIIPER_KEYBOARD_KEY_ENTER]; [x00; x00]]).
Proof.
  destruct (part_then h _ _ _ _ _ _ (type_string_hello_part h dev)
    (fun _ => part_then h _ _ _ _ _ _ (sleep_ms_part h 100)
    (fun _ => part_then h _ _ _ _ _ _
                (press_and_release_part h dev x00 VIIPER_KEYBOARD_KEY_ENTER)
    (fun _ => part_then h _ _ _ _ _ _ (printf_part h "→ Typed: Hello!\n" [])
    (fun _ => sleep_ms_part h 5000)))) w)
    as [tr [w' [[] [Hrun [Hus Hsent]]]]].
  exists tr, w'. split; [exact Hrun|]. split; [exact Hus|].
  intros Hm. rewrite (Hsent Hm). split; reflexivity.
Qed.

Lemma keyboard_turn_sleeps_and_types_witness :
  exists tr w',
    yields willing
      (Keyboard.type_string_hello (H := hid_keyboard) 1;;
       sleep_ms 100;;
       Keyboard.press_and_release 1 x00 (@VIIPER_KEYBOARD_KEY_ENTER hid_keyboard);;
       do (printf "→ Typed: Hello!\n" []);;
       sleep_ms 5000)
      tt tr w' (Returned tt) /\
    slept_us tr = 6500000%Z /\
    List.length (sent_bytes tr) = 14 /\
    skipn 12 (sent_bytes tr)
    = [[x00; x01; @VIIPER_KEYBOARD_KEY_ENTER hid_keyboard]; [x00; x00]].
Proof.
  destruct (@keyboard_turn_sleeps_and_types hid_keyboard unit willing tt 1)
    as [tr [w' [Hrun [Hslept Hsent]]]].
  exists tr, w'. split; [exact Hrun|]. split; [exact Hslept|].
  apply Hsent. intros size w. reflexivity.
Defined.
